(** * rubberband-web: the real-time streaming buffer around the stretcher

    A shallow embedding of [wasm/src/rubberband/RealtimeRubberBand.cpp] (the
    kernel compiled to WebAssembly) and of [src/worklet/RealtimeRubberBand.ts]
    (the wrapper the audio worklet drives), with the properties of the
    push / fetch / pull protocol and of the ratio setters.

    The stretcher itself is an external collaborator: it is an interface
    ([Stretcher.api]) whose calls are recorded in a trace, so that the
    order and the number of calls the kernel makes can be stated. *)

From Stdlib Require Import ZArith Lia String.
From Stdlib Require Import Floats.PrimFloat Floats.FloatOps Floats.FloatAxioms Floats.SpecFloat.
From stdpp Require Import base list.

#[local] Open Scope Z_scope.

(** ** Numbers

    [double] (C++) and [number] (TypeScript) are IEEE binary64 values: the
    primitive [float], with its comparisons [PrimFloat.leb], [PrimFloat.ltb]
    and [PrimFloat.eqb].  [size_t] and [int] counts are integers [Z]; the few
    subtractions the kernel makes are guarded by a comparison, and the guard
    is part of the model.  A [float*] is an index into the heap counted in
    samples, as C++ pointer arithmetic on [float*] counts. *)

Definition double := float.

(** [x != y] on doubles. *)
Definition double_ne (x y : double) : bool := negb (PrimFloat.eqb x y).

(** Truthiness of a JavaScript number: neither zero nor NaN. *)
Definition js_truthy (x : double) : bool :=
  negb (PrimFloat.eqb x 0%float) && PrimFloat.eqb x x.

(** ** Exceptions and the effect monad *)

Inductive Exception : Type :=
| range_error (what : string)   (* std::range_error *)
| TypeError (what : string)     (* JavaScript: a property of undefined *)
| RangeError (what : string).   (* JavaScript: TypedArray.set, source too long *)

Inductive Result (A : Type) : Type :=
| Ok (a : A)
| Throw (e : Exception).
Arguments Ok {A} a.
Arguments Throw {A} e.

(** A method runs on a state [S]; it returns or throws, and the state it
    leaves behind is kept in both cases. *)
Definition Eff (S A : Type) : Type := S -> Result A * S.

Definition ret {S A : Type} (a : A) : Eff S A := fun s => (Ok a, s).

Definition throw {S A : Type} (e : Exception) : Eff S A := fun s => (Throw e, s).

Definition bind {S A B : Type} (m : Eff S A) (k : A -> Eff S B) : Eff S B :=
  fun s => match m s with
           | (Ok a, s') => k a s'
           | (Throw e, s') => (Throw e, s')
           end.

Definition gets {S A : Type} (f : S -> A) : Eff S A := fun s => (Ok (f s), s).

Definition modify {S : Type} (f : S -> S) : Eff S unit := fun s => (Ok tt, f s).

Declare Scope eff_scope.
Delimit Scope eff_scope with eff.
Notation "x <- c ;; k" := (bind c (fun x => k))
  (at level 100, c at next level, right associativity) : eff_scope.
Notation "c ;; k" := (bind c (fun _ => k))
  (at level 100, right associativity) : eff_scope.
#[local] Open Scope eff_scope.

(** ** The heap of the WebAssembly module *)

Definition Mem : Type := Z -> float.

(** The [n] samples at [p], [p+1], ... *)
Definition load_block (m : Mem) (p : Z) (n : nat) : list float :=
  (fun i => m (p + Z.of_nat i)) <$> seq 0 n.

(** [xs] stored at [p], [p+1], ...; every other cell is kept. *)
Definition store_block (m : Mem) (p : Z) (xs : list float) : Mem :=
  fun a => if (p <=? a) && (a <? p + Z.of_nat (length xs))
           then default (m a) (xs !! Z.to_nat (a - p))
           else m a.

(** [samples] written over the front of the array [dst], whose length is kept. *)
Definition overwrite_prefix (samples dst : list float) : list float :=
  take (length dst) (samples ++ drop (length samples) dst).

(** What [retrieve] leaves in the scratch arrays: the block of each channel
    over the front of that channel's array. *)
Definition fill_scratch (block : nat -> list float) (scratch : list (list float))
  : list (list float) :=
  imap (fun channel dst => overwrite_prefix (block channel) dst) scratch.

(** ** RubberBand::RingBuffer *)

Module RingBuffer.

(** Modelled from the spec: RubberBand's [RingBuffer<T>] template is not part
    of the sources at hand.  The spec's ChannelRingBuffer: a fixed capacity, a
    fill count between 0 and the capacity, [write] appends up to [count]
    samples and drops the newest ones that do not fit (the count written is
    returned), [read] copies out [min(count, fill)] samples, oldest first, and
    returns that count.  The queue is the list of unread samples. *)
Record t (T : Type) : Type := mk { capacity : Z; data : list T }.
Arguments mk {T} capacity data.
Arguments capacity {T} _.
Arguments data {T} _.

Definition create {T : Type} (n : Z) : t T := mk n [].

Definition getReadSpace {T : Type} (rb : t T) : Z := Z.of_nat (length (data rb)).

Definition getWriteSpace {T : Type} (rb : t T) : Z := capacity rb - getReadSpace rb.

Definition write {T : Type} (rb : t T) (source : list T) (n : Z) : t T * Z :=
  let k := Z.to_nat (Z.min n (getWriteSpace rb)) in
  (mk (capacity rb) (data rb ++ take k source), Z.of_nat k).

Definition read {T : Type} (rb : t T) (n : Z) : list T * t T * Z :=
  let k := Z.to_nat (Z.min n (getReadSpace rb)) in
  (take k (data rb), mk (capacity rb) (drop k (data rb)), Z.of_nat k).

End RingBuffer.

#[export] Instance RingBuffer_inhabited {T : Type} : Inhabited (RingBuffer.t T) :=
  populate (RingBuffer.create 0).

(** ** RubberBand::RubberBandStretcher, the external engine *)

Inductive Options : Type := kDefaultOption | kHighQuality.

(** The calls the kernel makes on the stretcher.  [retrieve] answers with the
    samples it puts at the front of each scratch channel (a block, by channel
    index) and with the count it returns. *)
Module Stretcher.

Class api (E : Type) : Type := {
  create : Z -> Z -> Options -> E;
  getEngineVersion : E -> Z;
  process : E -> list (list float) -> Z -> bool -> E;
  available : E -> Z;
  retrieve : E -> Z -> E * (nat -> list float) * Z;
  reset : E -> E;
  setTimeRatio : E -> double -> E;
  setPitchScale : E -> double -> E;
  setFormantScale : E -> double -> E;
  setMaxProcessSize : E -> Z -> E;
  getTimeRatio : E -> double;
  getPitchScale : E -> double;
  getFormantScale : E -> double;
  getPreferredStartPad : E -> Z;
  getStartDelay : E -> Z
}.

End Stretcher.

(** What the outside sees of a run: the calls on the stretcher, in order,
    and the lines written to [std::cerr]. *)
Inductive Event : Type :=
| CallNew (sampleRate channels : Z) (options : Options)
| CallGetEngineVersion
| CallProcess (samples : Z) (final : bool)
| CallAvailable
| CallRetrieve (samples : Z)
| CallReset
| CallSetTimeRatio (ratio : double)
| CallSetPitchScale (scale : double)
| CallSetFormantScale (scale : double)
| CallSetMaxProcessSize (samples : Z)
| CallGetTimeRatio
| CallGetPitchScale
| CallGetFormantScale
| CallGetPreferredStartPad
| CallGetStartDelay
| Cerr (line : string).

Definition is_reset (e : Event) : bool :=
  match e with CallReset => true | _ => false end.

Definition is_setMaxProcessSize (e : Event) : bool :=
  match e with CallSetMaxProcessSize _ => true | _ => false end.

Definition is_retrieve (e : Event) : bool :=
  match e with CallRetrieve _ => true | _ => false end.

Definition is_process (e : Event) : bool :=
  match e with CallProcess _ _ => true | _ => false end.

Definition is_cerr (e : Event) : bool :=
  match e with Cerr _ => true | _ => false end.

Definition count_events (p : Event -> bool) (tr : list Event) : nat :=
  length (List.filter p tr).

(** ** The kernel: RealtimeRubberBand.cpp *)

Module Kernel.

Section Kernel.

Context {E : Type} `{Stretcher.api E}.

(** [kBlockSize_] and [kReserve_] are constants of RealtimeRubberBand.h, which
    is not part of the sources at hand: they are parameters here. *)
Variables kBlockSize_ kReserve_ : Z.

Record RealtimeRubberBand : Type := mkRealtimeRubberBand {
  stretcher_ : E;
  start_pad_samples_ : Z;
  start_delay_samples_ : Z;
  channel_count_ : Z;
  max_process_size_ : Z;
  output_buffer_ : list (RingBuffer.t float);
  scratch_ : list (list float)
}.

(** The object, the module's heap and the trace of what it did.  The ring
    buffers and the scratch arrays are fields of the object here; [heap]
    holds the other cells, those a caller reaches through the pointers it
    hands to [push] and [pull]. *)
Record World : Type := mkWorld {
  self : RealtimeRubberBand;
  heap : Mem;
  trace : list Event
}.

Definition Cpp (A : Type) : Type := Eff World A.

Definition with_self (f : RealtimeRubberBand -> RealtimeRubberBand) (w : World) : World :=
  mkWorld (f (self w)) (heap w) (trace w).

Definition log (e : Event) (w : World) : World :=
  mkWorld (self w) (heap w) (trace w ++ [e]).

Definition set_stretcher (e : E) (s : RealtimeRubberBand) : RealtimeRubberBand :=
  mkRealtimeRubberBand e (start_pad_samples_ s) (start_delay_samples_ s)
    (channel_count_ s) (max_process_size_ s) (output_buffer_ s) (scratch_ s).

Definition set_start_pad_samples (n : Z) (s : RealtimeRubberBand) : RealtimeRubberBand :=
  mkRealtimeRubberBand (stretcher_ s) n (start_delay_samples_ s)
    (channel_count_ s) (max_process_size_ s) (output_buffer_ s) (scratch_ s).

Definition set_start_delay_samples (n : Z) (s : RealtimeRubberBand) : RealtimeRubberBand :=
  mkRealtimeRubberBand (stretcher_ s) (start_pad_samples_ s) n
    (channel_count_ s) (max_process_size_ s) (output_buffer_ s) (scratch_ s).

Definition set_max_process_size (n : Z) (s : RealtimeRubberBand) : RealtimeRubberBand :=
  mkRealtimeRubberBand (stretcher_ s) (start_pad_samples_ s) (start_delay_samples_ s)
    (channel_count_ s) n (output_buffer_ s) (scratch_ s).

Definition set_output_buffer (b : list (RingBuffer.t float)) (s : RealtimeRubberBand)
  : RealtimeRubberBand :=
  mkRealtimeRubberBand (stretcher_ s) (start_pad_samples_ s) (start_delay_samples_ s)
    (channel_count_ s) (max_process_size_ s) b (scratch_ s).

Definition set_scratch (b : list (list float)) (s : RealtimeRubberBand) : RealtimeRubberBand :=
  mkRealtimeRubberBand (stretcher_ s) (start_pad_samples_ s) (start_delay_samples_ s)
    (channel_count_ s) (max_process_size_ s) (output_buffer_ s) b.

(** *** Calls on the stretcher *)

(** A query: the stretcher is left as it is, the call is recorded. *)
Definition ask {A : Type} (ev : Event) (f : E -> A) : Cpp A :=
  fun w => (Ok (f (stretcher_ (self w))), log ev w).

(** A command: the stretcher moves on, the call is recorded. *)
Definition tell (ev : Event) (f : E -> E) : Cpp unit :=
  fun w => (Ok tt, log ev (with_self (set_stretcher (f (stretcher_ (self w)))) w)).

Definition cerr (line : string) : Cpp unit := fun w => (Ok tt, log (Cerr line) w).

(** [stretcher_->retrieve(scratch_, n)]: the stretcher fills the front of each
    scratch channel and returns a count. *)
Definition stretcher_retrieve (n : Z) : Cpp Z :=
  fun w =>
    let '(e', block, count) := Stretcher.retrieve (stretcher_ (self w)) n in
    let scratch' := fill_scratch block (scratch_ (self w)) in
    (Ok count,
     log (CallRetrieve n) (with_self (fun s => set_scratch scratch' (set_stretcher e' s)) w)).

(** *** updateRatio *)

Definition updateRatio : Cpp unit :=
  pad <- ask CallGetPreferredStartPad Stretcher.getPreferredStartPad ;;
  modify (with_self (set_start_pad_samples pad)) ;;
  delay <- ask CallGetStartDelay Stretcher.getStartDelay ;;
  modify (with_self (set_start_delay_samples delay)).

(** *** The constructor *)

Definition buffer_size : Z := kBlockSize_ + kReserve_ + 8192.

Definition new_RealtimeRubberBand (sampleRate channel_count : Z) (high_quality : bool)
    (heap0 : Mem) : Result World :=
  if sampleRate <=? 0 then Throw (range_error "Sample rate has to be greater than 0")
  else if channel_count <=? 0 then Throw (range_error "Channel count has to be greater than 0")
  else
    let options := if high_quality then kHighQuality else kDefaultOption in
    let channels := Z.to_nat channel_count in
    let obj :=
      mkRealtimeRubberBand (Stretcher.create sampleRate channel_count options)
        0 0 channel_count 0
        (replicate channels (RingBuffer.create buffer_size))
        (replicate channels (replicate (Z.to_nat buffer_size) 0%float)) in
    let w := mkWorld obj heap0 [CallNew sampleRate channel_count options] in
    match updateRatio w with
    | (Ok _, w') => Ok w'
    | (Throw e, _) => Throw e
    end.

(** *** getVersion, getSamplesAvailable *)

Definition getVersion : Cpp Z := ask CallGetEngineVersion Stretcher.getEngineVersion.

Definition getSamplesAvailable : Cpp Z :=
  gets (fun w => RingBuffer.getReadSpace (output_buffer_ (self w) !!! 0%nat)).

(** *** fetchProcessed *)

(** The loop [for (channel = first; ...) output_buffer_[channel]->write(scratch_[channel], actual)],
    with [todo] channels left. *)
Fixpoint write_channels (actual : Z) (channel : nat) (todo : nat) : Cpp unit :=
  match todo with
  | O => ret tt
  | S todo' =>
      modify (with_self (fun s =>
        let rb := output_buffer_ s !!! channel in
        let source := scratch_ s !!! channel in
        set_output_buffer
          (<[channel := fst (RingBuffer.write rb source actual)]> (output_buffer_ s)) s)) ;;
      write_channels actual (S channel) todo'
  end.

(** The second half of [fetchProcessed], with [available] samples left to
    move: the overrun check, the retrieval and the writing loop. *)
Definition move_to_buffers (available : Z) : Cpp unit :=
  space <- gets (fun w => RingBuffer.getWriteSpace (output_buffer_ (self w) !!! 0%nat)) ;;
  (if space <=? available then cerr "BUFFER OVERRUN" else ret tt) ;;
  actual <- stretcher_retrieve available ;;
  channels <- gets (fun w => channel_count_ (self w)) ;;
  write_channels actual 0 (Z.to_nat channels).

Definition fetchProcessed : Cpp unit :=
  available <- ask CallAvailable Stretcher.available ;;
  if 0 <? available then
    start_delay <- gets (fun w => start_delay_samples_ (self w)) ;;
    if 0 <? start_delay then
      (* We have to discard the first start_delay_samples_ *)
      if start_delay <=? available then
        stretcher_retrieve start_delay ;;
        modify (with_self (set_start_delay_samples 0)) ;;
        move_to_buffers (available - start_delay)
      else
        stretcher_retrieve available ;;
        modify (with_self (set_start_delay_samples (start_delay - available)))
        (* return *)
    else move_to_buffers available
  else ret tt.

(** *** The ratio setters and setMaxProcessSize *)

Definition reapply_max_process_size : Cpp unit :=
  size <- gets (fun w => max_process_size_ (self w)) ;;
  if 0 <? size then tell (CallSetMaxProcessSize size) (fun e => Stretcher.setMaxProcessSize e size)
  else ret tt.

Definition setTempo (tempo : double) : Cpp unit :=
  if PrimFloat.leb tempo 0%float then throw (range_error "Tempo has to be greater than 0")
  else
    current <- ask CallGetTimeRatio Stretcher.getTimeRatio ;;
    if double_ne current tempo then
      fetchProcessed ;;
      tell CallReset Stretcher.reset ;;
      reapply_max_process_size ;;
      tell (CallSetTimeRatio tempo) (fun e => Stretcher.setTimeRatio e tempo) ;;
      updateRatio
    else ret tt.

Definition setPitch (pitch : double) : Cpp unit :=
  if PrimFloat.leb pitch 0%float then throw (range_error "Pitch has to be greater than 0")
  else
    current <- ask CallGetPitchScale Stretcher.getPitchScale ;;
    if double_ne current pitch then
      fetchProcessed ;;
      tell CallReset Stretcher.reset ;;
      reapply_max_process_size ;;
      tell (CallSetPitchScale pitch) (fun e => Stretcher.setPitchScale e pitch) ;;
      updateRatio
    else ret tt.

Definition setFormantScale (scale : double) : Cpp unit :=
  if PrimFloat.leb scale 0%float then throw (range_error "Format scale has to be greater than 0")
  else
    current <- ask CallGetFormantScale Stretcher.getFormantScale ;;
    if double_ne current scale then
      fetchProcessed ;;
      tell CallReset Stretcher.reset ;;
      reapply_max_process_size ;;
      tell (CallSetFormantScale scale) (fun e => Stretcher.setFormantScale e scale) ;;
      updateRatio
    else ret tt.

Definition setMaxProcessSize (size : Z) : Cpp unit :=
  modify (with_self (set_max_process_size size)) ;;
  tell (CallSetMaxProcessSize size) (fun e => Stretcher.setMaxProcessSize e size).

(** *** push *)

Definition push (input_ptr sample_size : Z) : Cpp unit :=
  channels <- gets (fun w => channel_count_ (self w)) ;;
  let arr_to_process :=
    (fun channel => input_ptr + channel * sample_size) <$> seqZ 0 channels in
  input <- gets (fun w =>
             (fun source => load_block (heap w) source (Z.to_nat sample_size))
               <$> arr_to_process) ;;
  tell (CallProcess sample_size false) (fun e => Stretcher.process e input sample_size false) ;;
  fetchProcessed.

(** *** pull *)

(** The loop of [pull] from [channel] on, with [todo] channels left; an empty
    ring buffer ends the whole call. *)
Fixpoint pull_channels (output_ptr sample_size : Z) (channel : nat) (todo : nat) : Cpp unit :=
  match todo with
  | O => ret tt
  | S todo' =>
      available <- gets (fun w =>
                     RingBuffer.getReadSpace (output_buffer_ (self w) !!! channel)) ;;
      if available =? 0 then cerr "BUFFER UNDERRUN"
      else
        let destination := output_ptr + Z.of_nat channel * sample_size in
        modify (fun w =>
          let rb := output_buffer_ (self w) !!! channel in
          let '(samples, rb', _) := RingBuffer.read rb (Z.min available sample_size) in
          mkWorld (set_output_buffer (<[channel := rb']> (output_buffer_ (self w))) (self w))
                  (store_block (heap w) destination samples)
                  (trace w)) ;;
        pull_channels output_ptr sample_size (S channel) todo'
  end.

Definition pull (output_ptr sample_size : Z) : Cpp unit :=
  channels <- gets (fun w => channel_count_ (self w)) ;;
  pull_channels output_ptr sample_size 0 (Z.to_nat channels).

End Kernel.

End Kernel.

(** ** The wrapper: RealtimeRubberBand.ts *)

Module Worklet.

Section Worklet.

Context {E : Type} `{Stretcher.api E}.

Variables kBlockSize_ kReserve_ : Z.

Definition RENDER_QUANTUM_FRAMES : Z := 128.

(** HeapArray.ts is not part of the sources at hand.  What the wrapper uses of
    it is kept: [getHeapAddress()], handed to the kernel as a [float*], and
    [getChannelArray(channel)], a [Float32Array] over the module's heap (or
    [undefined]).  Where the views lie is left to the allocation. *)
Record HeapView : Type := mkHeapView { view_ptr : Z; view_length : Z }.

Record HeapArray : Type := mkHeapArray {
  getHeapAddress : Z;
  channelData : list HeapView
}.

Definition getChannelArray (a : HeapArray) (channel : nat) : option HeapView :=
  channelData a !! channel.

(** [new HeapArray(module, length, channelCount)], for the first ([0]) and the
    second ([1]) array the constructor allocates. *)
Variable new_HeapArray : nat -> Z -> Z -> HeapArray.

Record RealtimeRubberBandOptions : Type := mkOptions {
  highQuality : option bool;
  pitch : option double;
  tempo : option double
}.

Record RealtimeRubberBand : Type := mkRealtimeRubberBand {
  _highQuality : bool;
  _channelCount : Z;
  _kernel : Kernel.World (E := E);
  _inputArray : HeapArray;
  _outputArray : HeapArray;
  _tempo : double;
  _pitch : double
}.

Definition Ts (A : Type) : Type := Eff RealtimeRubberBand A.

Definition set_kernel (k : Kernel.World) (o : RealtimeRubberBand) : RealtimeRubberBand :=
  mkRealtimeRubberBand (_highQuality o) (_channelCount o) k (_inputArray o) (_outputArray o)
    (_tempo o) (_pitch o).

Definition set_tempo (t : double) (o : RealtimeRubberBand) : RealtimeRubberBand :=
  mkRealtimeRubberBand (_highQuality o) (_channelCount o) (_kernel o) (_inputArray o)
    (_outputArray o) t (_pitch o).

Definition set_pitch (p : double) (o : RealtimeRubberBand) : RealtimeRubberBand :=
  mkRealtimeRubberBand (_highQuality o) (_channelCount o) (_kernel o) (_inputArray o)
    (_outputArray o) (_tempo o) p.

(** A call on [this._kernel]; what it throws is thrown on. *)
Definition kernel_call {A : Type} (m : Kernel.Cpp A) : Ts A :=
  fun o => let '(r, k) := m (_kernel o) in (r, set_kernel k o).

(** [x || d] on an optional number. *)
Definition number_or (x : option double) (d : double) : double :=
  match x with
  | Some v => if js_truthy v then v else d
  | None => d
  end.

(** [n || d] on an optional count. *)
Definition count_or (n : option Z) (d : Z) : Z :=
  match n with
  | Some v => if v =? 0 then d else v
  | None => d
  end.

(** *** The constructor *)

Definition new_RealtimeRubberBand (heap0 : Mem) (sampleRate channelCount : Z)
    (options : option RealtimeRubberBandOptions) : Result RealtimeRubberBand :=
  let high := default false (options ≫= highQuality) in
  match Kernel.new_RealtimeRubberBand kBlockSize_ kReserve_ sampleRate channelCount high heap0 with
  | Throw e => Throw e
  | Ok k0 =>
      let k1 := snd (Kernel.setMaxProcessSize RENDER_QUANTUM_FRAMES k0) in
      let obj :=
        mkRealtimeRubberBand high channelCount k1
          (new_HeapArray 0 RENDER_QUANTUM_FRAMES channelCount)
          (new_HeapArray 1 RENDER_QUANTUM_FRAMES channelCount)
          (number_or (options ≫= tempo) 1%float)
          (number_or (options ≫= pitch) 1%float) in
      match options ≫= tempo with
      | Some t =>
          if js_truthy t && double_ne t 1%float then
            match kernel_call (Kernel.setTempo (1 / t)%float) obj with
            | (Ok _, obj') => Ok obj'
            | (Throw e, _) => Throw e
            end
          else Ok obj
      | None => Ok obj
      end
  end.

(** *** timeRatio, pitchScale, samplesAvailable *)

Definition get_timeRatio : Ts double := gets _tempo.

Definition set_timeRatio (timeRatio : double) : Ts unit :=
  modify (set_tempo timeRatio) ;;
  kernel_call (Kernel.setTempo (1 / timeRatio)%float).

Definition set_pitchScale (p : double) : Ts unit :=
  modify (set_pitch p) ;;
  kernel_call (Kernel.setPitch p).

Definition samplesAvailable : Ts Z := kernel_call Kernel.getSamplesAvailable.

(** *** push *)

(** [this._inputArray.getChannelArray(channel).set(channels[channel])], from
    [channel] on. *)
Fixpoint fill_input (a : HeapArray) (channel : nat) (channels : list (list float)) : Ts unit :=
  match channels with
  | [] => ret tt
  | source :: rest =>
      match getChannelArray a channel with
      | None => throw (TypeError "getChannelArray(channel) is undefined")
      | Some v =>
          if view_length v <? Z.of_nat (length source)
          then throw (RangeError "source array is too long")
          else
            modify (fun o =>
              let k := _kernel o in
              set_kernel (Kernel.mkWorld (Kernel.self k)
                            (store_block (Kernel.heap k) (view_ptr v) source)
                            (Kernel.trace k)) o) ;;
            fill_input a (S channel) rest
      end
  end.

Definition push (channels : list (list float)) (numSamples : option Z) : Ts unit :=
  if 0 <? Z.of_nat (length channels) then
    inputArray <- gets _inputArray ;;
    fill_input inputArray 0 channels ;;
    kernel_call (Kernel.push (getHeapAddress inputArray)
                             (count_or numSamples RENDER_QUANTUM_FRAMES))
  else ret tt.

(** *** pull *)

(** [channels[channel].set(this._outputArray.getChannelArray(channel).subarray(0, toPull))],
    from [channel] on, reading the heap [m]. *)
Fixpoint copy_output (m : Mem) (a : HeapArray) (toPull : Z) (channel : nat)
    (channels : list (list float)) : Result (list (list float)) :=
  match channels with
  | [] => Ok []
  | dst :: rest =>
      match getChannelArray a channel with
      | None => Throw (TypeError "getChannelArray(channel) is undefined")
      | Some v =>
          let n := Z.min toPull (view_length v) in
          if Z.of_nat (length dst) <? n then Throw (RangeError "source array is too long")
          else
            match copy_output m a toPull (S channel) rest with
            | Ok rest' =>
                Ok (overwrite_prefix (load_block m (view_ptr v) (Z.to_nat n)) dst :: rest')
            | Throw e => Throw e
            end
      end
  end.

(** [pull] returns the array of channels it was given, filled in place: the
    value returned is what that array holds at the return. *)
Definition pull (channels : list (list float)) : Ts (list (list float)) :=
  if 0 <? Z.of_nat (length channels) then
    available <- kernel_call Kernel.getSamplesAvailable ;;
    let outputLength := Z.of_nat (length (channels !!! 0%nat)) in
    let toPull := Z.min available outputLength in
    if 0 <? toPull then
      outputArray <- gets _outputArray ;;
      kernel_call (Kernel.pull (getHeapAddress outputArray) toPull) ;;
      m <- gets (fun o => Kernel.heap (_kernel o)) ;;
      match copy_output m outputArray toPull 0 channels with
      | Ok filled => ret filled
      | Throw e => throw e
      end
    else ret channels
  else ret channels.

(** *** version, channelCount, highQuality *)

Definition get_version : Ts Z := kernel_call Kernel.getVersion.

Definition get_channelCount : Ts Z := gets _channelCount.

Definition get_highQuality : Ts bool := gets _highQuality.

(** *** pushSlice *)

(** [Float32Array.prototype.slice(start, end)] for integer bounds: a negative
    bound counts from the end, and both are clamped to the array. *)
Definition slice_index (len i : Z) : Z :=
  if i <? 0 then Z.max (len + i) 0 else Z.min i len.

Definition slice (xs : list float) (start end_ : Z) : list float :=
  let len := Z.of_nat (length xs) in
  let k := slice_index len start in
  let final := slice_index len end_ in
  take (Z.to_nat (final - k)) (drop (Z.to_nat k) xs).

(** How [pushSlice] ends: with its own [Error] ("Part is larger than number
    of samples: len > limit"), or as the calls it makes end. *)
Inductive SliceOutcome : Type :=
| PartIsLarger (len limit : Z)
| Pushed (r : Result unit).

Definition pushSlice (channels : list (list float)) (start end_ : Z)
  : RealtimeRubberBand -> SliceOutcome * RealtimeRubberBand :=
  fun o =>
    let len := end_ - start in
    if RENDER_QUANTUM_FRAMES <? len then (PartIsLarger len RENDER_QUANTUM_FRAMES, o)
    else
      let '(r, o') :=
        (if 0 <? Z.of_nat (length channels) then
           inputArray <- gets _inputArray ;;
           fill_input inputArray 0 ((fun source => slice source start end_) <$> channels) ;;
           kernel_call (Kernel.push (getHeapAddress inputArray) len)
         else ret tt) o in
      (Pushed r, o').

End Worklet.

End Worklet.

(** ** The audio worklet: realtime-pitch-shift-processor.ts *)

Module Processor.

Section Processor.

Context {E : Type} `{Stretcher.api E}.

Variables kBlockSize_ kReserve_ : Z.

Variable new_HeapArray : nat -> Z -> Z -> Worklet.HeapArray.

(** [sampleRate], a global of the worklet's scope. *)
Variable sampleRate : Z.

(** The module [createModule] resolves to: whether it carries the two classes
    [onRuntimeInitialized] looks for, and its heap. *)
Record RubberBandModule : Type := mkModule {
  has_RealtimeRubberBand : bool;
  has_RubberBandAPI : bool;
  module_heap : Mem
}.

(** [JSON.parse(e.data)]: the event and its payload, a number for a pitch or
    a tempo and a boolean for the quality, as the fields they are stored in
    are declared. *)
Inductive Message : Type :=
| pitch_message (payload : double)
| quality_message (payload : bool)
| tempo_message (payload : double)
| close_message
| other_message (event : string).

(** [port_onmessage] is false once [this.port.onmessage] is null. *)
Record RealtimePitchShiftProcessor : Type := mkProcessor {
  _module : option RubberBandModule;
  _api : option (Worklet.RealtimeRubberBand (E := E));
  running : bool;
  pitch : double;
  tempo : double;
  highQuality : bool;
  port_onmessage : bool
}.

Definition Worker (A : Type) : Type := Eff RealtimePitchShiftProcessor A.

Definition set_module (m : option RubberBandModule) (p : RealtimePitchShiftProcessor)
  : RealtimePitchShiftProcessor :=
  mkProcessor m (_api p) (running p) (pitch p) (tempo p) (highQuality p) (port_onmessage p).

Definition set_api (a : option Worklet.RealtimeRubberBand) (p : RealtimePitchShiftProcessor)
  : RealtimePitchShiftProcessor :=
  mkProcessor (_module p) a (running p) (pitch p) (tempo p) (highQuality p) (port_onmessage p).

Definition set_running (b : bool) (p : RealtimePitchShiftProcessor)
  : RealtimePitchShiftProcessor :=
  mkProcessor (_module p) (_api p) b (pitch p) (tempo p) (highQuality p) (port_onmessage p).

Definition set_pitch (x : double) (p : RealtimePitchShiftProcessor)
  : RealtimePitchShiftProcessor :=
  mkProcessor (_module p) (_api p) (running p) x (tempo p) (highQuality p) (port_onmessage p).

Definition set_tempo (x : double) (p : RealtimePitchShiftProcessor)
  : RealtimePitchShiftProcessor :=
  mkProcessor (_module p) (_api p) (running p) (pitch p) x (highQuality p) (port_onmessage p).

Definition set_highQuality (b : bool) (p : RealtimePitchShiftProcessor)
  : RealtimePitchShiftProcessor :=
  mkProcessor (_module p) (_api p) (running p) (pitch p) (tempo p) b (port_onmessage p).

Definition set_port_onmessage (b : bool) (p : RealtimePitchShiftProcessor)
  : RealtimePitchShiftProcessor :=
  mkProcessor (_module p) (_api p) (running p) (pitch p) (tempo p) (highQuality p) b.

(** The processor as the constructor leaves it, before the module is there. *)
Definition new_RealtimePitchShiftProcessor : RealtimePitchShiftProcessor :=
  mkProcessor None None true 1%float 1%float false true.

(** [onRuntimeInitialized]: the module is kept when it has both classes. *)
Definition onRuntimeInitialized (module : RubberBandModule) : Worker unit :=
  let hasRequiredExports := has_RealtimeRubberBand module && has_RubberBandAPI module in
  if hasRequiredExports then modify (set_module (Some module)) else ret tt.

(** A method of [this._api], which is there; the object is mutated in place. *)
Definition on_api {A : Type} (a : Worklet.RealtimeRubberBand) (m : Worklet.Ts A) : Worker A :=
  fun p => let '(r, a') := m a in (r, set_api (Some a') p).

Definition close : Worker unit :=
  modify (set_port_onmessage false) ;;
  modify (set_running false).

(** The handler the constructor installs on the port. *)
Definition onmessage (m : Message) : Worker unit :=
  match m with
  | pitch_message payload =>
      modify (set_pitch payload) ;;
      api <- gets _api ;;
      match api with
      | Some a => on_api a (Worklet.set_pitchScale payload)
      | None => ret tt
      end
  | quality_message payload => modify (set_highQuality payload)
  | tempo_message payload =>
      modify (set_tempo payload) ;;
      api <- gets _api ;;
      match api with
      | Some a => on_api a (Worklet.set_timeRatio payload)
      | None => ret tt
      end
  | close_message => close
  | other_message _ => ret tt
  end.

(** A message arrives at the port: it reaches the handler while there is one. *)
Definition port_message (m : Message) : Worker unit :=
  fun p => if port_onmessage p then onmessage m p else (Ok tt, p).

(** The heap a new api is built on: the module's, as the api before it left
    it. *)
Definition current_heap (module : RubberBandModule) (p : RealtimePitchShiftProcessor) : Mem :=
  match _api p with
  | Some a => Kernel.heap (Worklet._kernel a)
  | None => module_heap module
  end.

Definition getApi (channelCount : Z) : Worker (option Worklet.RealtimeRubberBand) :=
  fun p =>
    match _module p with
    | Some module =>
        let stale :=
          match _api p with
          | None => true
          | Some a =>
              negb (Worklet._channelCount a =? channelCount)
              || negb (Bool.eqb (Worklet._highQuality a) (highQuality p))
          end in
        if stale then
          match Worklet.new_RealtimeRubberBand kBlockSize_ kReserve_ new_HeapArray
                  (current_heap module p) sampleRate channelCount
                  (Some (Worklet.mkOptions (Some (highQuality p)) (Some (pitch p))
                           (Some (tempo p)))) with
          | Ok a =>
              (* the log line of the engine version reads [this._api.version] *)
              let a' := snd (Worklet.get_version a) in
              (Ok (Some a'), set_api (Some a') p)
          | Throw e => (Throw e, p)
          end
        else (Ok (_api p), p)
    | None => (Ok (_api p), p)
    end.

(** [process(inputs, outputs)]: what it returns, and [outputs] as it leaves
    them. *)
Definition process (inputs outputs : list (list (list float)))
  : Worker (bool * list (list (list float))) :=
  let inputChannels := Z.of_nat (length (inputs !!! 0%nat)) in
  let numChannels :=
    if inputChannels =? 0 then Z.of_nat (length (outputs !!! 0%nat)) else inputChannels in
  outputs' <-
    (if 0 <? numChannels then
       api <- getApi numChannels ;;
       match api with
       | Some a =>
           a' <- (if (0 <? Z.of_nat (length inputs)) && (0 <? Z.of_nat (length (inputs !!! 0%nat)))
                  then
                    let inputLength := Z.of_nat (length ((inputs !!! 0%nat) !!! 0%nat)) in
                    on_api a (Worklet.push (inputs !!! 0%nat) (Some inputLength)) ;;
                    gets (fun p => default a (_api p))
                  else ret a) ;;
           if (0 <? Z.of_nat (length outputs)) && (0 <? Z.of_nat (length (outputs !!! 0%nat)))
           then
             filled <- on_api a' (Worklet.pull (outputs !!! 0%nat)) ;;
             ret (<[0%nat := filled]> outputs)
           else ret outputs
       | None => ret outputs
       end
     else ret outputs) ;;
  r <- gets running ;;
  ret (r, outputs').

End Processor.

End Processor.

(** ** A test double for the stretcher

    A pass-through engine: [process] queues the input of each channel,
    [retrieve] hands the oldest samples back, [reset] empties the queues and
    forgets the block size.  Its start pad and start delay are fixed when the
    instance is chosen. *)

Module Fake.

Record state : Type := mk {
  queue : list (list float);
  time_ratio : double;
  pitch_scale : double;
  formant_scale : double;
  max_process_size : Z
}.

Definition available (e : state) : Z := Z.of_nat (length (queue e !!! 0%nat)).

Definition retrieve (e : state) (n : Z) : state * (nat -> list float) * Z :=
  let k := Z.to_nat (Z.min n (available e)) in
  (mk (drop k <$> queue e) (time_ratio e) (pitch_scale e) (formant_scale e) (max_process_size e),
   fun channel => resize k 0%float (queue e !!! channel),
   Z.of_nat k).

Definition stretcher (start_pad start_delay : Z) : Stretcher.api state := {|
  Stretcher.create := fun _ channels _ =>
    mk (replicate (Z.to_nat channels) []) 1%float 1%float 1%float 0;
  Stretcher.getEngineVersion := fun _ => 3;
  Stretcher.process := fun e input _ _ =>
    mk (zip_with app (queue e) input) (time_ratio e) (pitch_scale e) (formant_scale e)
       (max_process_size e);
  Stretcher.available := available;
  Stretcher.retrieve := retrieve;
  Stretcher.reset := fun e =>
    mk ((fun _ => []) <$> queue e) (time_ratio e) (pitch_scale e) (formant_scale e) 0;
  Stretcher.setTimeRatio := fun e r =>
    mk (queue e) r (pitch_scale e) (formant_scale e) (max_process_size e);
  Stretcher.setPitchScale := fun e r =>
    mk (queue e) (time_ratio e) r (formant_scale e) (max_process_size e);
  Stretcher.setFormantScale := fun e r =>
    mk (queue e) (time_ratio e) (pitch_scale e) r (max_process_size e);
  Stretcher.setMaxProcessSize := fun e n =>
    mk (queue e) (time_ratio e) (pitch_scale e) (formant_scale e) n;
  Stretcher.getTimeRatio := time_ratio;
  Stretcher.getPitchScale := pitch_scale;
  Stretcher.getFormantScale := formant_scale;
  Stretcher.getPreferredStartPad := fun _ => start_pad;
  Stretcher.getStartDelay := fun _ => start_delay
|}.

(** A heap of zeros, and HeapArrays laid out one after the other, channel by
    channel, [length] samples each. *)
Definition zero_heap : Mem := fun _ => 0%float.

Definition new_HeapArray (serial : nat) (length channelCount : Z) : Worklet.HeapArray :=
  let base := Z.of_nat serial * length * channelCount in
  Worklet.mkHeapArray base
    ((fun channel => Worklet.mkHeapView (base + channel * length) length)
       <$> seqZ 0 channelCount).

End Fake.

(** ** Sequences of calls on the kernel, and what stays true along them *)

Inductive Op : Type :=
| OpPush (input_ptr sample_size : Z)
| OpPull (output_ptr sample_size : Z)
| OpSetTempo (tempo : double)
| OpSetPitch (pitch : double)
| OpSetFormantScale (scale : double)
| OpSetMaxProcessSize (size : Z)
| OpGetVersion
| OpGetSamplesAvailable.

Section Runs.

Context {E : Type} `{Stretcher.api E}.

(** The world a call leaves behind, whether it returned or threw. *)
Definition step (w : Kernel.World) (o : Op) : Kernel.World :=
  match o with
  | OpPush p n => snd (Kernel.push p n w)
  | OpPull p n => snd (Kernel.pull p n w)
  | OpSetTempo r => snd (Kernel.setTempo r w)
  | OpSetPitch r => snd (Kernel.setPitch r w)
  | OpSetFormantScale r => snd (Kernel.setFormantScale r w)
  | OpSetMaxProcessSize n => snd (Kernel.setMaxProcessSize n w)
  | OpGetVersion => snd (Kernel.getVersion w)
  | OpGetSamplesAvailable => snd (Kernel.getSamplesAvailable w)
  end.

Definition run (w : Kernel.World) (ops : list Op) : Kernel.World := foldl step w ops.

(** The fill count of every channel of the object. *)
Definition fills (s : Kernel.RealtimeRubberBand (E := E)) : list Z :=
  RingBuffer.getReadSpace <$> Kernel.output_buffer_ s.

(** All channels hold [fill] samples. *)
Definition aligned_at (fill : Z) (s : Kernel.RealtimeRubberBand (E := E)) : Prop :=
  Forall (fun rb => RingBuffer.getReadSpace rb = fill) (Kernel.output_buffer_ s).

Definition aligned (s : Kernel.RealtimeRubberBand (E := E)) : Prop :=
  exists fill, aligned_at fill s.

(** The shape the constructor gives the object and every call keeps: one ring
    buffer and one scratch array per channel, all of one capacity. *)
Definition shaped (cap : Z) (s : Kernel.RealtimeRubberBand (E := E)) : Prop :=
  Kernel.channel_count_ s = Z.of_nat (length (Kernel.output_buffer_ s))
  /\ length (Kernel.scratch_ s) = length (Kernel.output_buffer_ s)
  /\ Forall (fun rb => RingBuffer.capacity rb = cap) (Kernel.output_buffer_ s)
  /\ Forall (fun src => length src = Z.to_nat cap) (Kernel.scratch_ s).

(** The events one [fetchProcessed] adds to the trace, read off the state it
    starts in: the query, the retrieval of the start delay, the overrun line
    and the retrieval of what is moved to the ring buffers. *)
Definition fetch_moves (space a : Z) : list Event :=
  (if space <=? a then [Cerr "BUFFER OVERRUN"] else []) ++ [CallRetrieve a].

Definition fetch_events (w : Kernel.World) : list Event :=
  let s := Kernel.self w in
  let a := Stretcher.available (Kernel.stretcher_ s) in
  let d := Kernel.start_delay_samples_ s in
  let space := RingBuffer.getWriteSpace (Kernel.output_buffer_ s !!! 0%nat) in
  CallAvailable ::
  (if 0 <? a then
     if 0 <? d then
       if d <=? a then CallRetrieve d :: fetch_moves space (a - d)
       else [CallRetrieve a]
     else fetch_moves space a
   else []).

(** The block [push] hands to [process]: [sample_size] samples per channel,
    channel after channel from [input_ptr] on. *)
Definition pushed_input (input_ptr sample_size : Z) (w : Kernel.World (E := E))
  : list (list float) :=
  (fun source => load_block (Kernel.heap w) source (Z.to_nat sample_size))
    <$> ((fun channel => input_ptr + channel * sample_size)
           <$> seqZ 0 (Kernel.channel_count_ (Kernel.self w))).

(** The world after [push] forwarded its block to the stretcher. *)
Definition processed (input_ptr sample_size : Z) (w : Kernel.World) : Kernel.World :=
  Kernel.log (CallProcess sample_size false)
    (Kernel.with_self
       (Kernel.set_stretcher
          (Stretcher.process (Kernel.stretcher_ (Kernel.self w))
             (pushed_input input_ptr sample_size w) sample_size false))
       w).

(** The world after [fetchProcessed] asked for the available count and called
    [retrieve n] to discard samples, with [d] the start delay that remains. *)
Definition discarded (n d : Z) (w : Kernel.World) : Kernel.World :=
  let s := Kernel.self w in
  let r := Stretcher.retrieve (Kernel.stretcher_ s) n in
  Kernel.mkWorld
    (Kernel.mkRealtimeRubberBand (fst (fst r)) (Kernel.start_pad_samples_ s) d
       (Kernel.channel_count_ s) (Kernel.max_process_size_ s) (Kernel.output_buffer_ s)
       (fill_scratch (snd (fst r)) (Kernel.scratch_ s)))
    (Kernel.heap w)
    (Kernel.trace w ++ [CallAvailable; CallRetrieve n]).

(** The protocol of a ratio change, as the spec words it: [query] asks for the
    current value, then one fetch, one reset, the fixed block size again if
    one is configured, the new ratio ([change], [apply]), and the start pad
    and start delay read back from the stretcher.  [out] is what the setter
    returned and the world it left. *)
Definition reapplied (size : Z) (e : E) : E :=
  if 0 <? size then Stretcher.setMaxProcessSize e size else e.

Definition follows_protocol (query change : Event) (apply : E -> E)
    (w : Kernel.World) (out : Result unit * Kernel.World) : Prop :=
  let fetched := snd (Kernel.fetchProcessed (Kernel.log query w)) in
  let size := Kernel.max_process_size_ (Kernel.self w) in
  let s' := Kernel.self (snd out) in
  fst out = Ok tt
  /\ Kernel.trace fetched = Kernel.trace w ++ query :: fetch_events (Kernel.log query w)
  /\ Kernel.trace (snd out)
     = Kernel.trace fetched
       ++ CallReset
          :: (if 0 <? size then [CallSetMaxProcessSize size] else [])
          ++ [change; CallGetPreferredStartPad; CallGetStartDelay]
  /\ count_events is_reset (Kernel.trace (snd out))
     = S (count_events is_reset (Kernel.trace w))
  /\ count_events is_setMaxProcessSize (Kernel.trace (snd out))
     = ((if (0 <? size)%Z then 1 else 0)
        + count_events is_setMaxProcessSize (Kernel.trace w))%nat
  /\ Kernel.stretcher_ s'
     = apply (reapplied size (Stretcher.reset (Kernel.stretcher_ (Kernel.self fetched))))
  /\ Kernel.start_pad_samples_ s' = Stretcher.getPreferredStartPad (Kernel.stretcher_ s')
  /\ Kernel.start_delay_samples_ s' = Stretcher.getStartDelay (Kernel.stretcher_ s')
  /\ Kernel.max_process_size_ s' = size
  /\ Kernel.channel_count_ s' = Kernel.channel_count_ (Kernel.self w)
  /\ Kernel.output_buffer_ s' = Kernel.output_buffer_ (Kernel.self fetched)
  /\ Kernel.scratch_ s' = Kernel.scratch_ (Kernel.self fetched)
  /\ Kernel.heap (snd out) = Kernel.heap w.

(** What a setter does when nothing is to change: it returns after asking for
    the current value, or it throws; the object, the heap and the rest of the
    trace are as before. *)
Definition left_alone (query : Event) (w : Kernel.World (E := E))
    (out : Result unit * Kernel.World (E := E)) : Prop :=
  out = (Ok tt, Kernel.log query w) \/ exists e, out = (Throw e, w).

(** The ring buffers and scratch arrays of [s2] are those of [s1]. *)
Definition same_buffers (s1 s2 : Kernel.RealtimeRubberBand (E := E)) : Prop :=
  Kernel.channel_count_ s2 = Kernel.channel_count_ s1
  /\ Kernel.output_buffer_ s2 = Kernel.output_buffer_ s1
  /\ Kernel.scratch_ s2 = Kernel.scratch_ s1.

End Runs.

(** What is asked of a stretcher: a ratio that was set is the ratio read
    back, and [retrieve] returns at most what was asked for, all of it when
    that much is available, the same count in every channel. *)
Class StretcherLaws (E : Type) `{Stretcher.api E} : Prop := {
  getTimeRatio_set : forall e r, Stretcher.getTimeRatio (Stretcher.setTimeRatio e r) = r;
  getPitchScale_set : forall e r, Stretcher.getPitchScale (Stretcher.setPitchScale e r) = r;
  getFormantScale_set :
    forall e r, Stretcher.getFormantScale (Stretcher.setFormantScale e r) = r;
  retrieve_at_most :
    forall e n, 0 <= snd (Stretcher.retrieve e n) <= Z.max 0 n;
  retrieve_block :
    forall e n channel,
      Z.of_nat (length (snd (fst (Stretcher.retrieve e n)) channel))
      = snd (Stretcher.retrieve e n);
  retrieve_exact :
    forall e n, 0 <= n <= Stretcher.available e ->
      snd (Stretcher.retrieve e n) = n
      /\ Stretcher.available (fst (fst (Stretcher.retrieve e n))) = Stretcher.available e - n
}.

(** ** Fixtures: a session on the test double

    The constants of the header are taken as 1024 and 8192, which give the
    ring buffers the 17408 samples the project's notes report. *)

Module Fixture.

Definition kBlockSize_ : Z := 1024.
Definition kReserve_ : Z := 8192.

(** An object with no channel, for the branch of [session] that is never
    taken. *)
Definition blank : Kernel.World (E := Fake.state) :=
  Kernel.mkWorld
    (Kernel.mkRealtimeRubberBand (Fake.mk [] 1%float 1%float 1%float 0) 0 0 0 0 [] [])
    Fake.zero_heap [].

(** The kernel object the constructor builds at 48 kHz on a heap of zeros,
    over a stretcher whose start delay is [start_delay]. *)
Definition session (start_delay channels : Z) : Kernel.World (E := Fake.state) :=
  match Kernel.new_RealtimeRubberBand (H := Fake.stretcher 0 start_delay)
          kBlockSize_ kReserve_ 48000 channels false Fake.zero_heap with
  | Ok w => w
  | Throw _ => blank
  end.

(** The session after a list of calls. *)
Definition session_after (start_delay channels : Z) (ops : list Op)
  : Kernel.World (E := Fake.state) :=
  run (H := Fake.stretcher 0 start_delay) (session start_delay channels) ops.

(** The wrapper object around a kernel object of two channels, with the
    HeapArrays of [Fake.new_HeapArray]. *)
Definition worklet (kernel : Kernel.World (E := Fake.state))
  : Worklet.RealtimeRubberBand (E := Fake.state) :=
  Worklet.mkRealtimeRubberBand false 2 kernel
    (Fake.new_HeapArray 0 Worklet.RENDER_QUANTUM_FRAMES 2)
    (Fake.new_HeapArray 1 Worklet.RENDER_QUANTUM_FRAMES 2)
    1%float 1%float.

(** One block of silence for two channels. *)
Definition silence : list (list float) :=
  [replicate 128 0%float; replicate 128 0%float].

End Fixture.

(** ** More on runs: what the calls configure, write and say *)

Definition is_pull_op (o : Op) : bool :=
  match o with OpPull _ _ => true | _ => false end.

Definition is_ratio_op (o : Op) : bool :=
  match o with OpSetTempo _ | OpSetPitch _ | OpSetFormantScale _ => true | _ => false end.

(** The block size in force after a list of calls: the last one that was set,
    or the one there was. *)
Definition configured_size (size : Z) (ops : list Op) : Z :=
  foldl (fun size o => match o with OpSetMaxProcessSize n => n | _ => size end) size ops.

Definition is_setPitchScale (e : Event) : bool :=
  match e with CallSetPitchScale _ => true | _ => false end.

(** A HeapArray whose channel views lie one after the other from its heap
    address on, [length] samples each. *)
Definition laid_out (length : Z) (a : Worklet.HeapArray) : Prop :=
  forall (i : nat) v,
    Worklet.getChannelArray a i = Some v ->
    Worklet.view_ptr v = Worklet.getHeapAddress a + Z.of_nat i * length
    /\ Worklet.view_length v = length.

(** ** What happens to the processor: messages, renders, the module's arrival *)

Inductive Happening : Type :=
| Posted (m : Processor.Message)
| Rendered (inputs outputs : list (list (list float)))
| Initialized (module : Processor.RubberBandModule).

(** The happening that makes the processor ready: a module with both
    classes. *)
Definition makes_ready (h : Happening) : bool :=
  match h with
  | Initialized module =>
      Processor.has_RealtimeRubberBand module && Processor.has_RubberBandAPI module
  | _ => false
  end.

Section Happenings.

Context {E : Type} `{Stretcher.api E}.

Variables kBlockSize_ kReserve_ : Z.

Variable new_HeapArray : nat -> Z -> Z -> Worklet.HeapArray.

Variable sampleRate : Z.

(** The processor a happening leaves behind, whether its handler returned or
    threw. *)
Definition happen (p : Processor.RealtimePitchShiftProcessor (E := E)) (h : Happening)
  : Processor.RealtimePitchShiftProcessor (E := E) :=
  match h with
  | Posted m => snd (Processor.port_message m p)
  | Rendered inputs outputs =>
      snd (Processor.process kBlockSize_ kReserve_ new_HeapArray sampleRate inputs outputs p)
  | Initialized module => snd (Processor.onRuntimeInitialized module p)
  end.

Definition happenings (p : Processor.RealtimePitchShiftProcessor (E := E))
    (hs : list Happening) : Processor.RealtimePitchShiftProcessor (E := E) :=
  foldl happen p hs.

End Happenings.

(** The settings of the processor: all of it but the api. *)
Definition settings {E : Type} (p : Processor.RealtimePitchShiftProcessor (E := E))
  : option Processor.RubberBandModule * bool * double * double * bool * bool :=
  (Processor._module p, Processor.running p, Processor.pitch p, Processor.tempo p,
   Processor.highQuality p, Processor.port_onmessage p).

(** ** More fixtures: a tuned wrapper, blocks of samples, a processor *)

Module Scenes.

(** The wrapper the constructor builds at 48 kHz for two channels with the
    options pitch 2 and tempo 2, over the HeapArrays of [Fake.new_HeapArray]. *)
Definition tuned : Worklet.RealtimeRubberBand (E := Fake.state) :=
  match Worklet.new_RealtimeRubberBand (H := Fake.stretcher 0 0) Fixture.kBlockSize_
          Fixture.kReserve_ Fake.new_HeapArray Fake.zero_heap 48000 2
          (Some (Worklet.mkOptions None (Some 2%float) (Some 2%float))) with
  | Ok o => o
  | Throw _ => Fixture.worklet Fixture.blank
  end.

(** Two channels of [n] samples each: ones and twos. *)
Definition block (n : nat) : list (list float) :=
  [replicate n 1%float; replicate n 2%float].

(** A module with both classes, and one that lacks the second. *)
Definition module : Processor.RubberBandModule :=
  Processor.mkModule true true Fake.zero_heap.

Definition broken_module : Processor.RubberBandModule :=
  Processor.mkModule true false Fake.zero_heap.

(** The processor after a pitch of 2 was posted and the module arrived. *)
Definition ready : Processor.RealtimePitchShiftProcessor (E := Fake.state) :=
  happenings (H := Fake.stretcher 0 0) Fixture.kBlockSize_ Fixture.kReserve_
    Fake.new_HeapArray 48000 Processor.new_RealtimePitchShiftProcessor
    [Posted (Processor.pitch_message 2%float); Initialized module].

(** The api its first render for two channels builds. *)
Definition first_api : Worklet.RealtimeRubberBand (E := Fake.state) :=
  match fst (Processor.getApi (H := Fake.stretcher 0 0) Fixture.kBlockSize_
               Fixture.kReserve_ Fake.new_HeapArray 48000 2 ready) with
  | Ok (Some a) => a
  | _ => Fixture.worklet Fixture.blank
  end.

(** Two output channels of 128 samples each, all nines. *)
Definition marked : list (list float) :=
  [replicate 128 9%float; replicate 128 9%float].

(** A wrapper over a stretcher with a start delay of 100, after one block of
    128 ones and 128 twos was pushed: 28 samples wait in each ring buffer. *)
Definition short_of_samples : Worklet.RealtimeRubberBand (E := Fake.state) :=
  snd (Worklet.push (H := Fake.stretcher 0 100) (block 128) (Some 128)
         (Fixture.worklet (Fixture.session_after 100 2 [OpSetMaxProcessSize 128]))).

End Scenes.

(** * Properties *)

(** ** Doubles *)

Lemma positive_not_le_zero (r : double) :
  PrimFloat.ltb 0%float r = true -> PrimFloat.leb r 0%float = false.
Proof.
  rewrite FloatAxioms.ltb_spec, FloatAxioms.leb_spec.
  change (Prim2SF 0%float) with (S754_zero false).
  destruct (Prim2SF r) as [s | s | | s m e]; simpl; try discriminate.
  - destruct s; [discriminate | reflexivity].
  - destruct s; [discriminate | reflexivity].
Qed.

Lemma positive_eqb_refl (r : double) :
  PrimFloat.ltb 0%float r = true -> PrimFloat.eqb r r = true.
Proof.
  rewrite FloatAxioms.ltb_spec, FloatAxioms.eqb_spec.
  change (Prim2SF 0%float) with (S754_zero false).
  destruct (Prim2SF r) as [s | s | | s m e]; simpl; try discriminate; try reflexivity.
  - destruct s; [discriminate | reflexivity].
  - intros _. unfold SFeqb, SFcompare.
    destruct s; rewrite ?Z.compare_refl, ?Pos.compare_cont_refl, ?Pos.compare_refl;
      reflexivity.
Qed.

Lemma positive_truthy (r : double) :
  PrimFloat.ltb 0%float r = true -> js_truthy r = true.
Proof.
  intros Hr. unfold js_truthy. rewrite (positive_eqb_refl r Hr), andb_true_r.
  revert Hr. rewrite FloatAxioms.ltb_spec, FloatAxioms.eqb_spec.
  change (Prim2SF 0%float) with (S754_zero false).
  destruct (Prim2SF r) as [s | s | | s m e]; simpl; try discriminate.
  - destruct s; [discriminate | reflexivity].
  - destruct s; [discriminate | reflexivity].
Qed.

(** ** The kernel *)

#[local] Arguments RingBuffer.write {T} rb source n : simpl never.
#[local] Arguments RingBuffer.read {T} rb n : simpl never.
#[local] Arguments fill_scratch block scratch : simpl never.

Section KernelFacts.

Context {E : Type} `{Stretcher.api E}.

Implicit Types w : Kernel.World (E := E).

Lemma length_overwrite_prefix (samples dst : list float) :
  length (overwrite_prefix samples dst) = length dst.
Proof.
  unfold overwrite_prefix. rewrite length_take, length_app, length_drop. lia.
Qed.

Lemma overwrite_prefix_take (samples dst : list float) (k : nat) :
  (k <= length samples)%nat -> (k <= length dst)%nat ->
  take k (overwrite_prefix samples dst) = take k samples.
Proof.
  intros Hs Hd. unfold overwrite_prefix.
  rewrite take_take, Nat.min_l by lia. rewrite take_app_le by lia. reflexivity.
Qed.

(** The writing loop returns, and touches the ring buffers only. *)
Lemma write_channels_run (actual : Z) (todo channel : nat) w :
  exists obs,
    Kernel.write_channels actual channel todo w
    = (Ok tt, Kernel.with_self (Kernel.set_output_buffer obs) w)
    /\ length obs = length (Kernel.output_buffer_ (Kernel.self w))
    /\ forall i : nat,
        obs !! i =
        if decide (channel <= i < channel + todo)%nat
        then (fun rb => fst (RingBuffer.write rb (Kernel.scratch_ (Kernel.self w) !!! i) actual))
               <$> (Kernel.output_buffer_ (Kernel.self w) !! i)
        else Kernel.output_buffer_ (Kernel.self w) !! i.
Proof.
  revert channel w. induction todo as [|todo IH]; intros channel w.
  - exists (Kernel.output_buffer_ (Kernel.self w)). split; [|split].
    + destruct w as [[] ? ?]. reflexivity.
    + reflexivity.
    + intros i. case_decide; [lia | reflexivity].
  - cbn [Kernel.write_channels]. unfold bind at 1. unfold modify at 1.
    match goal with |- context [Kernel.write_channels _ _ _ ?w1] =>
      destruct (IH (S channel) w1) as (obs & Hrun & Hlen & Hlook) end.
    exists obs. rewrite Hrun. split; [|split].
    + destruct w as [[] ? ?]. reflexivity.
    + rewrite Hlen. destruct w as [[] ? ?]. cbn. apply length_insert.
    + intros i. rewrite Hlook. destruct w as [[e p d c m ob sc] hp tr]. cbn.
      repeat case_decide; try lia.
      * rewrite list_lookup_insert_ne by lia. reflexivity.
      * assert (i = channel) by lia. subst i.
        destruct (ob !! channel) as [rb|] eqn:Hrb.
        -- rewrite list_lookup_insert_eq by (eapply lookup_lt_Some; eauto).
           cbn. rewrite (list_lookup_total_correct _ _ _ Hrb). reflexivity.
        -- rewrite list_insert_ge by (apply lookup_ge_None; auto). rewrite Hrb. reflexivity.
      * rewrite list_lookup_insert_ne by lia. reflexivity.
Qed.

Lemma length_fill_scratch (block : nat -> list float) (scratch : list (list float)) :
  length (fill_scratch block scratch) = length scratch.
Proof. apply length_imap. Qed.

Lemma length_fill_scratch_at (block : nat -> list float) (scratch : list (list float)) (i : nat) :
  length (fill_scratch block scratch !!! i) = length (scratch !!! i).
Proof.
  unfold fill_scratch. rewrite !list_lookup_total_alt, list_lookup_imap.
  destruct (scratch !! i); cbn; [apply length_overwrite_prefix | reflexivity].
Qed.

Lemma write_nothing (rb : RingBuffer.t float) (source : list float) (n : Z) :
  n <= 0 -> fst (RingBuffer.write rb source n) = rb.
Proof.
  intros Hn. destruct rb as [cap xs]. unfold RingBuffer.write. cbn.
  replace (Z.to_nat (Z.min n _)) with 0%nat by lia.
  rewrite take_0, app_nil_r. reflexivity.
Qed.

Ltac kernel_unfold :=
  unfold Kernel.stretcher_retrieve, Kernel.ask, Kernel.tell, Kernel.cerr,
    Kernel.updateRatio, Kernel.reapply_max_process_size,
    bind, ret, gets, modify, throw, Kernel.log, Kernel.with_self in *.

Lemma move_to_buffers_run (a : Z) w :
  exists s' (actual : Z),
    Kernel.move_to_buffers a w
    = (Ok tt, Kernel.mkWorld s' (Kernel.heap w)
                (Kernel.trace w
                 ++ fetch_moves (RingBuffer.getWriteSpace
                                   (Kernel.output_buffer_ (Kernel.self w) !!! 0%nat)) a))
    /\ actual = snd (Stretcher.retrieve (Kernel.stretcher_ (Kernel.self w)) a)
    /\ Kernel.stretcher_ s' = fst (fst (Stretcher.retrieve (Kernel.stretcher_ (Kernel.self w)) a))
    /\ Kernel.scratch_ s'
       = fill_scratch (snd (fst (Stretcher.retrieve (Kernel.stretcher_ (Kernel.self w)) a)))
           (Kernel.scratch_ (Kernel.self w))
    /\ Kernel.start_delay_samples_ s' = Kernel.start_delay_samples_ (Kernel.self w)
    /\ Kernel.channel_count_ s' = Kernel.channel_count_ (Kernel.self w)
    /\ Kernel.max_process_size_ s' = Kernel.max_process_size_ (Kernel.self w)
    /\ Kernel.start_pad_samples_ s' = Kernel.start_pad_samples_ (Kernel.self w)
    /\ length (Kernel.output_buffer_ s') = length (Kernel.output_buffer_ (Kernel.self w))
    /\ forall i : nat,
        Kernel.output_buffer_ s' !! i =
        if decide (i < Z.to_nat (Kernel.channel_count_ (Kernel.self w)))%nat
        then (fun rb => fst (RingBuffer.write rb (Kernel.scratch_ s' !!! i) actual))
               <$> (Kernel.output_buffer_ (Kernel.self w) !! i)
        else Kernel.output_buffer_ (Kernel.self w) !! i.
Proof.
  destruct w as [[e p d c m ob sc] hp tr].
  unfold Kernel.move_to_buffers, fetch_moves. kernel_unfold. cbn.
  destruct (Stretcher.retrieve e a) as [[e2 block2] actual] eqn:R2.
  destruct (RingBuffer.getWriteSpace (ob !!! 0%nat) <=? a) eqn:Hsp; cbn; rewrite R2; cbn;
  match goal with |- context [Kernel.write_channels ?x ?ch ?t ?w1] =>
    destruct (write_channels_run x t ch w1) as (obs & Hrun & Hlen & Hlook) end;
  rewrite Hrun; cbn in *; eexists _, actual;
  (split; [rewrite <- ?app_assoc; reflexivity|]); cbn;
  (repeat split; auto);
  intros i; rewrite Hlook; repeat case_decide; try lia; reflexivity.
Qed.

Lemma fetchProcessed_cases w :
  let a := Stretcher.available (Kernel.stretcher_ (Kernel.self w)) in
  let d := Kernel.start_delay_samples_ (Kernel.self w) in
  Kernel.fetchProcessed w =
  if 0 <? a then
    if 0 <? d then
      if d <=? a then Kernel.move_to_buffers (a - d) (discarded d 0 w)
      else (Ok tt, discarded a (d - a) w)
    else Kernel.move_to_buffers a (Kernel.log CallAvailable w)
  else (Ok tt, Kernel.log CallAvailable w).
Proof.
  destruct w as [[e p d c m ob sc] hp tr].
  unfold Kernel.fetchProcessed, discarded, Kernel.ask, Kernel.stretcher_retrieve,
    bind, gets, modify, ret, Kernel.log, Kernel.with_self.
  simpl.
  destruct (0 <? Stretcher.available e); [|reflexivity].
  simpl.
  destruct (0 <? d); [|reflexivity].
  destruct (d <=? Stretcher.available e).
  - simpl. destruct (Stretcher.retrieve e d) as [[e1 block1] count1]. simpl.
    rewrite <- app_assoc. reflexivity.
  - simpl. destruct (Stretcher.retrieve e (Stretcher.available e)) as [[e1 block1] count1].
    simpl. rewrite <- app_assoc. reflexivity.
Qed.

(** [fetchProcessed] always returns; it adds [fetch_events] to the trace,
    leaves the heap alone, and writes one count [actual] of samples from the
    scratch arrays to every channel. *)
Lemma fetchProcessed_run w :
  exists s' (actual : Z),
    Kernel.fetchProcessed w
    = (Ok tt, Kernel.mkWorld s' (Kernel.heap w) (Kernel.trace w ++ fetch_events w))
    /\ Kernel.channel_count_ s' = Kernel.channel_count_ (Kernel.self w)
    /\ Kernel.max_process_size_ s' = Kernel.max_process_size_ (Kernel.self w)
    /\ Kernel.start_pad_samples_ s' = Kernel.start_pad_samples_ (Kernel.self w)
    /\ length (Kernel.scratch_ s') = length (Kernel.scratch_ (Kernel.self w))
    /\ (forall i, length (Kernel.scratch_ s' !!! i)
                  = length (Kernel.scratch_ (Kernel.self w) !!! i))
    /\ length (Kernel.output_buffer_ s') = length (Kernel.output_buffer_ (Kernel.self w))
    /\ forall i : nat,
        Kernel.output_buffer_ s' !! i =
        if decide (i < Z.to_nat (Kernel.channel_count_ (Kernel.self w)))%nat
        then (fun rb => fst (RingBuffer.write rb (Kernel.scratch_ s' !!! i) actual))
               <$> (Kernel.output_buffer_ (Kernel.self w) !! i)
        else Kernel.output_buffer_ (Kernel.self w) !! i.
Proof.
  rewrite fetchProcessed_cases. unfold fetch_events.
  set (a := Stretcher.available _). set (d := Kernel.start_delay_samples_ _).
  assert (Hnone : forall (src : nat -> list float) (i : nat),
      Kernel.output_buffer_ (Kernel.self w) !! i =
      if decide (i < Z.to_nat (Kernel.channel_count_ (Kernel.self w)))%nat
      then (fun rb => fst (RingBuffer.write rb (src i) 0))
             <$> (Kernel.output_buffer_ (Kernel.self w) !! i)
      else Kernel.output_buffer_ (Kernel.self w) !! i).
  { intros src i. case_decide; [|reflexivity].
    destruct (_ !! i); cbn; [|reflexivity]. rewrite write_nothing by lia. reflexivity. }
  destruct (0 <? a) eqn:Ha; [destruct (0 <? d) eqn:Hd; [destruct (d <=? a) eqn:Hda|]|].
  - destruct (move_to_buffers_run (a - d) (discarded d 0 w))
      as (s' & actual & Hrun & _ & _ & Hsc & _ & ? & ? & ? & ? & Hlook).
    exists s', actual. rewrite Hrun. cbn in *.
    split; [rewrite <- app_assoc; reflexivity|].
    rewrite Hsc.
    split_and!; try assumption; try (intros i); rewrite ?length_fill_scratch,
      ?length_fill_scratch_at; try reflexivity.
    rewrite Hlook, Hsc. reflexivity.
  - eexists _, 0. split; [reflexivity|]. cbn.
    split_and!; auto using length_fill_scratch, length_fill_scratch_at.
    apply (Hnone (fun i => _ !!! i)).
  - destruct (move_to_buffers_run a (Kernel.log CallAvailable w))
      as (s' & actual & Hrun & _ & _ & Hsc & _ & ? & ? & ? & ? & Hlook).
    exists s', actual. rewrite Hrun. cbn in *.
    split; [rewrite <- app_assoc; reflexivity|].
    rewrite Hsc.
    split_and!; try assumption; try (intros i); rewrite ?length_fill_scratch,
      ?length_fill_scratch_at; try reflexivity.
    rewrite Hlook, Hsc. reflexivity.
  - eexists _, 0. split; [reflexivity|]. cbn. split_and!; auto.
    apply (Hnone (fun i => _ !!! i)).
Qed.

(** What a fetch adds to the trace holds no reset, no block size, no
    [process]. *)
Lemma fetch_events_quiet w (p : Event -> bool) :
  p CallAvailable = false -> (forall n, p (CallRetrieve n) = false) ->
  (forall l, p (Cerr l) = false) ->
  count_events p (fetch_events w) = 0%nat.
Proof.
  intros Ha Hr Hc. unfold count_events, fetch_events, fetch_moves. cbn. rewrite Ha.
  repeat match goal with |- context [if ?c then _ else _] => destruct c end;
    cbn; rewrite ?Hr, ?Hc; reflexivity.
Qed.

Lemma count_events_app (p : Event -> bool) (l1 l2 : list Event) :
  count_events p (l1 ++ l2) = (count_events p l1 + count_events p l2)%nat.
Proof. unfold count_events. rewrite List.filter_app, length_app. reflexivity. Qed.

Lemma fetchProcessed_trace w :
  Kernel.trace (snd (Kernel.fetchProcessed w)) = Kernel.trace w ++ fetch_events w.
Proof. destruct (fetchProcessed_run w) as (s' & actual & -> & _). reflexivity. Qed.

Lemma fetchProcessed_ok w : fst (Kernel.fetchProcessed w) = Ok tt.
Proof. destruct (fetchProcessed_run w) as (s' & actual & -> & _). reflexivity. Qed.

Lemma fetchProcessed_heap w :
  Kernel.heap (snd (Kernel.fetchProcessed w)) = Kernel.heap w.
Proof. destruct (fetchProcessed_run w) as (s' & actual & -> & _). reflexivity. Qed.

Lemma fetchProcessed_max_process_size w :
  Kernel.max_process_size_ (Kernel.self (snd (Kernel.fetchProcessed w)))
  = Kernel.max_process_size_ (Kernel.self w).
Proof. destruct (fetchProcessed_run w) as (s' & actual & -> & _ & ? & _). assumption. Qed.

Lemma fetchProcessed_channel_count w :
  Kernel.channel_count_ (Kernel.self (snd (Kernel.fetchProcessed w)))
  = Kernel.channel_count_ (Kernel.self w).
Proof. destruct (fetchProcessed_run w) as (s' & actual & -> & ? & _). assumption. Qed.

(** The rest of a ratio setter, after its fetch. *)
Lemma after_fetch_run (change : Event) (apply : E -> E) w :
  let s := Kernel.self w in
  let size := Kernel.max_process_size_ s in
  let e' := apply (reapplied size (Stretcher.reset (Kernel.stretcher_ s))) in
  (Kernel.tell CallReset Stretcher.reset ;;
   Kernel.reapply_max_process_size ;;
   Kernel.tell change apply ;;
   Kernel.updateRatio) w
  = (Ok tt,
     Kernel.mkWorld
       (Kernel.mkRealtimeRubberBand e' (Stretcher.getPreferredStartPad e')
          (Stretcher.getStartDelay e') (Kernel.channel_count_ s) size
          (Kernel.output_buffer_ s) (Kernel.scratch_ s))
       (Kernel.heap w)
       (Kernel.trace w
        ++ CallReset
           :: (if 0 <? size then [CallSetMaxProcessSize size] else [])
           ++ [change; CallGetPreferredStartPad; CallGetStartDelay])).
Proof.
  destruct w as [[e p d c m ob sc] hp tr]. kernel_unfold. unfold reapplied. simpl.
  destruct (0 <? m); simpl; rewrite <- !app_assoc; reflexivity.
Qed.

Lemma bind_returns {S A B : Type} (m : Eff S A) (k : A -> Eff S B) (s s' : S) (a : A) :
  m s = (Ok a, s') -> (x <- m ;; k x) s = k a s'.
Proof. intros Hm. unfold bind. rewrite Hm. reflexivity. Qed.

(** The body of a ratio setter once the guards are passed. *)
Lemma ratio_change_run (query change : Event) (apply : E -> E) w :
  is_reset query = false -> is_setMaxProcessSize query = false ->
  is_reset change = false -> is_setMaxProcessSize change = false ->
  follows_protocol query change apply w
    ((Kernel.fetchProcessed ;;
      Kernel.tell CallReset Stretcher.reset ;;
      Kernel.reapply_max_process_size ;;
      Kernel.tell change apply ;;
      Kernel.updateRatio) (Kernel.log query w)).
Proof.
  intros Hq1 Hq2 Hc1 Hc2. unfold follows_protocol.
  pose proof (fetchProcessed_trace (Kernel.log query w)) as Htr.
  pose proof (fetchProcessed_heap (Kernel.log query w)) as Hheap.
  pose proof (fetchProcessed_max_process_size (Kernel.log query w)) as Hmax.
  pose proof (fetchProcessed_ok (Kernel.log query w)) as Hok.
  pose proof (fetchProcessed_channel_count (Kernel.log query w)) as Hcc.
  destruct (Kernel.fetchProcessed (Kernel.log query w)) as [r1 w1] eqn:Hfetch.
  cbn [fst snd] in *. subst r1.
  rewrite (bind_returns _ _ _ _ _ Hfetch), after_fetch_run.
  cbn [fst snd Kernel.self Kernel.trace Kernel.heap Kernel.stretcher_
    Kernel.start_pad_samples_ Kernel.start_delay_samples_ Kernel.max_process_size_
    Kernel.output_buffer_ Kernel.scratch_ Kernel.channel_count_].
  rewrite Hmax, Htr, Hheap, Hcc.
  change (Kernel.max_process_size_ (Kernel.self (Kernel.log query w)))
    with (Kernel.max_process_size_ (Kernel.self w)).
  change (Kernel.trace (Kernel.log query w)) with (Kernel.trace w ++ [query]).
  change (Kernel.heap (Kernel.log query w)) with (Kernel.heap w).
  split_and!; try reflexivity.
  - rewrite <- app_assoc. reflexivity.
  - rewrite !count_events_app, fetch_events_quiet by reflexivity.
    unfold count_events at 2 3. cbn. rewrite Hq1. cbn.
    destruct (0 <? _); cbn; rewrite Hc1; cbn; lia.
  - rewrite !count_events_app, fetch_events_quiet by reflexivity.
    unfold count_events at 2 3. cbn. rewrite Hq2. cbn.
    destruct (0 <? _); cbn; rewrite Hc2; cbn; lia.
Qed.

Lemma bind_ask {A B : Type} (ev : Event) (f : E -> A) (k : A -> Kernel.Cpp B) w :
  (x <- Kernel.ask ev f ;; k x) w
  = k (f (Kernel.stretcher_ (Kernel.self w))) (Kernel.log ev w).
Proof. reflexivity. Qed.

Lemma count_events_log (p : Event -> bool) (ev : Event) w :
  p ev = false ->
  count_events p (Kernel.trace (Kernel.log ev w)) = count_events p (Kernel.trace w).
Proof.
  intros Hp. unfold Kernel.log. cbn [Kernel.trace]. rewrite count_events_app.
  unfold count_events at 2. cbn. rewrite Hp. cbn. lia.
Qed.

Lemma setTempo_follows w r :
  PrimFloat.leb r 0%float = false ->
  double_ne (Stretcher.getTimeRatio (Kernel.stretcher_ (Kernel.self w))) r = true ->
  follows_protocol CallGetTimeRatio (CallSetTimeRatio r)
    (fun e => Stretcher.setTimeRatio e r) w (Kernel.setTempo r w).
Proof.
  intros Hvalid Hnew. unfold Kernel.setTempo.
  rewrite Hvalid, bind_ask, Hnew. apply ratio_change_run; reflexivity.
Qed.

Lemma setPitch_follows w r :
  PrimFloat.leb r 0%float = false ->
  double_ne (Stretcher.getPitchScale (Kernel.stretcher_ (Kernel.self w))) r = true ->
  follows_protocol CallGetPitchScale (CallSetPitchScale r)
    (fun e => Stretcher.setPitchScale e r) w (Kernel.setPitch r w).
Proof.
  intros Hvalid Hnew. unfold Kernel.setPitch.
  rewrite Hvalid, bind_ask, Hnew. apply ratio_change_run; reflexivity.
Qed.

Lemma setFormantScale_follows w r :
  PrimFloat.leb r 0%float = false ->
  double_ne (Stretcher.getFormantScale (Kernel.stretcher_ (Kernel.self w))) r = true ->
  follows_protocol CallGetFormantScale (CallSetFormantScale r)
    (fun e => Stretcher.setFormantScale e r) w (Kernel.setFormantScale r w).
Proof.
  intros Hvalid Hnew. unfold Kernel.setFormantScale.
  rewrite Hvalid, bind_ask, Hnew. apply ratio_change_run; reflexivity.
Qed.


(** C5. A ratio setter (tempo, pitch, formant) called with a valid value that
    differs from the current one runs the protocol of a ratio change: one
    fetch first, draining what the old parameters produced, then exactly one
    reset, the fixed block size applied again when one is configured, the new
    ratio applied, and the start pad and start delay read back from the
    stretcher. *)
Theorem ratio_change_protocol :
  (forall w r,
      PrimFloat.leb r 0%float = false ->
      double_ne (Stretcher.getTimeRatio (Kernel.stretcher_ (Kernel.self w))) r = true ->
      follows_protocol CallGetTimeRatio (CallSetTimeRatio r)
        (fun e => Stretcher.setTimeRatio e r) w (Kernel.setTempo r w))
  /\ (forall w r,
      PrimFloat.leb r 0%float = false ->
      double_ne (Stretcher.getPitchScale (Kernel.stretcher_ (Kernel.self w))) r = true ->
      follows_protocol CallGetPitchScale (CallSetPitchScale r)
        (fun e => Stretcher.setPitchScale e r) w (Kernel.setPitch r w))
  /\ (forall w r,
      PrimFloat.leb r 0%float = false ->
      double_ne (Stretcher.getFormantScale (Kernel.stretcher_ (Kernel.self w))) r = true ->
      follows_protocol CallGetFormantScale (CallSetFormantScale r)
        (fun e => Stretcher.setFormantScale e r) w (Kernel.setFormantScale r w)).
Proof.
  split_and!; intros w r Hvalid Hnew.
  - apply setTempo_follows; assumption.
  - apply setPitch_follows; assumption.
  - apply setFormantScale_follows; assumption.
Qed.




(** C9. The constructor throws for every sample rate or channel count that is
    not positive and builds the object for all positive ones; each ratio
    setter throws for a ratio that is not positive, before it touches
    anything. *)
Theorem configuration_errors_are_rejected (kBlockSize_ kReserve_ : Z) :
  (forall sampleRate channel_count high_quality heap0,
      sampleRate <= 0 \/ channel_count <= 0 ->
      exists what,
        Kernel.new_RealtimeRubberBand kBlockSize_ kReserve_ sampleRate channel_count
          high_quality heap0 = Throw (range_error what))
  /\ (forall sampleRate channel_count high_quality heap0,
      0 < sampleRate -> 0 < channel_count ->
      exists w : Kernel.World (E := E),
        Kernel.new_RealtimeRubberBand kBlockSize_ kReserve_ sampleRate channel_count
          high_quality heap0 = Ok w
        /\ Kernel.channel_count_ (Kernel.self w) = channel_count
        /\ length (Kernel.output_buffer_ (Kernel.self w)) = Z.to_nat channel_count
        /\ Kernel.max_process_size_ (Kernel.self w) = 0
        /\ Kernel.heap w = heap0)
  /\ (forall (w : Kernel.World (E := E)) r,
      PrimFloat.leb r 0%float = true ->
      Kernel.setTempo r w = (Throw (range_error "Tempo has to be greater than 0"), w)
      /\ Kernel.setPitch r w = (Throw (range_error "Pitch has to be greater than 0"), w)
      /\ Kernel.setFormantScale r w
         = (Throw (range_error "Format scale has to be greater than 0"), w)).
Proof.
  split_and!.
  - intros sampleRate channel_count hq heap0 Hbad. unfold Kernel.new_RealtimeRubberBand.
    destruct (sampleRate <=? 0) eqn:Hs; [eexists; reflexivity|].
    destruct (channel_count <=? 0) eqn:Hc; [eexists; reflexivity|]. lia.
  - intros sampleRate channel_count hq heap0 Hs Hc. unfold Kernel.new_RealtimeRubberBand.
    destruct (sampleRate <=? 0) eqn:Hs'; [lia|].
    destruct (channel_count <=? 0) eqn:Hc'; [lia|].
    eexists. split; [reflexivity|]. cbn. split_and!; try reflexivity.
    apply length_replicate.
  - intros w r Hr. unfold Kernel.setTempo, Kernel.setPitch, Kernel.setFormantScale.
    rewrite Hr. split_and!; reflexivity.
Qed.

Lemma push_run (input_ptr sample_size : Z) w :
  Kernel.push input_ptr sample_size w
  = Kernel.fetchProcessed (processed input_ptr sample_size w).
Proof. reflexivity. Qed.

(** C1, as the kernel has it.  [push] makes no check of the sample count
    against the configured block size: for every object and every count it
    hands the block to the stretcher with that count, runs one fetch and
    returns; the configured size stays as it was. *)
Theorem push_forwards_any_sample_count (input_ptr sample_size : Z) w :
  fst (Kernel.push input_ptr sample_size w) = Ok tt
  /\ Kernel.trace (snd (Kernel.push input_ptr sample_size w))
     = Kernel.trace w
       ++ CallProcess sample_size false :: fetch_events (processed input_ptr sample_size w)
  /\ count_events is_process (Kernel.trace (snd (Kernel.push input_ptr sample_size w)))
     = S (count_events is_process (Kernel.trace w))
  /\ Kernel.max_process_size_ (Kernel.self (snd (Kernel.push input_ptr sample_size w)))
     = Kernel.max_process_size_ (Kernel.self w)
  /\ Kernel.heap (snd (Kernel.push input_ptr sample_size w)) = Kernel.heap w.
Proof.
  rewrite push_run. rewrite fetchProcessed_ok, fetchProcessed_trace, fetchProcessed_heap,
    fetchProcessed_max_process_size.
  split_and!; try reflexivity.
  - unfold processed, Kernel.log. cbn [Kernel.trace]. rewrite <- app_assoc. reflexivity.
  - unfold processed, Kernel.log. cbn [Kernel.trace Kernel.with_self].
    rewrite !count_events_app, fetch_events_quiet by reflexivity.
    unfold count_events at 2. cbn. lia.
Qed.

Lemma fill_scratch_at (block : nat -> list float) (scratch : list (list float)) (i : nat) :
  (i < length scratch)%nat ->
  fill_scratch block scratch !!! i = overwrite_prefix (block i) (scratch !!! i).
Proof.
  intros Hi. unfold fill_scratch. rewrite !list_lookup_total_alt, list_lookup_imap.
  destruct (lookup_lt_is_Some_2 scratch i Hi) as [dst ->]. reflexivity.
Qed.

Lemma shaped_scratch_at cap (s : Kernel.RealtimeRubberBand (E := E)) (i : nat) :
  shaped cap s -> (i < length (Kernel.output_buffer_ s))%nat ->
  length (Kernel.scratch_ s !!! i) = Z.to_nat cap.
Proof.
  intros (_ & Hlen & _ & Hsc) Hi. rewrite <- Hlen in Hi.
  destruct (lookup_lt_is_Some_2 _ i Hi) as [src Hsrc].
  rewrite (list_lookup_total_correct _ _ _ Hsrc).
  eapply (proj1 (Forall_lookup _ _) Hsc); eauto.
Qed.

Lemma shaped_capacity cap (s : Kernel.RealtimeRubberBand (E := E)) (i : nat) rb :
  shaped cap s -> Kernel.output_buffer_ s !! i = Some rb -> RingBuffer.capacity rb = cap.
Proof.
  intros (_ & _ & Hcap & _) Hrb. eapply (proj1 (Forall_lookup _ _) Hcap); eauto.
Qed.

(** What the second half of a fetch appends to a channel: the front of the
    block the stretcher just gave for that channel. *)
Lemma move_to_buffers_appends `{!StretcherLaws E} cap (a : Z) w :
  shaped cap (Kernel.self w) ->
  0 <= a <= Stretcher.available (Kernel.stretcher_ (Kernel.self w)) ->
  let kept := Stretcher.retrieve (Kernel.stretcher_ (Kernel.self w)) a in
  let w' := snd (Kernel.move_to_buffers a w) in
  Kernel.start_delay_samples_ (Kernel.self w')
  = Kernel.start_delay_samples_ (Kernel.self w)
  /\ forall (i : nat) rb,
      Kernel.output_buffer_ (Kernel.self w) !! i = Some rb ->
      Kernel.output_buffer_ (Kernel.self w') !! i
      = Some (RingBuffer.mk (RingBuffer.capacity rb)
                (RingBuffer.data rb
                 ++ take (Z.to_nat (Z.min a (RingBuffer.getWriteSpace rb)))
                      (snd (fst kept) i))).
Proof.
  intros Hshaped Ha kept w'. subst w'.
  destruct (move_to_buffers_run a w)
    as (s' & actual & Hrun & Hact & _ & Hsc & Hd & _ & _ & _ & _ & Hlook).
  rewrite Hrun. cbn [snd Kernel.self]. split; [exact Hd|].
  intros i rb Hrb.
  assert (Hi : (i < length (Kernel.output_buffer_ (Kernel.self w)))%nat)
    by (eapply lookup_lt_Some; eauto).
  pose proof Hshaped as (Hcc & Hlen & _ & _).
  rewrite Hlook, Hrb. rewrite decide_True by lia. cbn [fmap option_fmap option_map].
  destruct (retrieve_exact _ _ Ha) as [Hcount _].
  pose proof (retrieve_block (Kernel.stretcher_ (Kernel.self w)) a i) as Hblock.
  fold kept in Hact, Hcount, Hblock, Hsc. rewrite Hcount in Hblock. rewrite Hcount in Hact.
  subst actual. unfold RingBuffer.write. cbn [fst]. do 3 f_equal.
  rewrite Hsc, fill_scratch_at by lia.
  apply overwrite_prefix_take.
  - lia.
  - rewrite (shaped_scratch_at cap) by assumption.
    pose proof (shaped_capacity cap _ i rb Hshaped Hrb) as Hcap.
    unfold RingBuffer.getWriteSpace, RingBuffer.getReadSpace. rewrite Hcap. lia.
Qed.

Lemma discarded_shaped cap n d w :
  shaped cap (Kernel.self w) -> shaped cap (Kernel.self (discarded n d w)).
Proof.
  intros (Hcc & Hlen & Hcap & Hsc). unfold shaped, discarded. cbn.
  split_and!; auto.
  - rewrite length_fill_scratch. assumption.
  - apply Forall_lookup. intros i src Hsrc.
    assert (Hi : (i < length (Kernel.scratch_ (Kernel.self w)))%nat).
    { rewrite <- (length_fill_scratch (snd (fst (Stretcher.retrieve
         (Kernel.stretcher_ (Kernel.self w)) n)))). eapply lookup_lt_Some; eauto. }
    apply list_lookup_total_correct in Hsrc. subst src.
    rewrite length_fill_scratch_at.
    destruct (lookup_lt_is_Some_2 _ i Hi) as [src Hsrc].
    rewrite (list_lookup_total_correct _ _ _ Hsrc).
    eapply (proj1 (Forall_lookup _ _) Hsc); eauto.
Qed.

(** C6. A fetch that finds a start delay [d > 0] and [a > 0] samples available
    retrieves [min a d] samples first and leaves them in the scratch arrays
    only, takes that count off the start delay (which stays at or above 0),
    and appends to every ring buffer nothing but the front of what the
    stretcher gives for the surplus [a - min a d], as many of them as fit;
    when the delay takes all of [a], the ring buffers are as before. *)
Theorem start_delay_is_discarded `{!StretcherLaws E} cap w :
  let s := Kernel.self w in
  let a := Stretcher.available (Kernel.stretcher_ s) in
  let d := Kernel.start_delay_samples_ s in
  let k := Z.min a d in
  let gone := Stretcher.retrieve (Kernel.stretcher_ s) k in
  let kept := Stretcher.retrieve (fst (fst gone)) (a - k) in
  let w' := snd (Kernel.fetchProcessed w) in
  shaped cap s -> 0 < d -> 0 < a ->
  fst (Kernel.fetchProcessed w) = Ok tt
  /\ (exists rest,
        Kernel.trace w' = Kernel.trace w ++ CallAvailable :: CallRetrieve k :: rest
        /\ (a < d -> rest = [])
        /\ (d <= a -> count_events is_retrieve rest = 1%nat
                      /\ last rest = Some (CallRetrieve (a - k))))
  /\ snd gone = k
  /\ Kernel.start_delay_samples_ (Kernel.self w') = d - k
  /\ 0 <= d - k
  /\ (forall (i : nat) rb,
        Kernel.output_buffer_ s !! i = Some rb ->
        Kernel.output_buffer_ (Kernel.self w') !! i
        = Some (RingBuffer.mk (RingBuffer.capacity rb)
                  (RingBuffer.data rb
                   ++ take (Z.to_nat (Z.min (a - k) (RingBuffer.getWriteSpace rb)))
                        (snd (fst kept) i))))
  /\ (a <= d -> Kernel.output_buffer_ (Kernel.self w') = Kernel.output_buffer_ s).
Proof.
  intros s a d k gone kept w' Hshaped Hd Ha.
  assert (Hk : 0 <= k <= a) by (subst k; lia).
  destruct (retrieve_exact (Kernel.stretcher_ s) k Hk) as [Hgone Hleft].
  fold gone in Hgone, Hleft.
  assert (Hwritten : forall (i : nat) rb,
        Kernel.output_buffer_ s !! i = Some rb ->
        Kernel.output_buffer_ (Kernel.self w') !! i
        = Some (RingBuffer.mk (RingBuffer.capacity rb)
                  (RingBuffer.data rb
                   ++ take (Z.to_nat (Z.min (a - k) (RingBuffer.getWriteSpace rb)))
                        (snd (fst kept) i)))).
  { subst w'. rewrite fetchProcessed_cases. fold s a d.
    destruct (0 <? a) eqn:Ha'; [|lia]. destruct (0 <? d) eqn:Hd'; [|lia].
    destruct (d <=? a) eqn:Hda.
    - assert (k = d) as Hkd by lia.
      assert (Hmove := move_to_buffers_appends cap (a - d) (discarded d 0 w)).
      cbn zeta in Hmove. destruct Hmove as [_ Hmove].
      + apply discarded_shaped, Hshaped.
      + unfold discarded. cbn [Kernel.self Kernel.stretcher_]. fold s.
        rewrite <- Hkd. fold gone. lia.
      + intros i rb Hrb. rewrite (Hmove i rb Hrb).
        unfold discarded. cbn [Kernel.self Kernel.stretcher_]. fold s.
        subst kept gone. rewrite Hkd. reflexivity.
    - intros i rb Hrb. cbn [snd]. unfold discarded. cbn [Kernel.self Kernel.output_buffer_].
      fold s. rewrite Hrb. replace (a - k) with 0 by lia.
      replace (Z.to_nat (Z.min 0 _)) with 0%nat by lia.
      rewrite take_0, app_nil_r. destruct rb; reflexivity. }
  split_and!.
  - apply fetchProcessed_ok.
  - subst w'. rewrite fetchProcessed_trace. unfold fetch_events. fold s a d.
    destruct (0 <? a) eqn:Ha'; [|lia]. destruct (0 <? d) eqn:Hd'; [|lia].
    destruct (d <=? a) eqn:Hda.
    + replace k with d by lia. eexists. split; [reflexivity|]. split; [lia|].
      intros _. unfold fetch_moves, count_events.
      destruct (_ <=? a - d); cbn; split; reflexivity.
    + replace k with a by lia. exists []. split; [reflexivity|]. split; [reflexivity|]. lia.
  - exact Hgone.
  - subst w'. rewrite fetchProcessed_cases. fold s a d.
    destruct (0 <? a) eqn:Ha'; [|lia]. destruct (0 <? d) eqn:Hd'; [|lia].
    destruct (d <=? a) eqn:Hda.
    + assert (Hmove := move_to_buffers_appends cap (a - d) (discarded d 0 w)).
      cbn zeta in Hmove. destruct Hmove as [Hdelay _].
      * apply discarded_shaped, Hshaped.
      * unfold discarded. cbn [Kernel.self Kernel.stretcher_]. fold s.
        replace d with k at 1 3 by lia. fold gone. lia.
      * rewrite Hdelay. cbn. lia.
    + cbn. lia.
  - lia.
  - exact Hwritten.
  - intros Had. apply list_eq. intros i.
    destruct (Kernel.output_buffer_ s !! i) as [rb|] eqn:Hrb.
    + rewrite (Hwritten i rb Hrb). replace (a - k) with 0 by lia.
      replace (Z.to_nat (Z.min 0 _)) with 0%nat by lia.
      rewrite take_0, app_nil_r. destruct rb; reflexivity.
    + apply lookup_ge_None. apply lookup_ge_None in Hrb.
      subst w'. destruct (fetchProcessed_run w) as (s' & actual & -> & _ & _ & _ & _ & _ & Hl & _).
      cbn [snd Kernel.self]. rewrite Hl. exact Hrb.
Qed.

(** *** The heap *)

Lemma store_block_outside (m : Mem) (p : Z) (xs : list float) (a : Z) :
  ~ (p <= a < p + Z.of_nat (length xs)) -> store_block m p xs a = m a.
Proof.
  intros Ha. unfold store_block.
  destruct ((p <=? a) && (a <? p + Z.of_nat (length xs))) eqn:Hin; [|reflexivity].
  apply andb_true_iff in Hin. lia.
Qed.

Lemma store_block_inside (m : Mem) (p : Z) (xs : list float) (j : nat) x :
  xs !! j = Some x -> store_block m p xs (p + Z.of_nat j) = x.
Proof.
  intros Hj. pose proof (lookup_lt_Some _ _ _ Hj) as Hlt. unfold store_block.
  destruct ((p <=? p + Z.of_nat j) && (p + Z.of_nat j <? p + Z.of_nat (length xs))) eqn:Hin.
  - replace (Z.to_nat (p + Z.of_nat j - p)) with j by lia. rewrite Hj. reflexivity.
  - apply andb_false_iff in Hin. lia.
Qed.

Lemma load_block_ext (m1 m2 : Mem) (p : Z) (n : nat) :
  (forall j : nat, (j < n)%nat -> m1 (p + Z.of_nat j) = m2 (p + Z.of_nat j)) ->
  load_block m1 p n = load_block m2 p n.
Proof.
  intros Hsame. unfold load_block. apply list_eq. intros j.
  rewrite !list_lookup_fmap.
  destruct (seq 0 n !! j) as [j'|] eqn:Hj; [|reflexivity].
  apply lookup_seq in Hj as [-> Hlt]. cbn. f_equal. apply Hsame. exact Hlt.
Qed.

Lemma load_store_block (m : Mem) (p : Z) (xs : list float) :
  load_block (store_block m p xs) p (length xs) = xs.
Proof.
  unfold load_block. apply list_eq. intros j. rewrite list_lookup_fmap.
  destruct (xs !! j) as [x|] eqn:Hj.
  - rewrite (proj2 (lookup_seq 0 (length xs) j j)); cbn.
    + f_equal. apply store_block_inside. exact Hj.
    + split; [reflexivity | eapply lookup_lt_Some; eauto].
  - apply lookup_ge_None in Hj.
    rewrite (proj2 (lookup_ge_None (seq 0 (length xs)) j)); [reflexivity|].
    rewrite length_seq. exact Hj.
Qed.

Lemma length_load_block (m : Mem) (p : Z) (n : nat) : length (load_block m p n) = n.
Proof. unfold load_block. rewrite length_fmap, length_seq. reflexivity. Qed.

(** *** pull *)

(** The loop of [pull] when a channel it comes to is empty. *)
Lemma pull_channels_empty (output_ptr sample_size : Z) (channel todo : nat) w :
  RingBuffer.getReadSpace (Kernel.output_buffer_ (Kernel.self w) !!! channel) = 0 ->
  Kernel.pull_channels output_ptr sample_size channel (S todo) w
  = (Ok tt, Kernel.log (Cerr "BUFFER UNDERRUN") w).
Proof.
  intros Hempty. cbn [Kernel.pull_channels]. unfold bind, gets. rewrite Hempty. reflexivity.
Qed.

(** The loop of [pull] over channels that all hold [fill > 0] samples: each
    gives up its [min fill sample_size] oldest samples, which land in the heap
    at [output_ptr + channel * sample_size]; no other cell changes. *)
Lemma pull_channels_run (output_ptr sample_size fill : Z) (todo channel : nat) w :
  0 < fill ->
  (forall i : nat, (channel <= i < channel + todo)%nat ->
     exists rb, Kernel.output_buffer_ (Kernel.self w) !! i = Some rb
                /\ RingBuffer.getReadSpace rb = fill) ->
  let k := Z.to_nat (Z.min fill sample_size) in
  exists obs heap',
    Kernel.pull_channels output_ptr sample_size channel todo w
    = (Ok tt, Kernel.mkWorld (Kernel.set_output_buffer obs (Kernel.self w)) heap'
                (Kernel.trace w))
    /\ length obs = length (Kernel.output_buffer_ (Kernel.self w))
    /\ (forall i : nat,
          obs !! i =
          if decide (channel <= i < channel + todo)%nat
          then (fun rb => RingBuffer.mk (RingBuffer.capacity rb) (drop k (RingBuffer.data rb)))
                 <$> (Kernel.output_buffer_ (Kernel.self w) !! i)
          else Kernel.output_buffer_ (Kernel.self w) !! i)
    /\ (forall a : Z,
          (forall i : nat, (channel <= i < channel + todo)%nat ->
             ~ (output_ptr + Z.of_nat i * sample_size <= a
                < output_ptr + Z.of_nat i * sample_size + Z.of_nat k)) ->
          heap' a = Kernel.heap w a)
    /\ (forall (i : nat) rb, (channel <= i < channel + todo)%nat ->
          Kernel.output_buffer_ (Kernel.self w) !! i = Some rb ->
          load_block heap' (output_ptr + Z.of_nat i * sample_size) k
          = take k (RingBuffer.data rb)).
Proof.
  intros Hfill. revert channel w. induction todo as [|todo IH]; intros channel w Hall k.
  - exists (Kernel.output_buffer_ (Kernel.self w)), (Kernel.heap w).
    split_and!.
    + destruct w as [[] ? ?]. reflexivity.
    + reflexivity.
    + intros i. case_decide; [lia | reflexivity].
    + reflexivity.
    + intros i rb Hi. lia.
  - destruct (Hall channel ltac:(lia)) as (rb0 & Hrb0 & Hfill0).
    pose proof (list_lookup_total_correct _ _ _ Hrb0) as Hrb0t.
    cbn [Kernel.pull_channels]. unfold bind at 1. unfold gets at 1.
    rewrite Hrb0t, Hfill0.
    destruct (fill =? 0) eqn:Hz; [lia|].
    unfold bind at 1. unfold modify at 1. rewrite Hrb0t.
    unfold RingBuffer.read. rewrite Hfill0.
    replace (Z.to_nat (Z.min (Z.min fill sample_size) fill)) with k by (subst k; lia).
    set (w1 := Kernel.mkWorld _ _ _).
    assert (Hk : (k <= length (RingBuffer.data rb0))%nat).
    { unfold RingBuffer.getReadSpace in Hfill0. subst k. lia. }
    destruct (IH (S channel) w1) as (obs & heap' & Hrun & Hlen & Hlook & Hout & Hin).
    { intros i Hi. destruct (Hall i ltac:(lia)) as (rb & Hrb & Hf). exists rb.
      split; [|exact Hf]. subst w1. cbn. rewrite list_lookup_insert_ne by lia. exact Hrb. }
    exists obs, heap'. rewrite Hrun. subst w1. cbn in *. split_and!.
    + destruct w as [[] ? ?]. reflexivity.
    + rewrite Hlen. apply length_insert.
    + intros i. rewrite Hlook. repeat case_decide; try lia.
      * rewrite list_lookup_insert_ne by lia. reflexivity.
      * assert (i = channel) by lia. subst i.
        rewrite list_lookup_insert_eq by (eapply lookup_lt_Some; eauto).
        rewrite Hrb0. reflexivity.
      * rewrite list_lookup_insert_ne by lia. reflexivity.
    + intros a Ha. rewrite Hout by (intros i Hi; apply Ha; lia).
      apply store_block_outside. rewrite length_take, Nat.min_l by lia.
      apply Ha. lia.
    + intros i rb Hi Hrb. destruct (decide (i = channel)) as [->|Hne].
      * rewrite Hrb0 in Hrb. injection Hrb as <-.
        pose proof (load_store_block (Kernel.heap w)
                     (output_ptr + Z.of_nat channel * sample_size)
                     (take k (RingBuffer.data rb0))) as Hstored.
        rewrite length_take, Nat.min_l in Hstored by lia. rewrite <- Hstored.
        apply load_block_ext. intros j Hj. apply Hout. intros i' Hi'.
        subst k. nia.
      * apply Hin; [lia|]. rewrite list_lookup_insert_ne by lia. exact Hrb.
Qed.

(** *** Channels stay aligned *)

Lemma aligned_at_lookup fill (s : Kernel.RealtimeRubberBand (E := E)) (i : nat) rb :
  aligned_at fill s -> Kernel.output_buffer_ s !! i = Some rb ->
  RingBuffer.getReadSpace rb = fill.
Proof. intros Hal Hrb. eapply (proj1 (Forall_lookup _ _) Hal); eauto. Qed.

Lemma write_fill cap fill (rb : RingBuffer.t float) (source : list float) (n : Z) :
  RingBuffer.capacity rb = cap -> RingBuffer.getReadSpace rb = fill ->
  length source = Z.to_nat cap ->
  RingBuffer.capacity (fst (RingBuffer.write rb source n)) = cap
  /\ RingBuffer.getReadSpace (fst (RingBuffer.write rb source n))
     = fill + Z.of_nat (Z.to_nat (Z.min n (cap - fill))).
Proof.
  intros Hcap Hfill Hsrc. unfold RingBuffer.write, RingBuffer.getWriteSpace.
  cbn [fst RingBuffer.capacity RingBuffer.data]. split; [exact Hcap|].
  unfold RingBuffer.getReadSpace in *. cbn [RingBuffer.data].
  rewrite length_app, length_take, Hcap. lia.
Qed.

(** A fetch adds one count of samples to every channel. *)
Lemma fetch_keeps_aligned cap fill w :
  shaped cap (Kernel.self w) -> aligned_at fill (Kernel.self w) ->
  exists written,
    0 <= written
    /\ shaped cap (Kernel.self (snd (Kernel.fetchProcessed w)))
    /\ aligned_at (fill + written) (Kernel.self (snd (Kernel.fetchProcessed w)))
    /\ length (Kernel.output_buffer_ (Kernel.self (snd (Kernel.fetchProcessed w))))
       = length (Kernel.output_buffer_ (Kernel.self w)).
Proof.
  intros Hshaped Hal.
  destruct (fetchProcessed_run w)
    as (s' & actual & Hrun & Hcc & _ & _ & Hlsc & Hsc & Hlob & Hlook).
  rewrite Hrun. cbn [snd Kernel.self].
  pose proof Hshaped as (Hcc0 & Hlen0 & Hcap0 & Hsc0).
  exists (Z.of_nat (Z.to_nat (Z.min actual (cap - fill)))).
  assert (Hnew : forall (i : nat) rb', Kernel.output_buffer_ s' !! i = Some rb' ->
            RingBuffer.capacity rb' = cap
            /\ RingBuffer.getReadSpace rb'
               = fill + Z.of_nat (Z.to_nat (Z.min actual (cap - fill)))).
  { intros i rb' Hrb'. pose proof (lookup_lt_Some _ _ _ Hrb') as Hi. rewrite Hlob in Hi.
    rewrite Hlook, decide_True in Hrb' by lia.
    destruct (Kernel.output_buffer_ (Kernel.self w) !! i) as [rb|] eqn:Hrb; [|discriminate].
    injection Hrb' as <-. apply write_fill.
    - eapply shaped_capacity; eauto.
    - eapply aligned_at_lookup; eauto.
    - rewrite Hsc. eapply shaped_scratch_at; eauto. }
  split_and!.
  - lia.
  - unfold shaped. split_and!.
    + rewrite Hcc, Hlob. exact Hcc0.
    + rewrite Hlsc, Hlob. exact Hlen0.
    + apply Forall_lookup. intros i rb' Hrb'. apply (Hnew i rb' Hrb').
    + apply Forall_lookup. intros i src Hsrc.
      pose proof (lookup_lt_Some _ _ _ Hsrc) as Hi.
      apply list_lookup_total_correct in Hsrc. subst src. rewrite Hsc.
      eapply shaped_scratch_at; eauto. lia.
  - apply Forall_lookup. intros i rb' Hrb'. apply (Hnew i rb' Hrb').
  - exact Hlob.
Qed.

Lemma pull_run (output_ptr sample_size : Z) w :
  Kernel.pull output_ptr sample_size w
  = Kernel.pull_channels output_ptr sample_size 0
      (Z.to_nat (Kernel.channel_count_ (Kernel.self w))) w.
Proof. reflexivity. Qed.

(** A pull takes one count of samples from every channel. *)
Lemma pull_keeps_aligned cap fill (output_ptr sample_size : Z) w :
  shaped cap (Kernel.self w) -> aligned_at fill (Kernel.self w) ->
  exists taken,
    0 <= taken
    /\ shaped cap (Kernel.self (snd (Kernel.pull output_ptr sample_size w)))
    /\ aligned_at (fill - taken) (Kernel.self (snd (Kernel.pull output_ptr sample_size w)))
    /\ length (Kernel.output_buffer_ (Kernel.self (snd (Kernel.pull output_ptr sample_size w))))
       = length (Kernel.output_buffer_ (Kernel.self w)).
Proof.
  intros Hshaped Hal. rewrite pull_run.
  pose proof Hshaped as (Hcc0 & Hlen0 & Hcap0 & Hsc0).
  destruct (Z.to_nat (Kernel.channel_count_ (Kernel.self w))) as [|todo] eqn:Htodo.
  { exists 0. cbn. rewrite Z.sub_0_r. auto with lia. }
  destruct (lookup_lt_is_Some_2 (Kernel.output_buffer_ (Kernel.self w)) 0%nat ltac:(lia))
    as [rb0 Hrb0].
  pose proof (aligned_at_lookup _ _ _ _ Hal Hrb0) as Hfill0.
  destruct (decide (fill = 0)) as [Hz|Hnz].
  - rewrite pull_channels_empty.
    + exists 0. cbn. rewrite Z.sub_0_r. auto with lia.
    + rewrite (list_lookup_total_correct _ _ _ Hrb0). lia.
  - assert (Hpos : 0 < fill) by (unfold RingBuffer.getReadSpace in Hfill0; lia).
    destruct (pull_channels_run output_ptr sample_size fill (S todo) 0 w Hpos)
      as (obs & heap' & Hrun & Hlen & Hlook & _).
    { intros i Hi. destruct (lookup_lt_is_Some_2 (Kernel.output_buffer_ (Kernel.self w)) i)
        as [rb Hrb]; [lia|]. exists rb. split; [exact Hrb|].
      eapply aligned_at_lookup; eauto. }
    rewrite Hrun. cbn [snd Kernel.self].
    exists (Z.of_nat (Z.to_nat (Z.min fill sample_size))).
    assert (Hnew : forall (i : nat) rb', obs !! i = Some rb' ->
              RingBuffer.capacity rb' = cap
              /\ RingBuffer.getReadSpace rb'
                 = fill - Z.of_nat (Z.to_nat (Z.min fill sample_size))).
    { intros i rb' Hrb'. pose proof (lookup_lt_Some _ _ _ Hrb') as Hi. rewrite Hlen in Hi.
      rewrite Hlook, decide_True in Hrb' by lia.
      destruct (Kernel.output_buffer_ (Kernel.self w) !! i) as [rb|] eqn:Hrb; [|discriminate].
      injection Hrb' as <-. cbn. split; [eapply shaped_capacity; eauto|].
      pose proof (aligned_at_lookup _ _ _ _ Hal Hrb) as Hf.
      unfold RingBuffer.getReadSpace in *. cbn. rewrite length_drop. lia. }
    split_and!.
    + lia.
    + destruct w as [[e p d c m ob sc] hp tr]. unfold shaped in *. cbn in *. split_and!.
      * rewrite Hlen. exact Hcc0.
      * rewrite Hlen. exact Hlen0.
      * apply Forall_lookup. intros i rb' Hrb'. apply (Hnew i rb' Hrb').
      * exact Hsc0.
    + destruct w as [[e p d c m ob sc] hp tr]. unfold aligned_at. cbn.
      apply Forall_lookup. intros i rb' Hrb'. apply (Hnew i rb' Hrb').
    + destruct w as [[e p d c m ob sc] hp tr]. cbn in *. exact Hlen.
Qed.

Lemma same_buffers_keep cap fill (s1 s2 : Kernel.RealtimeRubberBand (E := E)) :
  same_buffers s1 s2 -> shaped cap s1 -> aligned_at fill s1 ->
  shaped cap s2 /\ aligned_at fill s2.
Proof.
  intros (Hcc & Hob & Hsc). unfold shaped, aligned_at. rewrite Hcc, Hob, Hsc. tauto.
Qed.

(** A ratio setter leaves the buffers as they were or as its one fetch left
    them. *)
Lemma setter_buffers w :
  (forall r, same_buffers (Kernel.self w) (Kernel.self (snd (Kernel.setTempo r w)))
             \/ same_buffers
                  (Kernel.self (snd (Kernel.fetchProcessed (Kernel.log CallGetTimeRatio w))))
                  (Kernel.self (snd (Kernel.setTempo r w))))
  /\ (forall r, same_buffers (Kernel.self w) (Kernel.self (snd (Kernel.setPitch r w)))
             \/ same_buffers
                  (Kernel.self (snd (Kernel.fetchProcessed (Kernel.log CallGetPitchScale w))))
                  (Kernel.self (snd (Kernel.setPitch r w))))
  /\ (forall r, same_buffers (Kernel.self w) (Kernel.self (snd (Kernel.setFormantScale r w)))
             \/ same_buffers
                  (Kernel.self (snd (Kernel.fetchProcessed (Kernel.log CallGetFormantScale w))))
                  (Kernel.self (snd (Kernel.setFormantScale r w)))).
Proof.
  pose proof setTempo_follows as Htempo. pose proof setPitch_follows as Hpitch.
  pose proof setFormantScale_follows as Hformant.
  split_and!; intros r.
  - destruct (PrimFloat.leb r 0%float) eqn:Hvalid.
    { left. unfold Kernel.setTempo. rewrite Hvalid. repeat split. }
    destruct (double_ne (Stretcher.getTimeRatio (Kernel.stretcher_ (Kernel.self w))) r)
      eqn:Hnew.
    + right. destruct (Htempo w r Hvalid Hnew)
        as (_ & _ & _ & _ & _ & _ & _ & _ & _ & Hcc & Hob & Hsc & _).
      unfold same_buffers. rewrite Hcc, Hob, Hsc, fetchProcessed_channel_count. repeat split.
    + left. unfold Kernel.setTempo. rewrite Hvalid, bind_ask, Hnew. repeat split.
  - destruct (PrimFloat.leb r 0%float) eqn:Hvalid.
    { left. unfold Kernel.setPitch. rewrite Hvalid. repeat split. }
    destruct (double_ne (Stretcher.getPitchScale (Kernel.stretcher_ (Kernel.self w))) r)
      eqn:Hnew.
    + right. destruct (Hpitch w r Hvalid Hnew)
        as (_ & _ & _ & _ & _ & _ & _ & _ & _ & Hcc & Hob & Hsc & _).
      unfold same_buffers. rewrite Hcc, Hob, Hsc, fetchProcessed_channel_count. repeat split.
    + left. unfold Kernel.setPitch. rewrite Hvalid, bind_ask, Hnew. repeat split.
  - destruct (PrimFloat.leb r 0%float) eqn:Hvalid.
    { left. unfold Kernel.setFormantScale. rewrite Hvalid. repeat split. }
    destruct (double_ne (Stretcher.getFormantScale (Kernel.stretcher_ (Kernel.self w))) r)
      eqn:Hnew.
    + right. destruct (Hformant w r Hvalid Hnew)
        as (_ & _ & _ & _ & _ & _ & _ & _ & _ & Hcc & Hob & Hsc & _).
      unfold same_buffers. rewrite Hcc, Hob, Hsc, fetchProcessed_channel_count. repeat split.
    + left. unfold Kernel.setFormantScale. rewrite Hvalid, bind_ask, Hnew. repeat split.
Qed.

(** Every call keeps the shape of the object and the alignment of its
    channels. *)
Lemma step_keeps_aligned cap w (o : Op) :
  shaped cap (Kernel.self w) -> aligned (Kernel.self w) ->
  shaped cap (Kernel.self (step w o)) /\ aligned (Kernel.self (step w o)).
Proof.
  intros Hshaped [fill Hal].
  assert (Hfetch : forall ev,
    shaped cap (Kernel.self (snd (Kernel.fetchProcessed (Kernel.log ev w))))
    /\ aligned (Kernel.self (snd (Kernel.fetchProcessed (Kernel.log ev w))))).
  { intros ev. destruct (fetch_keeps_aligned cap fill (Kernel.log ev w))
      as (written & _ & ? & ? & _); auto. split; [assumption | eexists; eassumption]. }
  assert (Hsetter : forall s',
    same_buffers (Kernel.self w) s'
    \/ (exists ev, same_buffers
                     (Kernel.self (snd (Kernel.fetchProcessed (Kernel.log ev w)))) s') ->
    shaped cap s' /\ aligned s').
  { intros s' [Hsame | [ev Hsame]].
    - destruct (same_buffers_keep cap fill _ _ Hsame); auto.
      split; [assumption | eexists; eassumption].
    - destruct (Hfetch ev) as [Hs [fill' Ha]].
      destruct (same_buffers_keep cap fill' _ _ Hsame); auto.
      split; [assumption | eexists; eassumption]. }
  destruct (setter_buffers w) as (Htempo & Hpitch & Hformant).
  destruct o as [p n | p n | r | r | r | n | | ]; cbn [step].
  - rewrite push_run.
    destruct (fetch_keeps_aligned cap fill (processed p n w))
      as (written & _ & ? & ? & _); auto.
    split; [assumption | eexists; eassumption].
  - destruct (pull_keeps_aligned cap fill p n w) as (taken & _ & ? & ? & _); auto.
    split; [assumption | eexists; eassumption].
  - apply Hsetter. destruct (Htempo r); eauto.
  - apply Hsetter. destruct (Hpitch r); eauto.
  - apply Hsetter. destruct (Hformant r); eauto.
  - split; [exact Hshaped | exists fill; exact Hal].
  - split; [exact Hshaped | exists fill; exact Hal].
  - split; [exact Hshaped | exists fill; exact Hal].
Qed.

Lemma run_keeps_aligned cap (ops : list Op) w :
  shaped cap (Kernel.self w) -> aligned (Kernel.self w) ->
  shaped cap (Kernel.self (run w ops)) /\ aligned (Kernel.self (run w ops)).
Proof.
  revert w. induction ops as [|o ops IH]; intros w Hshaped Hal; [split; assumption|].
  cbn. destruct (step_keeps_aligned cap w o Hshaped Hal). apply IH; assumption.
Qed.

Lemma new_is_shaped (kBlockSize_ kReserve_ sampleRate channel_count : Z) (hq : bool)
    (heap0 : Mem) w :
  Kernel.new_RealtimeRubberBand kBlockSize_ kReserve_ sampleRate channel_count hq heap0 = Ok w ->
  shaped (Kernel.buffer_size kBlockSize_ kReserve_) (Kernel.self w)
  /\ aligned_at 0 (Kernel.self w).
Proof.
  unfold Kernel.new_RealtimeRubberBand.
  destruct (sampleRate <=? 0); [discriminate|].
  destruct (channel_count <=? 0) eqn:Hc; [discriminate|].
  intros [= <-]. unfold shaped, aligned_at. cbn. split_and!.
  - rewrite length_replicate. lia.
  - rewrite !length_replicate. reflexivity.
  - apply Forall_replicate. reflexivity.
  - apply Forall_replicate. apply length_replicate.
  - apply Forall_replicate. reflexivity.
Qed.

Lemma aligned_fills fill (s : Kernel.RealtimeRubberBand (E := E)) :
  aligned_at fill s -> fills s = replicate (length (Kernel.output_buffer_ s)) fill.
Proof.
  unfold aligned_at, fills. induction 1 as [|rb obs Hrb _ IH]; cbn; [reflexivity|].
  rewrite Hrb, IH. reflexivity.
Qed.

(** C8. From the constructor on and through any calls, all channels hold the
    same number of samples; a push (its [process] followed by the fetch) adds
    one count to every channel, and a pull takes one count from every
    channel. *)
Theorem channels_stay_aligned (kBlockSize_ kReserve_ sampleRate channel_count : Z)
    (high_quality : bool) (heap0 : Mem) w0 (ops : list Op) :
  Kernel.new_RealtimeRubberBand kBlockSize_ kReserve_ sampleRate channel_count
    high_quality heap0 = Ok w0 ->
  let w := run w0 ops in
  aligned (Kernel.self w)
  /\ (forall input_ptr sample_size,
        exists written,
          0 <= written
          /\ fills (Kernel.self (snd (Kernel.push input_ptr sample_size w)))
             = (fun fill => fill + written) <$> fills (Kernel.self w))
  /\ (forall output_ptr sample_size,
        exists taken,
          0 <= taken
          /\ fills (Kernel.self (snd (Kernel.pull output_ptr sample_size w)))
             = (fun fill => fill - taken) <$> fills (Kernel.self w)).
Proof.
  intros Hnew w. destruct (new_is_shaped _ _ _ _ _ _ _ Hnew) as [Hshaped0 Hal0].
  destruct (run_keeps_aligned _ ops w0 Hshaped0 (ex_intro _ 0 Hal0)) as [Hshaped [fill Hal]].
  fold w in Hshaped, Hal.
  pose proof (aligned_fills _ _ Hal) as Hnow.
  split_and!.
  - exists fill. exact Hal.
  - intros p n. rewrite push_run.
    destruct (fetch_keeps_aligned _ fill (processed p n w) Hshaped Hal)
      as (written & Hpos & _ & Hal' & Hlen).
    exists written. split; [exact Hpos|].
    rewrite (aligned_fills _ _ Hal'), Hlen, Hnow, fmap_replicate. reflexivity.
  - intros p n.
    destruct (pull_keeps_aligned _ fill p n w Hshaped Hal)
      as (taken & Hpos & _ & Hal' & Hlen).
    exists taken. split; [exact Hpos|].
    rewrite (aligned_fills _ _ Hal'), Hlen, Hnow, fmap_replicate. reflexivity.
Qed.

(** What [pull] of the kernel does when all channels hold [fill] samples. *)
Lemma kernel_pull_copies cap fill (output_ptr sample_size : Z) w :
  shaped cap (Kernel.self w) -> aligned_at fill (Kernel.self w) ->
  let k := Z.to_nat (Z.min fill sample_size) in
  let w' := snd (Kernel.pull output_ptr sample_size w) in
  fst (Kernel.pull output_ptr sample_size w) = Ok tt
  /\ (forall (i : nat) rb,
        Kernel.output_buffer_ (Kernel.self w) !! i = Some rb ->
        load_block (Kernel.heap w') (output_ptr + Z.of_nat i * sample_size) k
        = take k (RingBuffer.data rb)
        /\ Kernel.output_buffer_ (Kernel.self w') !! i
           = Some (RingBuffer.mk (RingBuffer.capacity rb) (drop k (RingBuffer.data rb))))
  /\ (forall a : Z,
        (forall i : nat, (i < length (Kernel.output_buffer_ (Kernel.self w)))%nat ->
           ~ (output_ptr + Z.of_nat i * sample_size <= a
              < output_ptr + Z.of_nat i * sample_size + Z.of_nat k)) ->
        Kernel.heap w' a = Kernel.heap w a)
  /\ (Kernel.trace w' = Kernel.trace w
      \/ (fill = 0 /\ Kernel.trace w' = Kernel.trace w ++ [Cerr "BUFFER UNDERRUN"])).
Proof.
  intros Hshaped Hal k w'. subst w'. rewrite pull_run.
  pose proof Hshaped as (Hcc0 & Hlen0 & Hcap0 & Hsc0).
  destruct (Z.to_nat (Kernel.channel_count_ (Kernel.self w))) as [|todo] eqn:Htodo.
  { cbn. split_and!; auto. intros i rb Hrb. apply lookup_lt_Some in Hrb. lia. }
  destruct (lookup_lt_is_Some_2 (Kernel.output_buffer_ (Kernel.self w)) 0%nat ltac:(lia))
    as [rb0 Hrb0].
  pose proof (aligned_at_lookup _ _ _ _ Hal Hrb0) as Hfill0.
  destruct (decide (fill = 0)) as [Hz|Hnz].
  - rewrite pull_channels_empty
      by (rewrite (list_lookup_total_correct _ _ _ Hrb0); lia).
    cbn. assert (k = 0%nat) as -> by (subst k; lia). split_and!; auto.
    intros i rb Hrb. split; [reflexivity|]. rewrite Hrb, drop_0. destruct rb; reflexivity.
  - assert (Hpos : 0 < fill) by (unfold RingBuffer.getReadSpace in Hfill0; lia).
    destruct (pull_channels_run output_ptr sample_size fill (S todo) 0 w Hpos)
      as (obs & heap' & Hrun & Hlen & Hlook & Hout & Hin).
    { intros i Hi. destruct (lookup_lt_is_Some_2 (Kernel.output_buffer_ (Kernel.self w)) i)
        as [rb Hrb]; [lia|]. exists rb. split; [exact Hrb|].
      eapply aligned_at_lookup; eauto. }
    rewrite Hrun. cbn [fst snd Kernel.heap Kernel.trace Kernel.self]. split_and!; auto.
    + intros i rb Hrb. pose proof (lookup_lt_Some _ _ _ Hrb) as Hi. split.
      * apply Hin; [lia | exact Hrb].
      * destruct w as [[] ? ?]. cbn in *. rewrite Hlook, decide_True, Hrb by lia.
        reflexivity.
    + intros a Ha. apply Hout. intros i Hi. apply Ha. lia.
Qed.

End KernelFacts.

(** ** The wrapper *)

Section WorkletFacts.

Context {E : Type} `{Stretcher.api E}.

Implicit Types o : Worklet.RealtimeRubberBand (E := E).

Lemma overwrite_prefix_app (samples dst : list float) :
  (length samples <= length dst)%nat ->
  overwrite_prefix samples dst = samples ++ drop (length samples) dst.
Proof.
  intros Hle. unfold overwrite_prefix. apply take_ge.
  rewrite length_app, length_drop. lia.
Qed.

Lemma bind_gets {S A B : Type} (f : S -> A) (k : A -> Eff S B) (s : S) :
  (x <- gets f ;; k x) s = k (f s) s.
Proof. reflexivity. Qed.

Lemma bind_kernel_call {A B : Type} (m : Kernel.Cpp A) (k : A -> Worklet.Ts B) o :
  (x <- Worklet.kernel_call m ;; k x) o
  = match m (Worklet._kernel o) with
    | (Ok a, kernel) => k a (Worklet.set_kernel kernel o)
    | (Throw e, kernel) => (Throw e, Worklet.set_kernel kernel o)
    end.
Proof.
  unfold bind, Worklet.kernel_call. destruct (m (Worklet._kernel o)) as [[a|e] kernel];
    reflexivity.
Qed.

(** The copying loop of the wrapper's [pull], when every channel has its view
    and [k] samples fit both the view and the channel. *)
Lemma copy_output_run (m : Mem) (a : Worklet.HeapArray) (k : Z)
    (channels : list (list float)) (channel : nat) :
  0 <= k ->
  (forall (i : nat) dst, channels !! i = Some dst ->
     k <= Z.of_nat (length dst)
     /\ exists v, Worklet.getChannelArray a (channel + i) = Some v
                  /\ k <= Worklet.view_length v) ->
  exists filled,
    Worklet.copy_output m a k channel channels = Ok filled
    /\ length filled = length channels
    /\ forall (i : nat) dst, channels !! i = Some dst ->
         exists v, Worklet.getChannelArray a (channel + i) = Some v
                   /\ filled !! i
                      = Some (load_block m (Worklet.view_ptr v) (Z.to_nat k)
                              ++ drop (Z.to_nat k) dst).
Proof.
  intros Hk. revert channel. induction channels as [|dst rest IH]; intros channel Hall.
  - exists []. split_and!; try reflexivity. intros i dst Hdst. discriminate.
  - destruct (Hall 0%nat dst eq_refl) as (Hfit & v & Hv & Hview).
    rewrite Nat.add_0_r in Hv.
    destruct (IH (S channel)) as (filled & Hrun & Hlen & Hlook).
    { intros i dst' Hdst'. destruct (Hall (S i) dst' Hdst') as (? & v' & Hv' & ?).
      split; [assumption|]. exists v'.
      replace (S channel + i)%nat with (channel + S i)%nat by lia. auto. }
    cbn [Worklet.copy_output]. rewrite Hv. replace (Z.min k (Worklet.view_length v)) with k by lia.
    destruct (Z.of_nat (length dst) <? k) eqn:Hlt; [lia|]. rewrite Hrun.
    eexists. split; [reflexivity|]. split; [cbn; rewrite Hlen; reflexivity|].
    intros [|i] dst' Hdst'.
    + injection Hdst' as <-. exists v. rewrite Nat.add_0_r. split; [exact Hv|]. cbn.
      rewrite overwrite_prefix_app by (rewrite length_load_block; lia).
      rewrite length_load_block. reflexivity.
    + destruct (Hlook i dst' Hdst') as (v' & Hv' & Hf). exists v'.
      replace (channel + S i)%nat with (S channel + i)%nat by lia. auto.
Qed.

(** The wrapper's [pull]: with [A] samples in every ring buffer and channels
    of [len] entries it moves [k = min A len] samples per channel through the
    output HeapArray, when [k] samples fit the views and the channels. *)
Lemma worklet_pull_run cap (channels : list (list float)) o :
  let kernel := Worklet._kernel o in
  let A := RingBuffer.getReadSpace (Kernel.output_buffer_ (Kernel.self kernel) !!! 0%nat) in
  let k := Z.min A (Z.of_nat (length (channels !!! 0%nat))) in
  let kernel' :=
    if 0 <? k then snd (Kernel.pull (Worklet.getHeapAddress (Worklet._outputArray o)) k kernel)
    else kernel in
  shaped cap (Kernel.self kernel) -> aligned_at A (Kernel.self kernel) ->
  (forall (i : nat) dst, channels !! i = Some dst ->
     k <= Z.of_nat (length dst)
     /\ exists v, Worklet.getChannelArray (Worklet._outputArray o) i = Some v
                  /\ k <= Worklet.view_length v) ->
  exists filled o',
    Worklet.pull channels o = (Ok filled, o')
    /\ Worklet._kernel o' = kernel'
    /\ Worklet._outputArray o' = Worklet._outputArray o
    /\ Worklet._tempo o' = Worklet._tempo o
    /\ length filled = length channels
    /\ forall (i : nat) dst, channels !! i = Some dst ->
         exists v, Worklet.getChannelArray (Worklet._outputArray o) i = Some v
                   /\ filled !! i
                      = Some (load_block (Kernel.heap kernel') (Worklet.view_ptr v) (Z.to_nat k)
                              ++ drop (Z.to_nat k) dst).
Proof.
  intros kernel A k kernel' Hshaped Hal Hfit.
  assert (HA : 0 <= A) by (subst A; unfold RingBuffer.getReadSpace; lia).
  assert (Hsame : forall (i : nat) dst, channels !! i = Some dst ->
            exists v, Worklet.getChannelArray (Worklet._outputArray o) i = Some v
                      /\ channels !! i
                         = Some (load_block (Kernel.heap kernel) (Worklet.view_ptr v) 0
                                 ++ drop 0 dst)).
  { intros i dst Hdst. destruct (Hfit i dst Hdst) as (_ & v & Hv & _). exists v.
    split; [exact Hv | rewrite Hdst; reflexivity]. }
  unfold Worklet.pull.
  destruct (0 <? Z.of_nat (length channels)) eqn:Hn.
  2:{ assert (Hk0 : k <= 0).
      { apply Z.ltb_ge in Hn.
        destruct channels as [|c cs]; [|cbn [length] in Hn; lia].
        assert (length (([] : list (list float)) !!! 0%nat) = 0%nat) by reflexivity.
        subst k. lia. }
      exists channels, o. subst kernel'. replace (0 <? k) with false by lia.
      replace (Z.to_nat k) with 0%nat by lia. split_and!; auto. }
  rewrite bind_kernel_call. unfold Kernel.getSamplesAvailable at 1. unfold gets at 1.
  fold kernel. fold A. fold k. subst kernel'.
  destruct (0 <? k) eqn:Hk.
  - rewrite bind_gets, bind_kernel_call.
    cbn [Worklet._outputArray Worklet._kernel Worklet.set_kernel].
    destruct (kernel_pull_copies cap A (Worklet.getHeapAddress (Worklet._outputArray o)) k
                kernel Hshaped Hal) as (Hok & _).
    destruct (Kernel.pull _ k kernel) as [r w'] eqn:Hpull. cbn [fst snd] in *. subst r.
    rewrite bind_gets. cbn [Worklet._kernel Worklet.set_kernel Kernel.heap].
    destruct (copy_output_run (Kernel.heap w') (Worklet._outputArray o) k channels 0)
      as (filled & Hrun & Hlen & Hlook); [lia | exact Hfit |].
    rewrite Hrun. unfold ret. exists filled. eexists. split; [reflexivity|].
    cbn. split_and!; auto.
  - exists channels. eexists. unfold ret. split; [reflexivity|]. cbn.
    replace (Z.to_nat k) with 0%nat by lia. split_and!; auto.
Qed.

(** The wrapper's [pull] over an output HeapArray whose views lie 128 samples
    apart, for [k > 0] samples: the kernel writes channel [i] at [k * i]
    samples from the start, the wrapper reads it at [128 * i]. *)
Lemma worklet_pull_laid_out cap (channels : list (list float)) o :
  let kernel := Worklet._kernel o in
  let base := Worklet.getHeapAddress (Worklet._outputArray o) in
  let A := RingBuffer.getReadSpace (Kernel.output_buffer_ (Kernel.self kernel) !!! 0%nat) in
  let k := Z.min A (Z.of_nat (length (channels !!! 0%nat))) in
  let kernel' := snd (Kernel.pull base k kernel) in
  shaped cap (Kernel.self kernel) -> aligned_at A (Kernel.self kernel) ->
  laid_out 128 (Worklet._outputArray o) ->
  0 < k <= 128 ->
  (forall (i : nat) dst, channels !! i = Some dst ->
     k <= Z.of_nat (length dst)
     /\ is_Some (Worklet.getChannelArray (Worklet._outputArray o) i)) ->
  exists filled o',
    Worklet.pull channels o = (Ok filled, o')
    /\ Worklet._kernel o' = kernel'
    /\ length filled = length channels
    /\ (forall (i : nat) rb,
          Kernel.output_buffer_ (Kernel.self kernel) !! i = Some rb ->
          Kernel.output_buffer_ (Kernel.self kernel') !! i
          = Some (RingBuffer.mk (RingBuffer.capacity rb)
                    (drop (Z.to_nat k) (RingBuffer.data rb))))
    /\ (forall (i : nat) dst, channels !! i = Some dst ->
          filled !! i
          = Some (load_block (Kernel.heap kernel') (base + Z.of_nat i * 128) (Z.to_nat k)
                  ++ drop (Z.to_nat k) dst))
    /\ (forall (i : nat) rb,
          i = 0%nat \/ k = 128 ->
          Kernel.output_buffer_ (Kernel.self kernel) !! i = Some rb ->
          load_block (Kernel.heap kernel') (base + Z.of_nat i * 128) (Z.to_nat k)
          = take (Z.to_nat k) (RingBuffer.data rb))
    /\ (Kernel.channel_count_ (Kernel.self kernel) * k <= 128 ->
        forall i : nat, (1 <= i)%nat ->
          load_block (Kernel.heap kernel') (base + Z.of_nat i * 128) (Z.to_nat k)
          = load_block (Kernel.heap kernel) (base + Z.of_nat i * 128) (Z.to_nat k)).
Proof.
  intros kernel base A k kernel' Hshaped Hal Hlaid Hk Hfit.
  assert (HkA : Z.min A k = k) by (subst k; lia).
  assert (Hviews : forall (i : nat) dst, channels !! i = Some dst ->
            k <= Z.of_nat (length dst)
            /\ exists v, Worklet.getChannelArray (Worklet._outputArray o) i = Some v
                         /\ k <= Worklet.view_length v).
  { intros i dst Hdst. destruct (Hfit i dst Hdst) as [Hlen [v Hv]].
    split; [exact Hlen|]. exists v. split; [exact Hv|].
    destruct (Hlaid i v Hv) as [_ ->]. lia. }
  destruct (worklet_pull_run cap channels o Hshaped Hal Hviews)
    as (filled & o' & Hrun & Hkernel & _ & _ & Hlen & Hlook).
  fold kernel in Hkernel, Hlook. fold A in Hkernel, Hlook. fold k in Hkernel, Hlook.
  fold base in Hkernel, Hlook.
  destruct (0 <? k) eqn:Hpos; [|apply Z.ltb_ge in Hpos; lia].
  fold kernel' in Hkernel, Hlook.
  destruct (kernel_pull_copies cap A base k kernel Hshaped Hal) as (_ & Hcopy & Hout & _).
  rewrite HkA in Hcopy, Hout. fold kernel' in Hcopy, Hout.
  exists filled, o'. split_and!.
  - exact Hrun.
  - exact Hkernel.
  - exact Hlen.
  - intros i rb Hrb. apply (Hcopy i rb Hrb).
  - intros i dst Hdst. destruct (Hlook i dst Hdst) as (v & Hv & Hf).
    destruct (Hlaid i v Hv) as [Hptr _]. rewrite Hf, Hptr. reflexivity.
  - intros i rb Hcase Hrb. destruct (Hcopy i rb Hrb) as [Hload _]. rewrite <- Hload.
    f_equal. destruct Hcase as [-> | Hwhole]; nia.
  - intros Hroom i Hi. apply load_block_ext. intros j Hj. apply Hout. intros i' Hi'.
    destruct Hshaped as (Hcount & _). nia.
Qed.

(** C3, where the code departs from it.  The kernel's [pull] does what the
    claim says: with [A] samples in every ring buffer, the [min A
    sample_size] oldest samples of channel [i] go to the heap at [output_ptr +
    i * sample_size], each ring buffer loses them, every other cell of the
    heap is as before, and the call returns.  The wrapper's [pull], over an
    output HeapArray whose views lie 128 samples apart, returns too, takes
    [k = min A len] samples from every ring buffer, and leaves the entries
    from [k] on as they were; but it reads channel [i] at [128 * i], where
    the kernel put it for a whole block only.  The first channel, and every
    channel of a whole block, gets its samples.  On a short fill, every later
    channel (where all channels fit the first view) gets what the heap held
    there before the call, and the samples its ring buffer gave up are
    lost. *)
Theorem pull_copies_whole_blocks_only :
  (forall cap fill (output_ptr sample_size : Z) (w : Kernel.World (E := E)),
      shaped cap (Kernel.self w) -> aligned_at fill (Kernel.self w) ->
      let k := Z.to_nat (Z.min fill sample_size) in
      let w' := snd (Kernel.pull output_ptr sample_size w) in
      fst (Kernel.pull output_ptr sample_size w) = Ok tt
      /\ (forall (i : nat) rb,
            Kernel.output_buffer_ (Kernel.self w) !! i = Some rb ->
            load_block (Kernel.heap w') (output_ptr + Z.of_nat i * sample_size) k
            = take k (RingBuffer.data rb)
            /\ Kernel.output_buffer_ (Kernel.self w') !! i
               = Some (RingBuffer.mk (RingBuffer.capacity rb) (drop k (RingBuffer.data rb))))
      /\ (forall a : Z,
            (forall i : nat, (i < length (Kernel.output_buffer_ (Kernel.self w)))%nat ->
               ~ (output_ptr + Z.of_nat i * sample_size <= a
                  < output_ptr + Z.of_nat i * sample_size + Z.of_nat k)) ->
            Kernel.heap w' a = Kernel.heap w a))
  /\ (forall cap (channels : list (list float)) o,
      let kernel := Worklet._kernel o in
      let base := Worklet.getHeapAddress (Worklet._outputArray o) in
      let A := RingBuffer.getReadSpace (Kernel.output_buffer_ (Kernel.self kernel) !!! 0%nat) in
      let k := Z.min A (Z.of_nat (length (channels !!! 0%nat))) in
      shaped cap (Kernel.self kernel) -> aligned_at A (Kernel.self kernel) ->
      laid_out 128 (Worklet._outputArray o) ->
      0 < k <= 128 ->
      (forall (i : nat) dst, channels !! i = Some dst ->
         k <= Z.of_nat (length dst)
         /\ is_Some (Worklet.getChannelArray (Worklet._outputArray o) i)) ->
      exists filled o',
        Worklet.pull channels o = (Ok filled, o')
        /\ length filled = length channels
        /\ (forall (i : nat) rb,
              Kernel.output_buffer_ (Kernel.self kernel) !! i = Some rb ->
              Kernel.output_buffer_ (Kernel.self (Worklet._kernel o')) !! i
              = Some (RingBuffer.mk (RingBuffer.capacity rb)
                        (drop (Z.to_nat k) (RingBuffer.data rb))))
        /\ (forall (i : nat) dst dst',
              channels !! i = Some dst -> filled !! i = Some dst' ->
              length dst' = length dst
              /\ drop (Z.to_nat k) dst' = drop (Z.to_nat k) dst)
        /\ (forall (i : nat) rb dst,
              i = 0%nat \/ k = 128 ->
              Kernel.output_buffer_ (Kernel.self kernel) !! i = Some rb ->
              channels !! i = Some dst ->
              filled !! i
              = Some (take (Z.to_nat k) (RingBuffer.data rb) ++ drop (Z.to_nat k) dst))
        /\ (Kernel.channel_count_ (Kernel.self kernel) * k <= 128 ->
            forall (i : nat) dst,
              (1 <= i)%nat -> channels !! i = Some dst ->
              filled !! i
              = Some (load_block (Kernel.heap kernel) (base + Z.of_nat i * 128) (Z.to_nat k)
                      ++ drop (Z.to_nat k) dst))).
Proof.
  split.
  - intros cap fill p n w Hshaped Hal k w'.
    destruct (kernel_pull_copies cap fill p n w Hshaped Hal) as (? & ? & ? & _). auto.
  - intros cap channels o kernel base A k Hshaped Hal Hlaid Hk Hfit.
    destruct (worklet_pull_laid_out cap channels o Hshaped Hal Hlaid Hk Hfit)
      as (filled & o' & Hrun & Hkernel & Hlen & Hdrained & Hlook & Hright & Hstale).
    fold kernel in Hkernel, Hdrained, Hlook, Hright, Hstale.
    fold base in Hkernel, Hdrained, Hlook, Hright, Hstale.
    fold A in Hkernel, Hdrained, Hlook, Hright, Hstale.
    fold k in Hkernel, Hdrained, Hlook, Hright, Hstale.
    exists filled, o'. split_and!.
    + exact Hrun.
    + exact Hlen.
    + intros i rb Hrb. rewrite Hkernel. apply (Hdrained i rb Hrb).
    + intros i dst dst' Hdst Hdst'. destruct (Hfit i dst Hdst) as [Hlong _].
      rewrite (Hlook i dst Hdst) in Hdst'. injection Hdst' as <-.
      rewrite length_app, length_load_block, length_drop, drop_app_length'
        by (rewrite length_load_block; reflexivity).
      split; [lia | reflexivity].
    + intros i rb dst Hcase Hrb Hdst.
      rewrite (Hlook i dst Hdst), (Hright i rb Hcase Hrb). reflexivity.
    + intros Hroom i dst Hi Hdst.
      rewrite (Hlook i dst Hdst), (Hstale Hroom i Hi). reflexivity.
Qed.

(** C7, as the code has it.  The wrapper's [pull] takes [k = min A len]
    samples from the kernel and overwrites the first [k] entries of each
    channel with what the output HeapArray holds for that channel after the
    kernel's [pull]: over a HeapArray whose views lie 128 samples apart these
    are the channel's oldest samples for the first channel and, for a whole
    block of 128, for every channel.  It returns the channels it was given: as
    many arrays, each of its length, with the entries from [k] on as before;
    when nothing is available it returns them unchanged.  No count is
    returned, and the kernel's [pull] returns nothing at all. *)
Theorem pull_returns_the_channels cap (channels : list (list float)) o :
  let kernel := Worklet._kernel o in
  let A := RingBuffer.getReadSpace (Kernel.output_buffer_ (Kernel.self kernel) !!! 0%nat) in
  let k := Z.min A (Z.of_nat (length (channels !!! 0%nat))) in
  let kernel' :=
    if 0 <? k then snd (Kernel.pull (Worklet.getHeapAddress (Worklet._outputArray o)) k kernel)
    else kernel in
  shaped cap (Kernel.self kernel) -> aligned_at A (Kernel.self kernel) ->
  (forall (i : nat) dst, channels !! i = Some dst ->
     k <= Z.of_nat (length dst)
     /\ exists v, Worklet.getChannelArray (Worklet._outputArray o) i = Some v
                  /\ k <= Worklet.view_length v) ->
  (exists filled,
      fst (Worklet.pull channels o) = Ok filled
      /\ length filled = length channels
      /\ (forall (i : nat) dst dst',
            channels !! i = Some dst -> filled !! i = Some dst' ->
            length dst' = length dst
            /\ drop (Z.to_nat k) dst' = drop (Z.to_nat k) dst)
      /\ (k = 0 -> filled = channels)
      /\ Worklet._kernel (snd (Worklet.pull channels o)) = kernel'
      /\ (forall (i : nat) dst dst',
            channels !! i = Some dst -> filled !! i = Some dst' ->
            exists v, Worklet.getChannelArray (Worklet._outputArray o) i = Some v
                      /\ take (Z.to_nat k) dst'
                         = load_block (Kernel.heap kernel') (Worklet.view_ptr v) (Z.to_nat k))
      /\ (laid_out 128 (Worklet._outputArray o) -> 0 < k ->
          forall (i : nat) rb dst',
            i = 0%nat \/ k = 128 ->
            Kernel.output_buffer_ (Kernel.self kernel) !! i = Some rb ->
            filled !! i = Some dst' ->
            take (Z.to_nat k) dst' = take (Z.to_nat k) (RingBuffer.data rb)
            /\ Kernel.output_buffer_ (Kernel.self kernel') !! i
               = Some (RingBuffer.mk (RingBuffer.capacity rb)
                         (drop (Z.to_nat k) (RingBuffer.data rb)))))
  /\ (forall output_ptr sample_size,
        fst (Kernel.pull output_ptr sample_size kernel) = Ok tt).
Proof.
  intros kernel A k kernel' Hshaped Hal Hfit. split.
  - destruct (worklet_pull_run cap channels o Hshaped Hal Hfit)
      as (filled & o' & Hrun & Hkernel & _ & _ & Hlen & Hlook).
    fold kernel in Hkernel, Hlook. fold A in Hkernel, Hlook. fold k in Hkernel, Hlook.
    fold kernel' in Hkernel, Hlook.
    assert (HA : 0 <= A) by (subst A; unfold RingBuffer.getReadSpace; lia).
    exists filled. rewrite Hrun. cbn [fst snd]. split_and!; auto.
    + intros i dst dst' Hdst Hdst'. destruct (Hfit i dst Hdst) as (Hk & _).
      destruct (Hlook i dst Hdst) as (v & _ & Hf).
      rewrite Hdst' in Hf. injection Hf as ->.
      rewrite length_app, length_load_block, length_drop, drop_app_length'
        by (rewrite length_load_block; reflexivity).
      split; [lia | reflexivity].
    + intros Hk0. apply list_eq. intros i.
      destruct (channels !! i) as [dst|] eqn:Hdst.
      * destruct (Hlook i dst Hdst) as (v & _ & Hf).
        rewrite Hf, Hk0. reflexivity.
      * apply lookup_ge_None. rewrite Hlen. apply lookup_ge_None. exact Hdst.
    + intros i dst dst' Hdst Hdst'. destruct (Hlook i dst Hdst) as (v & Hv & Hf).
      exists v. split; [exact Hv|]. rewrite Hdst' in Hf. injection Hf as ->.
      apply take_app_length'. symmetry. apply length_load_block.
    + intros Hlaid Hpos i rb dst' Hcase Hrb Hdst'.
      assert (Hi : (i < length channels)%nat)
        by (rewrite <- Hlen; eapply lookup_lt_Some; eauto).
      destruct (lookup_lt_is_Some_2 _ i Hi) as [dst Hdst].
      assert (Hfirst : exists dst0, channels !! 0%nat = Some dst0).
      { destruct channels as [|dst0 rest]; [|eauto].
        assert (length (([] : list (list float)) !!! 0%nat) = 0%nat) by reflexivity.
        subst k. lia. }
      destruct Hfirst as [dst0 Hdst0].
      assert (Hk : 0 < k <= 128).
      { destruct (Hfit 0%nat dst0 Hdst0) as (_ & v0 & Hv0 & Hview).
        destruct (Hlaid 0%nat v0 Hv0) as [_ Hlen0]. lia. }
      assert (Hfit' : forall (i : nat) dst, channels !! i = Some dst ->
                k <= Z.of_nat (length dst)
                /\ is_Some (Worklet.getChannelArray (Worklet._outputArray o) i)).
      { intros i' dst1 Hdst1. destruct (Hfit i' dst1 Hdst1) as (? & v & Hv & _). eauto. }
      destruct (worklet_pull_laid_out cap channels o Hshaped Hal Hlaid Hk Hfit')
        as (filled' & o'' & Hrun' & _ & _ & Hdrained & Hlook' & Hright & _).
      fold kernel in Hdrained, Hlook', Hright. fold A in Hdrained, Hlook', Hright.
      fold k in Hdrained, Hlook', Hright.
      rewrite Hrun in Hrun'. injection Hrun' as <- <-.
      assert (Hkernel' : kernel'
                         = snd (Kernel.pull (Worklet.getHeapAddress (Worklet._outputArray o))
                                  k kernel)).
      { subst kernel'. destruct (0 <? k) eqn:Hgo; [reflexivity|].
        apply Z.ltb_ge in Hgo. lia. }
      rewrite Hkernel'. split; [|apply (Hdrained i rb Hrb)].
      rewrite (Hlook' i dst Hdst) in Hdst'. injection Hdst' as <-.
      rewrite take_app_length' by (symmetry; apply length_load_block).
      apply (Hright i rb Hcase Hrb).
  - intros p n. destruct (kernel_pull_copies cap A p n kernel Hshaped Hal) as (? & _).
    assumption.
Qed.

(** After [setTempo] with a valid value the stretcher holds that value. *)
Lemma setTempo_sets `{!StretcherLaws E} (t : double) (w : Kernel.World (E := E)) :
  PrimFloat.ltb 0%float t = true ->
  fst (Kernel.setTempo t w) = Ok tt
  /\ PrimFloat.eqb
       (Stretcher.getTimeRatio (Kernel.stretcher_ (Kernel.self (snd (Kernel.setTempo t w)))))
       t = true.
Proof.
  intros Hpos. pose proof (positive_not_le_zero t Hpos) as Hvalid.
  pose proof (setTempo_follows (H := H)) as Htempo.
  destruct (double_ne (Stretcher.getTimeRatio (Kernel.stretcher_ (Kernel.self w))) t) eqn:Hne.
  - destruct (Htempo w t Hvalid Hne) as (Hok & _ & _ & _ & _ & He & _).
    split; [exact Hok|]. rewrite He, getTimeRatio_set. apply positive_eqb_refl, Hpos.
  - unfold Kernel.setTempo. rewrite Hvalid, bind_ask, Hne. split; [reflexivity|].
    cbn. unfold double_ne in Hne. apply negb_false_iff in Hne. exact Hne.
Qed.

(** C10. Setting the wrapper's [timeRatio] to a positive [r] calls the
    kernel's [setTempo] with [1 / r], in the setter and, for a tempo option
    other than 1, in the constructor; the getter returns [r], the value last
    set, while the stretcher holds [1 / r]. *)
Theorem timeRatio_is_inverted `{!StretcherLaws E} (kBlockSize_ kReserve_ : Z)
    (new_HeapArray : nat -> Z -> Z -> Worklet.HeapArray) :
  (forall r o,
      PrimFloat.ltb 0%float r = true ->
      let out := Worklet.set_timeRatio r o in
      (fst out, Worklet._kernel (snd out)) = Kernel.setTempo (1 / r)%float (Worklet._kernel o)
      /\ Worklet._tempo (snd out) = r
      /\ fst (Worklet.get_timeRatio (snd out)) = Ok r
      /\ (PrimFloat.ltb 0%float (1 / r)%float = true ->
          fst out = Ok tt
          /\ PrimFloat.eqb
               (Stretcher.getTimeRatio
                  (Kernel.stretcher_ (Kernel.self (Worklet._kernel (snd out)))))
               (1 / r)%float = true))
  /\ (forall heap0 sampleRate channelCount hq p r o,
      PrimFloat.ltb 0%float r = true ->
      Worklet.new_RealtimeRubberBand kBlockSize_ kReserve_ new_HeapArray heap0 sampleRate
        channelCount (Some (Worklet.mkOptions hq p (Some r))) = Ok o ->
      exists k0,
        Kernel.new_RealtimeRubberBand kBlockSize_ kReserve_ sampleRate channelCount
          (default false hq) heap0 = Ok k0
        /\ Worklet._tempo o = r
        /\ fst (Worklet.get_timeRatio o) = Ok r
        /\ (double_ne r 1%float = true ->
            Kernel.setTempo (1 / r)%float
              (snd (Kernel.setMaxProcessSize Worklet.RENDER_QUANTUM_FRAMES k0))
            = (Ok tt, Worklet._kernel o))
        /\ (double_ne r 1%float = false ->
            Worklet._kernel o
            = snd (Kernel.setMaxProcessSize Worklet.RENDER_QUANTUM_FRAMES k0))).
Proof.
  split.
  - intros r o Hpos out. subst out. unfold Worklet.set_timeRatio, bind, modify,
      Worklet.kernel_call. cbn [Worklet._kernel Worklet.set_tempo].
    destruct (Kernel.setTempo (1 / r)%float (Worklet._kernel o)) as [res kernel] eqn:Hrun.
    cbn. split_and!; try reflexivity.
    intros Hinv. destruct (setTempo_sets (1 / r)%float (Worklet._kernel o) Hinv)
      as [Hok' Hset'].
    rewrite Hrun in Hok', Hset'. cbn in Hok', Hset'. subst res. auto.
  - intros heap0 sampleRate channelCount hq p r o Hpos.
    unfold Worklet.new_RealtimeRubberBand. cbn [mbind option_bind Worklet.highQuality
      Worklet.tempo Worklet.pitch].
    destruct (Kernel.new_RealtimeRubberBand _ _ _ _ _ heap0) as [k0|e] eqn:Hk0;
      [|discriminate].
    rewrite (positive_truthy r Hpos). cbn [andb].
    unfold Worklet.number_or. rewrite (positive_truthy r Hpos).
    destruct (double_ne r 1%float) eqn:Hne.
    + unfold Worklet.kernel_call. cbn [Worklet._kernel].
      destruct (Kernel.setTempo (1 / r)%float _) as [[[]|e] kernel] eqn:Hrun; [|discriminate].
      intros [= <-]. exists k0. cbn. split_and!; auto; discriminate.
    + intros [= <-]. exists k0. cbn. split_and!; auto; discriminate.
Qed.

End WorkletFacts.

(** ** The test double is a lawful stretcher *)

Lemma fake_is_lawful (start_pad start_delay : Z) :
  StretcherLaws (H := Fake.stretcher start_pad start_delay) Fake.state.
Proof.
  split; try reflexivity.
  - intros e n. cbn. unfold Fake.available. lia.
  - intros e n channel. cbn. rewrite length_resize. reflexivity.
  - intros e n Hn. cbn in *. unfold Fake.available in *. cbn. split; [lia|].
    destruct (Fake.queue e) as [|q qs]; cbn in *; [lia|].
    change ((?x :: ?l) !!! 0%nat) with x. rewrite length_drop. lia.
Qed.

(** ** The fixtures are what the constructor and the calls give *)

Lemma session_is_new (start_delay channels : Z) :
  0 < channels ->
  Kernel.new_RealtimeRubberBand (H := Fake.stretcher 0 start_delay)
    Fixture.kBlockSize_ Fixture.kReserve_ 48000 channels false Fake.zero_heap
  = Ok (Fixture.session start_delay channels).
Proof.
  intros Hc. unfold Fixture.session, Kernel.new_RealtimeRubberBand.
  destruct (channels <=? 0) eqn:Hle; [lia|]. reflexivity.
Qed.

Lemma aligned_at_head {E : Type} (s : Kernel.RealtimeRubberBand (E := E)) :
  aligned s ->
  aligned_at (RingBuffer.getReadSpace (Kernel.output_buffer_ s !!! 0%nat)) s.
Proof.
  intros [fill Hal]. unfold aligned_at in *.
  destruct (Kernel.output_buffer_ s) as [|rb obs]; [constructor|].
  change ((rb :: obs) !!! 0%nat) with rb.
  pose proof (Forall_inv Hal) as Hrb. cbn beta in Hrb. rewrite Hrb. exact Hal.
Qed.

Lemma session_after_shaped (start_delay channels : Z) (ops : list Op) :
  0 < channels ->
  let s := Kernel.self (Fixture.session_after start_delay channels ops) in
  shaped 17408 s
  /\ aligned_at (RingBuffer.getReadSpace (Kernel.output_buffer_ s !!! 0%nat)) s.
Proof.
  intros Hc s. subst s. unfold Fixture.session_after.
  destruct (new_is_shaped (H := Fake.stretcher 0 start_delay) _ _ _ _ _ _ _
              (session_is_new start_delay channels Hc)) as [Hshaped Hal].
  destruct (run_keeps_aligned (H := Fake.stretcher 0 start_delay) _ ops _ Hshaped
              (ex_intro _ 0 Hal)) as [Hs Ha].
  split; [exact Hs | apply aligned_at_head, Ha].
Qed.

(** The wrapper's constructor, with no options, gives the fixture. *)
Lemma worklet_is_new :
  Worklet.new_RealtimeRubberBand (H := Fake.stretcher 0 0) Fixture.kBlockSize_
    Fixture.kReserve_ Fake.new_HeapArray Fake.zero_heap 48000 2 None
  = Ok (Fixture.worklet (Fixture.session_after 0 2 [OpSetMaxProcessSize 128])).
Proof. vm_compute. reflexivity. Qed.

(** The output HeapArray of the fixture has a view of 128 samples for each of
    the two channels. *)
Lemma fixture_views (kernel : Kernel.World (E := Fake.state)) (k : Z) :
  k <= 128 ->
  forall (i : nat) dst, Fixture.silence !! i = Some dst ->
    k <= Z.of_nat (length dst)
    /\ exists v, Worklet.getChannelArray (Worklet._outputArray (Fixture.worklet kernel)) i
                 = Some v
                 /\ k <= Worklet.view_length v.
Proof.
  intros Hk [|[|i]] dst Hdst; try discriminate; injection Hdst as <-.
  - split; [cbn; lia|]. exists (Worklet.mkHeapView 256 128).
    split; [reflexivity | cbn; lia].
  - split; [cbn; lia|]. exists (Worklet.mkHeapView 384 128).
    split; [reflexivity | cbn; lia].
Qed.

(** ** The overrun line *)

(** The line BUFFER OVERRUN is written by a fetch exactly when samples are to
    be moved and the write space of channel 0 is at most their count: equal
    counts write the line too. *)
Lemma overrun_line_condition {E : Type} `{Stretcher.api E} (w : Kernel.World (E := E)) :
  let s := Kernel.self w in
  let a := Stretcher.available (Kernel.stretcher_ s) in
  let d := Kernel.start_delay_samples_ s in
  let space := RingBuffer.getWriteSpace (Kernel.output_buffer_ s !!! 0%nat) in
  let moved := if 0 <? d then a - d else a in
  count_events is_cerr (fetch_events w)
  = if (0 <? a) && (negb (0 <? d) || (d <=? a)) && (space <=? moved) then 1%nat else 0%nat.
Proof.
  cbn zeta. unfold fetch_events, fetch_moves, count_events.
  destruct (0 <? Stretcher.available _); [|reflexivity].
  destruct (0 <? Kernel.start_delay_samples_ _); cbn [negb orb andb].
  - destruct (_ <=? Stretcher.available _); cbn [andb]; [|reflexivity].
    destruct (_ <=? _); reflexivity.
  - destruct (_ <=? _); reflexivity.
Qed.

(** C2, where the code departs from it.  One channel, no start delay, 135
    blocks of 128 samples pushed and none pulled: the ring buffer of 17408
    samples has room for 128 more.  The next push makes 128 samples available,
    which is not more than the room; the fetch writes BUFFER OVERRUN all the
    same, and then moves all 128 samples into the ring buffer. *)
Theorem overrun_line_when_the_output_fits :
  let w := Fixture.session_after 0 1 (replicate 135 (OpPush 0 128)) in
  let pushed := processed (H := Fake.stretcher 0 0) 0 128 w in
  let w' := snd (Kernel.push (H := Fake.stretcher 0 0) 0 128 w) in
  RingBuffer.getWriteSpace (Kernel.output_buffer_ (Kernel.self pushed) !!! 0%nat) = 128
  /\ Stretcher.available (api := Fake.stretcher 0 0) (Kernel.stretcher_ (Kernel.self pushed))
     = 128
  /\ Kernel.start_delay_samples_ (Kernel.self pushed) = 0
  /\ Kernel.trace w'
     = Kernel.trace w
       ++ [CallProcess 128 false; CallAvailable; Cerr "BUFFER OVERRUN"; CallRetrieve 128]
  /\ fills (Kernel.self w) = [17280]
  /\ fills (Kernel.self w') = [17408].
Proof. vm_compute. repeat split. Qed.

(** ** What the code does where the spec says otherwise *)

(** C1 fails on the code: with the block size fixed at 128, a push of 64
    samples per channel returns normally, reaches the stretcher and fills the
    ring buffers; it does not throw and leave the world as it was. *)
Lemma push_of_another_size_goes_through :
  let w := Fixture.session_after 0 2 [OpSetMaxProcessSize 128] in
  let out := Kernel.push (H := Fake.stretcher 0 0) 0 64 w in
  Kernel.max_process_size_ (Kernel.self w) = 128
  /\ fst out = Ok tt
  /\ Kernel.trace (snd out)
     = Kernel.trace w ++ [CallProcess 64 false; CallAvailable; CallRetrieve 64]
  /\ fills (Kernel.self w) = [0; 0]
  /\ fills (Kernel.self (snd out)) = [64; 64]
  /\ ~ (exists e, out = (Throw e, w)).
Proof.
  intros w out. split_and!; try (vm_compute; reflexivity).
  intros [e Hout]. assert (Hok : fst out = Ok tt) by (vm_compute; reflexivity).
  rewrite Hout in Hok. discriminate.
Qed.

(** C7 fails on the code: a pull that finds nothing (0 of 128 samples filled)
    and a pull that finds a whole block (128 of 128) return the same value,
    the channels; no count of the samples filled can be read off it. *)
Lemma pull_returns_no_count :
  let empty := Fixture.worklet (Fixture.session_after 0 2 [OpSetMaxProcessSize 128]) in
  let full :=
    Fixture.worklet (Fixture.session_after 0 2 [OpSetMaxProcessSize 128; OpPush 0 128]) in
  fst (Worklet.samplesAvailable empty) = Ok 0
  /\ fst (Worklet.samplesAvailable full) = Ok 128
  /\ fst (Worklet.pull Fixture.silence empty) = fst (Worklet.pull Fixture.silence full)
  /\ fst (Worklet.pull Fixture.silence empty) = Ok Fixture.silence
  /\ fills (Kernel.self (Worklet._kernel (snd (Worklet.pull Fixture.silence empty)))) = [0; 0]
  /\ fills (Kernel.self (Worklet._kernel (snd (Worklet.pull Fixture.silence full)))) = [0; 0]
  /\ (forall count : Result (list (list float)) -> Z,
        ~ (count (fst (Worklet.pull Fixture.silence empty)) = 0
           /\ count (fst (Worklet.pull Fixture.silence full)) = 128)).
Proof.
  intros empty full. split_and!; try (vm_compute; reflexivity).
  intros count [Hnone Hall].
  assert (Hsame : fst (Worklet.pull Fixture.silence empty)
                  = fst (Worklet.pull Fixture.silence full)) by (vm_compute; reflexivity).
  rewrite Hsame in Hnone. lia.
Qed.

(** ** The theorems at work on the fixtures *)

(** C9 on the fixture: no sample rate, a session at 48 kHz with two channels,
    and a negative tempo. *)
Lemma configuration_errors_witness :
  (exists what,
      Kernel.new_RealtimeRubberBand (H := Fake.stretcher 0 0) Fixture.kBlockSize_
        Fixture.kReserve_ 0 2 false Fake.zero_heap = Throw (range_error what))
  /\ (exists w,
        Kernel.new_RealtimeRubberBand (H := Fake.stretcher 0 0) Fixture.kBlockSize_
          Fixture.kReserve_ 48000 2 false Fake.zero_heap = Ok w
        /\ Kernel.channel_count_ (Kernel.self w) = 2)
  /\ Kernel.setTempo (H := Fake.stretcher 0 0) (-1)%float (Fixture.session 0 2)
     = (Throw (range_error "Tempo has to be greater than 0"), Fixture.session 0 2).
Proof.
  destruct (configuration_errors_are_rejected (H := Fake.stretcher 0 0)
              Fixture.kBlockSize_ Fixture.kReserve_) as (Hbad & Hgood & Hratio).
  split_and!.
  - apply Hbad. left. lia.
  - destruct (Hgood 48000 2 false Fake.zero_heap) as (w & Hw & Hcc & _); [lia | lia |].
    exists w. split; assumption.
  - apply Hratio. vm_compute. reflexivity.
Defined.


(** C5 on the fixture: the tempo goes from 1 to 0.5 after one block was
    pushed, with the block size fixed at 128. *)
Lemma ratio_change_protocol_witness :
  let w := Fixture.session_after 0 2 [OpSetMaxProcessSize 128; OpPush 0 128] in
  follows_protocol (H := Fake.stretcher 0 0) CallGetTimeRatio (CallSetTimeRatio 0.5%float)
    (fun e => Stretcher.setTimeRatio (api := Fake.stretcher 0 0) e 0.5%float) w
    (Kernel.setTempo (H := Fake.stretcher 0 0) 0.5%float w).
Proof.
  intros w. apply (proj1 (ratio_change_protocol (H := Fake.stretcher 0 0)));
    vm_compute; reflexivity.
Defined.

(** C6 on the fixture: a start delay of 2 and a first block of 128 samples. *)
Lemma start_delay_is_discarded_witness :
  let w :=
    processed (H := Fake.stretcher 0 2) 0 128
      (Fixture.session_after 2 2 [OpSetMaxProcessSize 128]) in
  let w' := snd (Kernel.fetchProcessed (H := Fake.stretcher 0 2) w) in
  Stretcher.available (api := Fake.stretcher 0 2) (Kernel.stretcher_ (Kernel.self w)) = 128
  /\ Kernel.start_delay_samples_ (Kernel.self w) = 2
  /\ fst (Kernel.fetchProcessed (H := Fake.stretcher 0 2) w) = Ok tt
  /\ Kernel.start_delay_samples_ (Kernel.self w') = 2 - Z.min 128 2.
Proof.
  intros w w'.
  destruct (start_delay_is_discarded (H := Fake.stretcher 0 2)
              (StretcherLaws0 := fake_is_lawful 0 2) 17408 w)
    as (Hok & _ & _ & Hdelay & _).
  - apply (session_after_shaped 2 2 [OpSetMaxProcessSize 128]). lia.
  - vm_compute. reflexivity.
  - vm_compute. reflexivity.
  - split_and!; [vm_compute; reflexivity | vm_compute; reflexivity | exact Hok | exact Hdelay].
Defined.

(** C8 on the fixture: a block size, a push, a pull and a change of tempo. *)
Lemma channels_stay_aligned_witness :
  Kernel.new_RealtimeRubberBand (H := Fake.stretcher 0 0) Fixture.kBlockSize_
    Fixture.kReserve_ 48000 2 false Fake.zero_heap = Ok (Fixture.session 0 2)
  /\ aligned
       (Kernel.self
          (run (H := Fake.stretcher 0 0) (Fixture.session 0 2)
             [OpSetMaxProcessSize 128; OpPush 0 128; OpPull 256 128; OpSetTempo 0.5%float])).
Proof.
  assert (Hnew := session_is_new 0 2 ltac:(lia)).
  split; [exact Hnew|].
  exact (proj1 (channels_stay_aligned (H := Fake.stretcher 0 0) _ _ _ _ _ _ _
                  [OpSetMaxProcessSize 128; OpPush 0 128; OpPull 256 128; OpSetTempo 0.5%float]
                  Hnew)).
Defined.

(** C7 on the fixture: the same short fill, seen from the return value. *)
Lemma pull_returns_the_channels_witness :
  let kernel := Fixture.session_after 100 2 [OpSetMaxProcessSize 128; OpPush 0 128] in
  exists filled,
    fst (Worklet.pull Fixture.silence (Fixture.worklet kernel)) = Ok filled
    /\ length filled = length Fixture.silence.
Proof.
  intros kernel.
  destruct (session_after_shaped 100 2 [OpSetMaxProcessSize 128; OpPush 0 128] ltac:(lia))
    as [Hshaped Hal].
  destruct (pull_returns_the_channels 17408 Fixture.silence (Fixture.worklet kernel)
              Hshaped Hal) as [(filled & Hrun & Hlen & _) _].
  - apply fixture_views. vm_compute. discriminate.
  - exists filled. split; [exact Hrun | exact Hlen].
Defined.

(** C10 on the fixture: the time ratio 2 reaches the kernel as 0.5. *)
Lemma timeRatio_is_inverted_witness :
  let o := Fixture.worklet (Fixture.session_after 0 2 [OpSetMaxProcessSize 128]) in
  let out := Worklet.set_timeRatio (H := Fake.stretcher 0 0) 2%float o in
  (fst out, Worklet._kernel (snd out))
  = Kernel.setTempo (H := Fake.stretcher 0 0) (1 / 2)%float (Worklet._kernel o)
  /\ Worklet._tempo (snd out) = 2%float
  /\ fst (Worklet.get_timeRatio (snd out)) = Ok 2%float.
Proof.
  intros o out.
  destruct (proj1 (timeRatio_is_inverted (H := Fake.stretcher 0 0)
                     (StretcherLaws0 := fake_is_lawful 0 0)
                     Fixture.kBlockSize_ Fixture.kReserve_ Fake.new_HeapArray)
              2%float o) as (Hcall & Htempo & Hget & _).
  - vm_compute. reflexivity.
  - split_and!; assumption.
Defined.

(** * More of the code *)

(** ** More on the kernel *)

Section KernelRuns.

Context {E : Type} `{Stretcher.api E}.

Implicit Types w : Kernel.World (E := E).

(** The loop of [pull], whatever the ring buffers hold: it returns, touches
    the ring buffers and the heap only, and says at most one line. *)
Lemma pull_channels_quiet (output_ptr sample_size : Z) (todo channel : nat) w :
  exists obs heap' said,
    Kernel.pull_channels output_ptr sample_size channel todo w
    = (Ok tt, Kernel.mkWorld (Kernel.set_output_buffer obs (Kernel.self w)) heap'
                (Kernel.trace w ++ said))
    /\ length obs = length (Kernel.output_buffer_ (Kernel.self w))
    /\ (said = [] \/ said = [Cerr "BUFFER UNDERRUN"]).
Proof.
  revert channel w. induction todo as [|todo IH]; intros channel w.
  - exists (Kernel.output_buffer_ (Kernel.self w)), (Kernel.heap w), [].
    rewrite app_nil_r. destruct w as [[] ? ?]. auto.
  - cbn [Kernel.pull_channels]. unfold bind at 1. unfold gets at 1.
    destruct (_ =? 0).
    + exists (Kernel.output_buffer_ (Kernel.self w)), (Kernel.heap w), [Cerr "BUFFER UNDERRUN"].
      destruct w as [[] ? ?]. auto.
    + unfold bind at 1. unfold modify at 1.
      destruct (RingBuffer.read _ _) as [[samples rb'] count].
      match goal with |- context [Kernel.pull_channels _ _ _ _ ?w1] =>
        destruct (IH (S channel) w1) as (obs & heap' & said & Hrun & Hlen & Hsaid) end.
      exists obs, heap', said. rewrite Hrun. destruct w as [[] ? ?]. cbn in *.
      rewrite length_insert in Hlen. auto.
Qed.

(** [pull] always returns, and leaves the stretcher as it was. *)
Lemma pull_returns (output_ptr sample_size : Z) w :
  fst (Kernel.pull output_ptr sample_size w) = Ok tt
  /\ Kernel.stretcher_ (Kernel.self (snd (Kernel.pull output_ptr sample_size w)))
     = Kernel.stretcher_ (Kernel.self w).
Proof.
  rewrite pull_run.
  destruct (pull_channels_quiet output_ptr sample_size
              (Z.to_nat (Kernel.channel_count_ (Kernel.self w))) 0 w)
    as (obs & heap' & said & -> & _). split; reflexivity.
Qed.

(** X1. [pull] never calls the stretcher: it returns, and leaves the
    stretcher, the start pad and start delay, the block size, the channel
    count and the scratch arrays as they were; all it may add to the trace is
    the one line BUFFER UNDERRUN. *)
Theorem pull_leaves_the_stretcher_alone (output_ptr sample_size : Z) w :
  let w' := snd (Kernel.pull output_ptr sample_size w) in
  fst (Kernel.pull output_ptr sample_size w) = Ok tt
  /\ Kernel.stretcher_ (Kernel.self w') = Kernel.stretcher_ (Kernel.self w)
  /\ Kernel.start_pad_samples_ (Kernel.self w') = Kernel.start_pad_samples_ (Kernel.self w)
  /\ Kernel.start_delay_samples_ (Kernel.self w') = Kernel.start_delay_samples_ (Kernel.self w)
  /\ Kernel.max_process_size_ (Kernel.self w') = Kernel.max_process_size_ (Kernel.self w)
  /\ Kernel.channel_count_ (Kernel.self w') = Kernel.channel_count_ (Kernel.self w)
  /\ Kernel.scratch_ (Kernel.self w') = Kernel.scratch_ (Kernel.self w)
  /\ length (Kernel.output_buffer_ (Kernel.self w'))
     = length (Kernel.output_buffer_ (Kernel.self w))
  /\ (Kernel.trace w' = Kernel.trace w
      \/ Kernel.trace w' = Kernel.trace w ++ [Cerr "BUFFER UNDERRUN"]).
Proof.
  intros w'. subst w'. rewrite pull_run.
  destruct (pull_channels_quiet output_ptr sample_size
              (Z.to_nat (Kernel.channel_count_ (Kernel.self w))) 0 w)
    as (obs & heap' & said & -> & Hlen & Hsaid).
  cbn. split_and!; auto.
  destruct Hsaid as [-> | ->]; [left; apply app_nil_r | right; reflexivity].
Qed.

(** X2. With [fill] samples in every channel, [pull] writes the line BUFFER
    UNDERRUN exactly when the ring buffers are empty, and then does nothing
    else; a pull that finds fewer samples than it asks for says nothing. *)
Theorem underrun_line_only_when_empty cap fill (output_ptr sample_size : Z) w :
  shaped cap (Kernel.self w) -> aligned_at fill (Kernel.self w) ->
  0 < Kernel.channel_count_ (Kernel.self w) ->
  (fill = 0 ->
   Kernel.pull output_ptr sample_size w = (Ok tt, Kernel.log (Cerr "BUFFER UNDERRUN") w))
  /\ (fill <> 0 ->
      Kernel.trace (snd (Kernel.pull output_ptr sample_size w)) = Kernel.trace w).
Proof.
  intros Hshaped Hal Hcc. split.
  - intros ->. rewrite pull_run.
    destruct (Z.to_nat (Kernel.channel_count_ (Kernel.self w))) as [|todo] eqn:Htodo; [lia|].
    apply pull_channels_empty.
    destruct Hshaped as (Hlen & _).
    destruct (lookup_lt_is_Some_2 (Kernel.output_buffer_ (Kernel.self w)) 0%nat ltac:(lia))
      as [rb0 Hrb0].
    rewrite (list_lookup_total_correct _ _ _ Hrb0). eapply aligned_at_lookup; eauto.
  - intros Hfill.
    destruct (kernel_pull_copies cap fill output_ptr sample_size w Hshaped Hal)
      as (_ & _ & _ & [Hsame | [Hz _]]); [exact Hsame | contradiction].
Qed.

(** What a ratio setter does, in all: nothing, or the protocol of a change. *)
Lemma setter_cases w :
  (forall r,
      left_alone CallGetTimeRatio w (Kernel.setTempo r w)
      \/ follows_protocol CallGetTimeRatio (CallSetTimeRatio r)
           (fun e => Stretcher.setTimeRatio e r) w (Kernel.setTempo r w))
  /\ (forall r,
      left_alone CallGetPitchScale w (Kernel.setPitch r w)
      \/ follows_protocol CallGetPitchScale (CallSetPitchScale r)
           (fun e => Stretcher.setPitchScale e r) w (Kernel.setPitch r w))
  /\ (forall r,
      left_alone CallGetFormantScale w (Kernel.setFormantScale r w)
      \/ follows_protocol CallGetFormantScale (CallSetFormantScale r)
           (fun e => Stretcher.setFormantScale e r) w (Kernel.setFormantScale r w)).
Proof.
  split_and!; intros r.
  - destruct (PrimFloat.leb r 0%float) eqn:Hvalid.
    { left. right. unfold Kernel.setTempo. rewrite Hvalid. eexists. reflexivity. }
    destruct (double_ne (Stretcher.getTimeRatio (Kernel.stretcher_ (Kernel.self w))) r)
      eqn:Hnew.
    + right. apply setTempo_follows; assumption.
    + left. left. unfold Kernel.setTempo. rewrite Hvalid, bind_ask, Hnew. reflexivity.
  - destruct (PrimFloat.leb r 0%float) eqn:Hvalid.
    { left. right. unfold Kernel.setPitch. rewrite Hvalid. eexists. reflexivity. }
    destruct (double_ne (Stretcher.getPitchScale (Kernel.stretcher_ (Kernel.self w))) r)
      eqn:Hnew.
    + right. apply setPitch_follows; assumption.
    + left. left. unfold Kernel.setPitch. rewrite Hvalid, bind_ask, Hnew. reflexivity.
  - destruct (PrimFloat.leb r 0%float) eqn:Hvalid.
    { left. right. unfold Kernel.setFormantScale. rewrite Hvalid. eexists. reflexivity. }
    destruct (double_ne (Stretcher.getFormantScale (Kernel.stretcher_ (Kernel.self w))) r)
      eqn:Hnew.
    + right. apply setFormantScale_follows; assumption.
    + left. left. unfold Kernel.setFormantScale. rewrite Hvalid, bind_ask, Hnew. reflexivity.
Qed.

(** Either way the heap, the channel count and the block size are kept. *)
Lemma setter_keeps (query change : Event) (apply : E -> E) w out :
  left_alone query w out \/ follows_protocol query change apply w out ->
  Kernel.heap (snd out) = Kernel.heap w
  /\ Kernel.channel_count_ (Kernel.self (snd out)) = Kernel.channel_count_ (Kernel.self w)
  /\ Kernel.max_process_size_ (Kernel.self (snd out))
     = Kernel.max_process_size_ (Kernel.self w).
Proof.
  intros [[-> | [e ->]] | Hfollows]; [repeat split | repeat split |].
  destruct Hfollows as (_ & _ & _ & _ & _ & _ & _ & _ & Hmax & Hcc & _ & _ & Hheap).
  auto.
Qed.

Lemma step_keeps_configuration w (o : Op) :
  Kernel.channel_count_ (Kernel.self (step w o)) = Kernel.channel_count_ (Kernel.self w)
  /\ Kernel.max_process_size_ (Kernel.self (step w o))
     = configured_size (Kernel.max_process_size_ (Kernel.self w)) [o]
  /\ (is_pull_op o = false -> Kernel.heap (step w o) = Kernel.heap w).
Proof.
  destruct (setter_cases w) as (Htempo & Hpitch & Hformant).
  destruct o as [p n | p n | r | r | r | n | | ]; cbn [step configured_size foldl is_pull_op].
  - rewrite push_run, fetchProcessed_channel_count, fetchProcessed_max_process_size,
      fetchProcessed_heap. auto.
  - destruct (pull_channels_quiet p n
                (Z.to_nat (Kernel.channel_count_ (Kernel.self w))) 0 w)
      as (obs & heap' & said & Hrun & _).
    rewrite pull_run, Hrun. cbn. split_and!; auto. discriminate.
  - destruct (setter_keeps _ _ _ _ _ (Htempo r)) as (? & ? & ?). auto.
  - destruct (setter_keeps _ _ _ _ _ (Hpitch r)) as (? & ? & ?). auto.
  - destruct (setter_keeps _ _ _ _ _ (Hformant r)) as (? & ? & ?). auto.
  - destruct w as [[] ? ?]. cbn. auto.
  - auto.
  - auto.
Qed.

Lemma configured_size_app (size : Z) (ops1 ops2 : list Op) :
  configured_size size (ops1 ++ ops2) = configured_size (configured_size size ops1) ops2.
Proof. apply foldl_app. Qed.

(** X3. The channel count is fixed for the life of the object, and the block
    size is the last one [setMaxProcessSize] was given: no other call changes
    it, not the reset of a ratio change either. *)
Theorem configuration_is_kept (ops : list Op) w :
  Kernel.channel_count_ (Kernel.self (run w ops)) = Kernel.channel_count_ (Kernel.self w)
  /\ Kernel.max_process_size_ (Kernel.self (run w ops))
     = configured_size (Kernel.max_process_size_ (Kernel.self w)) ops.
Proof.
  revert w. induction ops as [|o ops IH]; intros w; [split; reflexivity|].
  cbn [run foldl]. destruct (IH (step w o)) as [Hcc Hmax].
  destruct (step_keeps_configuration w o) as (Hcc1 & Hmax1 & _).
  unfold run in *. rewrite Hcc, Hmax, Hcc1, Hmax1. split; reflexivity.
Qed.

(** *** The start delay *)

(** The start delay a fetch leaves: what the samples at hand did not pay
    off. *)
Lemma fetch_start_delay w :
  let a := Stretcher.available (Kernel.stretcher_ (Kernel.self w)) in
  let d := Kernel.start_delay_samples_ (Kernel.self w) in
  0 <= d ->
  Kernel.start_delay_samples_ (Kernel.self (snd (Kernel.fetchProcessed w)))
  = Z.max 0 (d - Z.max 0 a).
Proof.
  intros a d Hd. rewrite fetchProcessed_cases. fold a d.
  destruct (0 <? a) eqn:Ha; [destruct (0 <? d) eqn:Hd'; [destruct (d <=? a) eqn:Hda|]|].
  - destruct (move_to_buffers_run (a - d) (discarded d 0 w))
      as (s' & actual & -> & _ & _ & _ & Hdelay & _).
    cbn [snd Kernel.self]. rewrite Hdelay. cbn. lia.
  - cbn. fold d. lia.
  - destruct (move_to_buffers_run a (Kernel.log CallAvailable w))
      as (s' & actual & -> & _ & _ & _ & Hdelay & _).
    cbn [snd Kernel.self]. rewrite Hdelay. cbn. fold d. lia.
  - cbn. fold d. lia.
Qed.

Lemma step_start_delay w (o : Op) :
  is_ratio_op o = false ->
  0 <= Kernel.start_delay_samples_ (Kernel.self w) ->
  0 <= Kernel.start_delay_samples_ (Kernel.self (step w o))
    <= Kernel.start_delay_samples_ (Kernel.self w).
Proof.
  intros Ho Hd. destruct o as [p n | p n | r | r | r | n | | ]; try discriminate; cbn [step].
  - rewrite push_run, fetch_start_delay by exact Hd.
    change (Kernel.start_delay_samples_ (Kernel.self (processed p n w)))
      with (Kernel.start_delay_samples_ (Kernel.self w)). lia.
  - destruct (pull_channels_quiet p n
                (Z.to_nat (Kernel.channel_count_ (Kernel.self w))) 0 w)
      as (obs & heap' & said & Hrun & _).
    rewrite pull_run, Hrun. cbn. lia.
  - destruct w as [[] ? ?]. cbn in *. lia.
  - cbn. lia.
  - cbn. lia.
Qed.

(** X5. The start delay is paid off by what the pushes make available and by
    nothing else: a push leaves [max 0 (d - max 0 a)] of a delay [d], with [a]
    the samples available after its [process]; along any calls other than a
    ratio change the delay never grows and never falls below 0. *)
Theorem start_delay_only_shrinks :
  (forall input_ptr sample_size w,
      0 <= Kernel.start_delay_samples_ (Kernel.self w) ->
      Kernel.start_delay_samples_ (Kernel.self (snd (Kernel.push input_ptr sample_size w)))
      = Z.max 0
          (Kernel.start_delay_samples_ (Kernel.self w)
           - Z.max 0 (Stretcher.available
                        (Kernel.stretcher_ (Kernel.self (processed input_ptr sample_size w))))))
  /\ (forall (ops : list Op) w,
        forallb (fun o => negb (is_ratio_op o)) ops = true ->
        0 <= Kernel.start_delay_samples_ (Kernel.self w) ->
        0 <= Kernel.start_delay_samples_ (Kernel.self (run w ops))
          <= Kernel.start_delay_samples_ (Kernel.self w)).
Proof.
  split.
  - intros p n w Hd. rewrite push_run, fetch_start_delay by exact Hd. reflexivity.
  - intros ops. induction ops as [|o ops IH]; intros w Hops Hd; [cbn; lia|].
    cbn in Hops. apply andb_true_iff in Hops as [Ho Hops]. apply negb_true_iff in Ho.
    pose proof (step_start_delay w o Ho Hd) as Hstep.
    assert (Hd1 : 0 <= Kernel.start_delay_samples_ (Kernel.self (step w o))) by apply Hstep.
    specialize (IH (step w o) Hops Hd1). unfold run in *. cbn [foldl]. lia.
Qed.

(** *** Not a number *)

Lemma nan_compares (r : double) :
  PrimFloat.eqb r r = false ->
  PrimFloat.leb r 0%float = false /\ forall x, PrimFloat.eqb x r = false.
Proof.
  intros Hnan.
  assert (Hr : Prim2SF r = S754_nan).
  { revert Hnan. rewrite FloatAxioms.eqb_spec.
    destruct (Prim2SF r) as [s | s | | s m e]; try reflexivity; unfold SFeqb, SFcompare.
    - discriminate.
    - destruct s; discriminate.
    - destruct s; rewrite ?Z.compare_refl, ?Pos.compare_cont_refl, ?Pos.compare_refl;
        discriminate. }
  split.
  - rewrite FloatAxioms.leb_spec, Hr. reflexivity.
  - intros x. rewrite FloatAxioms.eqb_spec, Hr.
    destruct (Prim2SF x) as [s | s | | s m e]; reflexivity.
Qed.

(** X6. A ratio that is not a number is not rejected, and it never counts as
    the current value: every call of a ratio setter with NaN runs the whole
    protocol of a change, reset included, however often it is repeated. *)
Theorem nan_ratio_always_resets (r : double) w :
  PrimFloat.eqb r r = false ->
  follows_protocol CallGetTimeRatio (CallSetTimeRatio r)
    (fun e => Stretcher.setTimeRatio e r) w (Kernel.setTempo r w)
  /\ follows_protocol CallGetPitchScale (CallSetPitchScale r)
       (fun e => Stretcher.setPitchScale e r) w (Kernel.setPitch r w)
  /\ follows_protocol CallGetFormantScale (CallSetFormantScale r)
       (fun e => Stretcher.setFormantScale e r) w (Kernel.setFormantScale r w).
Proof.
  intros Hnan. destruct (nan_compares r Hnan) as [Hvalid Hne].
  split_and!.
  - apply setTempo_follows; [exact Hvalid | unfold double_ne; rewrite Hne; reflexivity].
  - apply setPitch_follows; [exact Hvalid | unfold double_ne; rewrite Hne; reflexivity].
  - apply setFormantScale_follows; [exact Hvalid | unfold double_ne; rewrite Hne; reflexivity].
Qed.

(** *** Overrun *)

(** X7. A fetch with no start delay left moves [min a room] of the [a] samples
    the stretcher has to every ring buffer, [room] being what the buffer can
    still take; the stretcher is left with none.  So what does not fit is
    lost: the newest [a - room] samples are in neither place, and the ring
    buffers end up full. *)
Theorem overrun_loses_the_newest `{!StretcherLaws E} cap fill w :
  let s := Kernel.self w in
  let a := Stretcher.available (Kernel.stretcher_ s) in
  let kept := Stretcher.retrieve (Kernel.stretcher_ s) a in
  let w' := snd (Kernel.fetchProcessed w) in
  shaped cap s -> aligned_at fill s -> fill <= cap ->
  Kernel.start_delay_samples_ s <= 0 -> 0 < a ->
  (forall (i : nat) rb,
      Kernel.output_buffer_ s !! i = Some rb ->
      Kernel.output_buffer_ (Kernel.self w') !! i
      = Some (RingBuffer.mk cap
                (RingBuffer.data rb ++ take (Z.to_nat (Z.min a (cap - fill))) (snd (fst kept) i))))
  /\ aligned_at (Z.min (fill + a) cap) (Kernel.self w')
  /\ Stretcher.available (Kernel.stretcher_ (Kernel.self w')) = 0
  /\ (cap - fill < a -> aligned_at cap (Kernel.self w')).
Proof.
  intros s a kept w' Hshaped Hal Hcap Hd Ha.
  assert (Hw' : w' = snd (Kernel.move_to_buffers a (Kernel.log CallAvailable w))).
  { subst w'. rewrite fetchProcessed_cases. fold s a.
    destruct (0 <? a) eqn:Ha'; [|lia].
    destruct (0 <? Kernel.start_delay_samples_ s) eqn:Hd'; [lia|]. reflexivity. }
  assert (Hrange : 0 <= a <= Stretcher.available (Kernel.stretcher_ s)) by (subst a; lia).
  assert (Hshaped1 : shaped cap (Kernel.self (Kernel.log CallAvailable w))) by exact Hshaped.
  assert (Ha1 : 0 <= a <= Stretcher.available
                          (Kernel.stretcher_ (Kernel.self (Kernel.log CallAvailable w))))
    by exact Hrange.
  destruct (move_to_buffers_appends cap a (Kernel.log CallAvailable w) Hshaped1 Ha1)
    as [_ Hlook].
  assert (Hwritten : forall (i : nat) rb,
      Kernel.output_buffer_ s !! i = Some rb ->
      Kernel.output_buffer_ (Kernel.self w') !! i
      = Some (RingBuffer.mk cap
                (RingBuffer.data rb ++ take (Z.to_nat (Z.min a (cap - fill))) (snd (fst kept) i)))).
  { intros i rb Hrb. rewrite Hw', (Hlook i rb Hrb).
    pose proof (shaped_capacity cap _ i rb Hshaped Hrb) as Hc.
    pose proof (aligned_at_lookup _ _ _ _ Hal Hrb) as Hf.
    unfold RingBuffer.getWriteSpace. rewrite Hc, Hf. reflexivity. }
  assert (Hlen : length (Kernel.output_buffer_ (Kernel.self w'))
                 = length (Kernel.output_buffer_ s)).
  { rewrite Hw'.
    destruct (move_to_buffers_run a (Kernel.log CallAvailable w))
      as (s' & actual & -> & _ & _ & _ & _ & _ & _ & _ & Hl & _). exact Hl. }
  assert (Haligned : aligned_at (Z.min (fill + a) cap) (Kernel.self w')).
  { apply Forall_lookup. intros i rb' Hrb'.
    pose proof (lookup_lt_Some _ _ _ Hrb') as Hi. rewrite Hlen in Hi.
    destruct (lookup_lt_is_Some_2 _ i Hi) as [rb Hrb].
    rewrite (Hwritten i rb Hrb) in Hrb'. injection Hrb' as <-.
    pose proof (aligned_at_lookup _ _ _ _ Hal Hrb) as Hf.
    pose proof (retrieve_block (Kernel.stretcher_ s) a i) as Hblock.
    destruct (retrieve_exact (Kernel.stretcher_ s) a Hrange) as [Hcount _].
    fold kept in Hblock, Hcount. rewrite Hcount in Hblock.
    unfold RingBuffer.getReadSpace in *. cbn [RingBuffer.data].
    rewrite length_app, length_take. lia. }
  split_and!.
  - exact Hwritten.
  - exact Haligned.
  - rewrite Hw'.
    destruct (move_to_buffers_run a (Kernel.log CallAvailable w))
      as (s' & actual & -> & _ & Hleft & _).
    cbn [snd Kernel.self]. rewrite Hleft.
    cbn [snd Kernel.self Kernel.log Kernel.stretcher_]. fold s a.
    destruct (retrieve_exact (Kernel.stretcher_ s) a Hrange) as [_ ->]. lia.
  - intros Hover. replace cap with (Z.min (fill + a) cap) at 1 by lia. exact Haligned.
Qed.

End KernelRuns.

(** ** More on the wrapper *)

Section WorkletRuns.

Context {E : Type} `{Stretcher.api E}.

Implicit Types o : Worklet.RealtimeRubberBand (E := E).
Implicit Types w : Kernel.World (E := E).

Lemma count_events_cons (p : Event -> bool) (ev : Event) (tr : list Event) :
  count_events p (ev :: tr) = ((if p ev then 1 else 0) + count_events p tr)%nat.
Proof. unfold count_events. cbn. destruct (p ev); reflexivity. Qed.

(** A ratio change adds to the trace only what its protocol names. *)
Lemma follows_protocol_count (p : Event -> bool) (query change : Event) (apply : E -> E)
    w out :
  follows_protocol query change apply w out ->
  p query = false -> p change = false -> p CallReset = false ->
  (forall n, p (CallSetMaxProcessSize n) = false) ->
  p CallGetPreferredStartPad = false -> p CallGetStartDelay = false ->
  p CallAvailable = false -> (forall n, p (CallRetrieve n) = false) ->
  (forall l, p (Cerr l) = false) ->
  count_events p (Kernel.trace (snd out)) = count_events p (Kernel.trace w).
Proof.
  intros (_ & Htr1 & Htr2 & _) Hq Hc Hr Hs Hp Hd Ha Hret Hcerr.
  rewrite Htr2, Htr1, !count_events_app, !count_events_cons, count_events_app.
  rewrite fetch_events_quiet by assumption. rewrite Hq, Hr.
  destruct (0 <? _); rewrite !count_events_cons, ?Hs, Hc, Hp, Hd; cbn; lia.
Qed.

(** [setTempo] never tells the stretcher a pitch. *)
Lemma setTempo_tells_no_pitch (r : double) w :
  count_events is_setPitchScale (Kernel.trace (snd (Kernel.setTempo r w)))
  = count_events is_setPitchScale (Kernel.trace w).
Proof.
  destruct (setter_cases w) as (Htempo & _).
  destruct (Htempo r) as [[-> | [e ->]] | Hfollows].
  - apply count_events_log. reflexivity.
  - reflexivity.
  - eapply follows_protocol_count; eauto.
Qed.

(** What the kernel's constructor gives when it returns. *)
Lemma kernel_new_facts (kBlockSize_ kReserve_ sampleRate channel_count : Z) (hq : bool)
    (heap0 : Mem) w :
  Kernel.new_RealtimeRubberBand kBlockSize_ kReserve_ sampleRate channel_count hq heap0 = Ok w ->
  0 < sampleRate /\ 0 < channel_count
  /\ Kernel.channel_count_ (Kernel.self w) = channel_count
  /\ Kernel.heap w = heap0
  /\ count_events is_setPitchScale (Kernel.trace w) = 0%nat.
Proof.
  unfold Kernel.new_RealtimeRubberBand.
  destruct (sampleRate <=? 0) eqn:Hs; [discriminate|].
  destruct (channel_count <=? 0) eqn:Hc; [discriminate|].
  intros [= <-]. cbn. split_and!; try reflexivity; lia.
Qed.

(** What the wrapper's constructor gives when it returns. *)
Lemma worklet_new_facts (kBlockSize_ kReserve_ : Z)
    (new_HeapArray : nat -> Z -> Z -> Worklet.HeapArray) (heap0 : Mem)
    (sampleRate channelCount : Z) (options : option Worklet.RealtimeRubberBandOptions) o :
  Worklet.new_RealtimeRubberBand kBlockSize_ kReserve_ new_HeapArray heap0 sampleRate
    channelCount options = Ok o ->
  let kernel := Worklet._kernel o in
  0 < sampleRate /\ 0 < channelCount
  /\ Worklet._channelCount o = channelCount
  /\ Kernel.channel_count_ (Kernel.self kernel) = channelCount
  /\ Worklet._highQuality o = default false (options ≫= Worklet.highQuality)
  /\ Kernel.max_process_size_ (Kernel.self kernel) = 128
  /\ Worklet._tempo o = Worklet.number_or (options ≫= Worklet.tempo) 1%float
  /\ Worklet._pitch o = Worklet.number_or (options ≫= Worklet.pitch) 1%float
  /\ count_events is_setPitchScale (Kernel.trace kernel) = 0%nat
  /\ Kernel.heap kernel = heap0
  /\ Worklet._inputArray o = new_HeapArray 0%nat 128 channelCount
  /\ Worklet._outputArray o = new_HeapArray 1%nat 128 channelCount
  /\ shaped (Kernel.buffer_size kBlockSize_ kReserve_) (Kernel.self kernel)
  /\ aligned (Kernel.self kernel).
Proof.
  unfold Worklet.new_RealtimeRubberBand.
  destruct (Kernel.new_RealtimeRubberBand _ _ _ _ _ heap0) as [k0|e] eqn:Hk0; [|discriminate].
  destruct (kernel_new_facts _ _ _ _ _ _ _ Hk0) as (Hs & Hc & Hcc0 & Hheap0 & Hquiet0).
  destruct (new_is_shaped _ _ _ _ _ _ _ Hk0) as [Hshaped0 Hal0].
  cbn zeta.
  assert (Hquiet1 : count_events is_setPitchScale
                      (Kernel.trace (snd (Kernel.setMaxProcessSize
                                            Worklet.RENDER_QUANTUM_FRAMES k0))) = 0%nat).
  { change (Kernel.trace (snd (Kernel.setMaxProcessSize Worklet.RENDER_QUANTUM_FRAMES k0)))
      with (Kernel.trace k0 ++ [CallSetMaxProcessSize Worklet.RENDER_QUANTUM_FRAMES]).
    rewrite count_events_app, Hquiet0. reflexivity. }
  destruct (step_keeps_configuration k0 (OpSetMaxProcessSize 128)) as (Hcc1 & Hmax1 & Hheap1).
  destruct (step_keeps_aligned _ k0 (OpSetMaxProcessSize 128) Hshaped0 (ex_intro _ 0 Hal0))
    as [Hshaped1 Hal1].
  specialize (Hheap1 eq_refl). cbn [step configured_size foldl] in *.
  change 128 with Worklet.RENDER_QUANTUM_FRAMES in Hcc1, Hmax1 at 1, Hheap1, Hshaped1, Hal1.
  remember (snd (Kernel.setMaxProcessSize Worklet.RENDER_QUANTUM_FRAMES k0)) as k1 eqn:Hk1.
  assert (Hfacts : forall kernel',
    kernel' = k1 \/ (exists t, kernel' = snd (Kernel.setTempo t k1)) ->
    Kernel.channel_count_ (Kernel.self kernel') = channelCount
    /\ Kernel.max_process_size_ (Kernel.self kernel') = 128
    /\ count_events is_setPitchScale (Kernel.trace kernel') = 0%nat
    /\ Kernel.heap kernel' = heap0
    /\ shaped (Kernel.buffer_size kBlockSize_ kReserve_) (Kernel.self kernel')
    /\ aligned (Kernel.self kernel')).
  { intros kernel' [-> | [t ->]].
    - split_and!; auto; congruence.
    - pose proof (setTempo_tells_no_pitch t k1) as Hquiet2.
      destruct (setter_cases k1) as (Htempo & _).
      destruct (setter_keeps _ _ _ _ _ (Htempo t)) as (Hheap2 & Hcc2 & Hmax2).
      destruct (step_keeps_aligned _ k1 (OpSetTempo t) Hshaped1 Hal1) as [Hshaped2 Hal2].
      cbn [step] in Hshaped2, Hal2.
      split_and!; auto; congruence. }
  assert (Hbuilt : forall kernel',
    kernel' = k1 \/ (exists t, kernel' = snd (Kernel.setTempo t k1)) ->
    Ok (Worklet.mkRealtimeRubberBand (default false (options ≫= Worklet.highQuality))
          channelCount kernel'
          (new_HeapArray 0%nat Worklet.RENDER_QUANTUM_FRAMES channelCount)
          (new_HeapArray 1%nat Worklet.RENDER_QUANTUM_FRAMES channelCount)
          (Worklet.number_or (options ≫= Worklet.tempo) 1%float)
          (Worklet.number_or (options ≫= Worklet.pitch) 1%float)) = Ok o ->
    let kernel := Worklet._kernel o in
    0 < sampleRate /\ 0 < channelCount
    /\ Worklet._channelCount o = channelCount
    /\ Kernel.channel_count_ (Kernel.self kernel) = channelCount
    /\ Worklet._highQuality o = default false (options ≫= Worklet.highQuality)
    /\ Kernel.max_process_size_ (Kernel.self kernel) = 128
    /\ Worklet._tempo o = Worklet.number_or (options ≫= Worklet.tempo) 1%float
    /\ Worklet._pitch o = Worklet.number_or (options ≫= Worklet.pitch) 1%float
    /\ count_events is_setPitchScale (Kernel.trace kernel) = 0%nat
    /\ Kernel.heap kernel = heap0
    /\ Worklet._inputArray o = new_HeapArray 0%nat 128 channelCount
    /\ Worklet._outputArray o = new_HeapArray 1%nat 128 channelCount
    /\ shaped (Kernel.buffer_size kBlockSize_ kReserve_) (Kernel.self kernel)
    /\ aligned (Kernel.self kernel)).
  { intros kernel' Hkernel' [= <-].
    destruct (Hfacts kernel' Hkernel') as (? & ? & ? & ? & ? & ?).
    cbn. split_and!; auto. }
  destruct (options ≫= Worklet.tempo) as [t|] eqn:Ht; [|apply Hbuilt; left; reflexivity].
  destruct (js_truthy t && double_ne t 1%float); [|apply Hbuilt; left; reflexivity].
  unfold Worklet.kernel_call. cbn [Worklet._kernel].
  destruct (Kernel.setTempo (1 / t)%float k1) as [[[]|e] k2] eqn:Hk2; [|discriminate].
  apply Hbuilt. right. exists (1 / t)%float. rewrite Hk2. reflexivity.
Qed.

(** X8. When the wrapper's constructor returns, the sample rate and the
    channel count are positive, the kernel's block size is fixed at 128, the
    object has the shape every call keeps, and the options are recorded; the
    pitch option is recorded only: the stretcher is never told a pitch. *)
Theorem constructor_records_the_pitch_only (kBlockSize_ kReserve_ : Z)
    (new_HeapArray : nat -> Z -> Z -> Worklet.HeapArray) (heap0 : Mem)
    (sampleRate channelCount : Z) (options : option Worklet.RealtimeRubberBandOptions) o :
  Worklet.new_RealtimeRubberBand kBlockSize_ kReserve_ new_HeapArray heap0 sampleRate
    channelCount options = Ok o ->
  let kernel := Worklet._kernel o in
  0 < sampleRate /\ 0 < channelCount
  /\ Worklet._channelCount o = channelCount
  /\ Kernel.channel_count_ (Kernel.self kernel) = channelCount
  /\ Worklet._highQuality o = default false (options ≫= Worklet.highQuality)
  /\ Kernel.max_process_size_ (Kernel.self kernel) = 128
  /\ Worklet._tempo o = Worklet.number_or (options ≫= Worklet.tempo) 1%float
  /\ Worklet._pitch o = Worklet.number_or (options ≫= Worklet.pitch) 1%float
  /\ count_events is_setPitchScale (Kernel.trace kernel) = 0%nat
  /\ Kernel.heap kernel = heap0
  /\ Worklet._inputArray o = new_HeapArray 0%nat 128 channelCount
  /\ Worklet._outputArray o = new_HeapArray 1%nat 128 channelCount
  /\ shaped (Kernel.buffer_size kBlockSize_ kReserve_) (Kernel.self kernel)
  /\ aligned (Kernel.self kernel).
Proof. apply worklet_new_facts. Qed.
(** *** The ratio setters *)

(** X9. The wrapper stores a ratio before the kernel checks it: a time ratio
    whose inverse the kernel rejects, or a pitch the kernel rejects, makes the
    setter throw and leaves the kernel as it was, and yet it is the value the
    wrapper holds from then on ([timeRatio] reads it back). *)
Theorem rejected_ratio_is_still_stored o :
  (forall t,
      PrimFloat.leb (1 / t)%float 0%float = true ->
      Worklet.set_timeRatio t o
      = (Throw (range_error "Tempo has to be greater than 0"), Worklet.set_tempo t o)
      /\ fst (Worklet.get_timeRatio (snd (Worklet.set_timeRatio t o))) = Ok t
      /\ Worklet._kernel (snd (Worklet.set_timeRatio t o)) = Worklet._kernel o)
  /\ (forall p,
      PrimFloat.leb p 0%float = true ->
      Worklet.set_pitchScale p o
      = (Throw (range_error "Pitch has to be greater than 0"), Worklet.set_pitch p o)
      /\ Worklet._pitch (snd (Worklet.set_pitchScale p o)) = p
      /\ Worklet._kernel (snd (Worklet.set_pitchScale p o)) = Worklet._kernel o).
Proof.
  split.
  - intros t Ht.
    assert (Hrun : Worklet.set_timeRatio t o
                   = (Throw (range_error "Tempo has to be greater than 0"),
                      Worklet.set_tempo t o)).
    { unfold Worklet.set_timeRatio, bind, modify, Worklet.kernel_call, Kernel.setTempo.
      cbn [Worklet._kernel Worklet.set_tempo]. rewrite Ht. destruct o. reflexivity. }
    rewrite Hrun. split_and!; reflexivity.
  - intros p Hp.
    assert (Hrun : Worklet.set_pitchScale p o
                   = (Throw (range_error "Pitch has to be greater than 0"),
                      Worklet.set_pitch p o)).
    { unfold Worklet.set_pitchScale, bind, modify, Worklet.kernel_call, Kernel.setPitch.
      cbn [Worklet._kernel Worklet.set_pitch]. rewrite Hp. destruct o. reflexivity. }
    rewrite Hrun. split_and!; reflexivity.
Qed.

(** What the wrapper's setter of the time ratio does, in terms of the
    kernel's. *)
Lemma set_timeRatio_run (t : double) o :
  Worklet.set_timeRatio t o
  = (fst (Kernel.setTempo (1 / t)%float (Worklet._kernel o)),
     Worklet.set_kernel (snd (Kernel.setTempo (1 / t)%float (Worklet._kernel o)))
       (Worklet.set_tempo t o)).
Proof.
  unfold Worklet.set_timeRatio, bind, modify, Worklet.kernel_call.
  cbn [Worklet._kernel Worklet.set_tempo].
  destruct (Kernel.setTempo _ _) as [r k]. reflexivity.
Qed.

Lemma set_pitchScale_run (p : double) o :
  Worklet.set_pitchScale p o
  = (fst (Kernel.setPitch p (Worklet._kernel o)),
     Worklet.set_kernel (snd (Kernel.setPitch p (Worklet._kernel o)))
       (Worklet.set_pitch p o)).
Proof.
  unfold Worklet.set_pitchScale, bind, modify, Worklet.kernel_call.
  cbn [Worklet._kernel Worklet.set_pitch].
  destruct (Kernel.setPitch _ _) as [r k]. reflexivity.
Qed.

(** X10. A time ratio of 0 is not rejected: its inverse is plus infinity,
    which passes the kernel's check, so that the setter returns and the
    stretcher is left with an infinite time ratio.  A time ratio of minus 0,
    whose inverse is minus infinity, is rejected. *)
Theorem zero_timeRatio_is_not_rejected `{!StretcherLaws E} o :
  (let out := Worklet.set_timeRatio 0%float o in
   fst out = Ok tt
   /\ Worklet._tempo (snd out) = 0%float
   /\ PrimFloat.eqb
        (Stretcher.getTimeRatio (Kernel.stretcher_ (Kernel.self (Worklet._kernel (snd out)))))
        infinity = true)
  /\ Worklet.set_timeRatio neg_zero o
     = (Throw (range_error "Tempo has to be greater than 0"), Worklet.set_tempo neg_zero o).
Proof.
  split.
  - cbn zeta. rewrite set_timeRatio_run. cbn [fst snd Worklet._kernel Worklet.set_kernel].
    change (1 / 0)%float with infinity.
    destruct (setTempo_sets infinity (Worklet._kernel o) eq_refl) as [Hok Hset].
    split_and!; [exact Hok | destruct o; reflexivity | exact Hset].
  - rewrite set_timeRatio_run. unfold Kernel.setTempo.
    change (PrimFloat.leb (1 / neg_zero) 0)%float with true.
    destruct o. reflexivity.
Qed.

(** After [setPitch] with a valid value the stretcher holds that value. *)
Lemma setPitch_sets `{!StretcherLaws E} (p : double) w :
  PrimFloat.ltb 0%float p = true ->
  fst (Kernel.setPitch p w) = Ok tt
  /\ PrimFloat.eqb
       (Stretcher.getPitchScale (Kernel.stretcher_ (Kernel.self (snd (Kernel.setPitch p w)))))
       p = true.
Proof.
  intros Hpos. pose proof (positive_not_le_zero p Hpos) as Hvalid.
  destruct (double_ne (Stretcher.getPitchScale (Kernel.stretcher_ (Kernel.self w))) p) eqn:Hne.
  - destruct (setPitch_follows w p Hvalid Hne) as (Hok & _ & _ & _ & _ & He & _).
    split; [exact Hok|]. rewrite He, getPitchScale_set. apply positive_eqb_refl, Hpos.
  - unfold Kernel.setPitch. rewrite Hvalid, bind_ask, Hne. split; [reflexivity|].
    cbn. unfold double_ne in Hne. apply negb_false_iff in Hne. exact Hne.
Qed.

(** X11. Setting the wrapper's [pitchScale] to a positive [p] calls the
    kernel's [setPitch] with [p] itself (the pitch is not inverted as the time
    ratio is): the setter returns, the wrapper and the stretcher both hold
    [p], and the time ratio the wrapper holds is untouched. *)
Theorem pitchScale_reaches_the_stretcher `{!StretcherLaws E} (p : double) o :
  PrimFloat.ltb 0%float p = true ->
  let out := Worklet.set_pitchScale p o in
  (fst out, Worklet._kernel (snd out)) = Kernel.setPitch p (Worklet._kernel o)
  /\ fst out = Ok tt
  /\ Worklet._pitch (snd out) = p
  /\ Worklet._tempo (snd out) = Worklet._tempo o
  /\ PrimFloat.eqb
       (Stretcher.getPitchScale (Kernel.stretcher_ (Kernel.self (Worklet._kernel (snd out)))))
       p = true.
Proof.
  intros Hpos out. subst out. rewrite set_pitchScale_run.
  cbn [fst snd Worklet._kernel Worklet.set_kernel].
  destruct (setPitch_sets p (Worklet._kernel o) Hpos) as [Hok Hset].
  split_and!; [destruct (Kernel.setPitch _ _); reflexivity | exact Hok | destruct o; reflexivity
              | destruct o; reflexivity | exact Hset].
Qed.

(** *** push *)

(** The copying loop of [push] and [pushSlice]: it touches the heap only, it
    throws a TypeError or a RangeError if it throws, and it returns when every
    channel has a view that is long enough. *)
Lemma fill_input_run (a : Worklet.HeapArray) (channels : list (list float)) (channel : nat) o :
  exists r heap',
    Worklet.fill_input a channel channels o
    = (r, Worklet.set_kernel
            (Kernel.mkWorld (Kernel.self (Worklet._kernel o)) heap'
               (Kernel.trace (Worklet._kernel o))) o)
    /\ (r = Ok tt \/ exists what, r = Throw (TypeError what) \/ r = Throw (RangeError what))
    /\ ((forall (i : nat) src, channels !! i = Some src ->
           exists v, Worklet.getChannelArray a (channel + i) = Some v
                     /\ Z.of_nat (length src) <= Worklet.view_length v) ->
        r = Ok tt).
Proof.
  revert channel o. induction channels as [|source rest IH]; intros channel o.
  - exists (Ok tt), (Kernel.heap (Worklet._kernel o)).
    destruct o as [? ? [] ? ? ? ?]. cbn. auto.
  - cbn [Worklet.fill_input].
    destruct (Worklet.getChannelArray a channel) as [v|] eqn:Hv.
    2:{ eexists _, (Kernel.heap (Worklet._kernel o)). split_and!.
        - destruct o as [? ? [] ? ? ? ?]. reflexivity.
        - right. eexists. left. reflexivity.
        - intros Hall. destruct (Hall 0%nat source eq_refl) as (v & Hv' & _).
          rewrite Nat.add_0_r in Hv'. congruence. }
    destruct (Worklet.view_length v <? Z.of_nat (length source)) eqn:Hlong.
    { eexists _, (Kernel.heap (Worklet._kernel o)). split_and!.
      - destruct o as [? ? [] ? ? ? ?]. reflexivity.
      - right. eexists. right. reflexivity.
      - intros Hall. destruct (Hall 0%nat source eq_refl) as (v' & Hv' & Hfit).
        rewrite Nat.add_0_r in Hv'. assert (v' = v) as -> by congruence. lia. }
    unfold bind at 1. unfold modify at 1.
    match goal with |- context [Worklet.fill_input _ _ _ ?o1] =>
      destruct (IH (S channel) o1) as (r & heap' & Hrun & Hr & Hok) end.
    exists r, heap'. rewrite Hrun. split_and!.
    + destruct o as [? ? [] ? ? ? ?]. reflexivity.
    + exact Hr.
    + intros Hall. apply Hok. intros i src Hsrc.
      replace (S channel + i)%nat with (channel + S i)%nat by lia.
      apply (Hall (S i) src Hsrc).
Qed.

(** X12. The wrapper's [push] throws only while it copies the channels to the
    input HeapArray (a channel without a view, or one longer than its view),
    and then the kernel has not been called: the object and its trace are as
    they were.  When it returns for channels that are there, the kernel's
    [push] ran once, with the given sample count, or with 128 when that count
    is 0 or missing.  For no channels it does nothing. *)
Theorem push_throws_before_the_kernel (channels : list (list float))
    (numSamples : option Z) o :
  let out := Worklet.push channels numSamples o in
  let kernel := Worklet._kernel o in
  let kernel' := Worklet._kernel (snd out) in
  let n := match numSamples with Some 0 | None => 128 | Some k => k end in
  (channels = [] -> out = (Ok tt, o))
  /\ (forall e, fst out = Throw e ->
        (exists what, e = TypeError what \/ e = RangeError what)
        /\ Kernel.self kernel' = Kernel.self kernel
        /\ Kernel.trace kernel' = Kernel.trace kernel)
  /\ (channels <> [] -> fst out = Ok tt ->
        exists heap',
          kernel'
          = snd (Kernel.push (Worklet.getHeapAddress (Worklet._inputArray o)) n
                   (Kernel.mkWorld (Kernel.self kernel) heap' (Kernel.trace kernel)))
          /\ (exists rest,
                Kernel.trace kernel' = Kernel.trace kernel ++ CallProcess n false :: rest)
          /\ count_events is_process (Kernel.trace kernel')
             = S (count_events is_process (Kernel.trace kernel))).
Proof.
  intros out kernel kernel' n.
  assert (Hn : Worklet.count_or numSamples Worklet.RENDER_QUANTUM_FRAMES = n).
  { subst n. destruct numSamples as [[| |]|]; reflexivity. }
  destruct channels as [|c cs].
  { subst out. split_and!; [reflexivity | discriminate | congruence]. }
  destruct (fill_input_run (Worklet._inputArray o) (c :: cs) 0 o)
    as (r & heap' & Hrun & Hr & _).
  fold kernel in Hrun.
  set (w1 := Kernel.mkWorld (Kernel.self kernel) heap' (Kernel.trace kernel)) in *.
  set (address := Worklet.getHeapAddress (Worklet._inputArray o)).
  assert (Hout : out = match r with
                       | Ok _ => (fst (Kernel.push address n w1),
                                  Worklet.set_kernel (snd (Kernel.push address n w1)) o)
                       | Throw e => (Throw e, Worklet.set_kernel w1 o)
                       end).
  { subst out. unfold Worklet.push.
    destruct (0 <? Z.of_nat (length (c :: cs))) eqn:Hlen;
      [|apply Z.ltb_ge in Hlen; cbn [length] in Hlen; lia].
    rewrite bind_gets. unfold bind at 1. rewrite Hrun, Hn. destruct r as [[]|e]; [|reflexivity].
    unfold Worklet.kernel_call. cbn [Worklet._kernel Worklet.set_kernel]. fold address.
    destruct (Kernel.push address n w1). destruct o. reflexivity. }
  subst kernel'. rewrite Hout. clear Hout.
  pose proof (fetchProcessed_ok (processed address n w1)) as Hok.
  pose proof (fetchProcessed_trace (processed address n w1)) as Htrace.
  rewrite <- push_run in Hok, Htrace.
  destruct Hr as [-> | [what Hr]].
  - cbn [fst snd Worklet._kernel Worklet.set_kernel].
    split_and!; [discriminate | intros e He; congruence |]. intros _ _.
    exists heap'. fold w1.
    split_and!; [reflexivity | |].
    + eexists. rewrite Htrace. unfold processed, Kernel.log. cbn [Kernel.trace Kernel.with_self].
      rewrite <- app_assoc. reflexivity.
    + rewrite Htrace. unfold processed, Kernel.log. cbn [Kernel.trace Kernel.with_self].
      rewrite !count_events_app, fetch_events_quiet by reflexivity.
      subst w1. unfold count_events. cbn. lia.
  - assert (Hthrown : exists e, r = Throw e) by (destruct Hr as [-> | ->]; eauto).
    destruct Hthrown as [e0 ->]. cbn [fst snd Worklet._kernel Worklet.set_kernel].
    split_and!; [discriminate | | intros _ Hbad; discriminate].
    intros e [= <-]. split_and!; try reflexivity.
    exists what. destruct Hr as [[= ->] | [= ->]]; auto.
Qed.

(** *** pull *)

(** The wrapper's [pull], step by step. *)
Lemma worklet_pull_cases (channels : list (list float)) o :
  let kernel := Worklet._kernel o in
  let A := RingBuffer.getReadSpace (Kernel.output_buffer_ (Kernel.self kernel) !!! 0%nat) in
  let k := Z.min A (Z.of_nat (length (channels !!! 0%nat))) in
  let w' := snd (Kernel.pull (Worklet.getHeapAddress (Worklet._outputArray o)) k kernel) in
  Worklet.pull channels o
  = if (0 <? Z.of_nat (length channels)) && (0 <? k) then
      match Worklet.copy_output (Kernel.heap w') (Worklet._outputArray o) k 0 channels with
      | Ok filled => (Ok filled, Worklet.set_kernel w' o)
      | Throw e => (Throw e, Worklet.set_kernel w' o)
      end
    else (Ok channels, o).
Proof.
  intros kernel A k w'.
  assert (Hsame : Worklet.set_kernel kernel o = o) by (subst kernel; destruct o; reflexivity).
  unfold Worklet.pull.
  destruct (0 <? Z.of_nat (length channels)) eqn:Hn; [|reflexivity].
  rewrite bind_kernel_call. unfold Kernel.getSamplesAvailable at 1. unfold gets at 1.
  fold kernel. rewrite Hsame. fold A. fold k.
  destruct (0 <? k) eqn:Hk; [|reflexivity].
  rewrite bind_gets, bind_kernel_call. fold kernel.
  destruct (pull_returns
              (Worklet.getHeapAddress (Worklet._outputArray o)) k kernel) as [Hok _].
  subst w'.
  destruct (Kernel.pull _ k kernel) as [r w'] eqn:Hpull. cbn [fst snd] in *. subst r.
  rewrite bind_gets. cbn [Worklet._kernel Worklet.set_kernel Kernel.heap Worklet._outputArray].
  destruct o. cbn. destruct (Worklet.copy_output _ _ _ _ _); reflexivity.
Qed.

(** X13. The wrapper's [pull] never makes the kernel's [pull] run dry: it asks
    how many samples there are first and calls the kernel for what is there
    only, so that, with all channels aligned, it adds nothing to the trace (no
    call on the stretcher, no BUFFER UNDERRUN line) and leaves the stretcher
    alone, whether it returns or throws; with nothing available it returns the
    channels as they are. *)
Theorem wrapper_pull_never_underruns cap (channels : list (list float)) o :
  let kernel := Worklet._kernel o in
  let out := Worklet.pull channels o in
  shaped cap (Kernel.self kernel) -> aligned (Kernel.self kernel) ->
  Kernel.trace (Worklet._kernel (snd out)) = Kernel.trace kernel
  /\ Kernel.stretcher_ (Kernel.self (Worklet._kernel (snd out)))
     = Kernel.stretcher_ (Kernel.self kernel)
  /\ (RingBuffer.getReadSpace (Kernel.output_buffer_ (Kernel.self kernel) !!! 0%nat) = 0 ->
      out = (Ok channels, o)).
Proof.
  intros kernel out Hshaped Hal. subst out. rewrite worklet_pull_cases. fold kernel.
  set (A := RingBuffer.getReadSpace (Kernel.output_buffer_ (Kernel.self kernel) !!! 0%nat)).
  set (k := Z.min A (Z.of_nat (length (channels !!! 0%nat)))).
  destruct ((0 <? Z.of_nat (length channels)) && (0 <? k)) eqn:Hgo.
  2:{ split_and!; reflexivity. }
  apply andb_true_iff in Hgo as [_ Hk]. apply Z.ltb_lt in Hk.
  pose proof (aligned_at_head _ Hal) as HalA. fold A in HalA.
  destruct (kernel_pull_copies cap A (Worklet.getHeapAddress (Worklet._outputArray o)) k
              kernel Hshaped HalA) as (_ & _ & _ & Htrace).
  destruct (pull_returns
              (Worklet.getHeapAddress (Worklet._outputArray o)) k kernel) as [_ Hstretcher].
  assert (Htr : Kernel.trace (snd (Kernel.pull (Worklet.getHeapAddress (Worklet._outputArray o))
                                     k kernel)) = Kernel.trace kernel).
  { destruct Htrace as [Hsame' | [Hz _]]; [exact Hsame' | lia]. }
  destruct (Worklet.copy_output _ _ _ _ _) as [filled|e];
    cbn [fst snd Worklet._kernel Worklet.set_kernel];
    (split_and!; [exact Htr | exact Hstretcher | intros Hz; lia]).
Qed.
(** *** The input HeapArray *)

(** The copying loop over a HeapArray laid out [len] samples apart: every
    channel lands at the start of its view, and no other cell changes. *)
Lemma fill_input_stores (len : Z) (a : Worklet.HeapArray) (channels : list (list float))
    (channel : nat) o :
  laid_out len a ->
  (forall (i : nat) src, channels !! i = Some src ->
     is_Some (Worklet.getChannelArray a (channel + i)) /\ Z.of_nat (length src) <= len) ->
  let base := Worklet.getHeapAddress a in
  let kernel := Worklet._kernel o in
  exists heap',
    Worklet.fill_input a channel channels o
    = (Ok tt, Worklet.set_kernel
                (Kernel.mkWorld (Kernel.self kernel) heap' (Kernel.trace kernel)) o)
    /\ (forall (i : nat) src, channels !! i = Some src ->
          load_block heap' (base + Z.of_nat (channel + i) * len) (length src) = src)
    /\ (forall addr : Z,
          (forall (i : nat) src, channels !! i = Some src ->
             ~ (base + Z.of_nat (channel + i) * len <= addr
                < base + Z.of_nat (channel + i) * len + Z.of_nat (length src))) ->
          heap' addr = Kernel.heap kernel addr).
Proof.
  intros Hlaid. revert channel o. induction channels as [|source rest IH];
    intros channel o Hall base kernel.
  - exists (Kernel.heap kernel). subst kernel. split_and!.
    + destruct o as [? ? [] ? ? ? ?]. reflexivity.
    + intros i src Hsrc. discriminate.
    + reflexivity.
  - destruct (Hall 0%nat source eq_refl) as ([v Hv] & Hfit). rewrite Nat.add_0_r in Hv.
    destruct (Hlaid channel v Hv) as [Hptr Hlen]. fold base in Hptr.
    cbn [Worklet.fill_input]. rewrite Hv.
    destruct (Worklet.view_length v <? Z.of_nat (length source)) eqn:Hlong; [lia|].
    unfold bind at 1. unfold modify at 1.
    match goal with |- context [Worklet.fill_input _ _ _ ?o1] =>
      destruct (IH (S channel) o1) as (heap' & Hrun & Hin & Hout) end.
    { intros i src Hsrc. replace (S channel + i)%nat with (channel + S i)%nat by lia.
      apply (Hall (S i) src Hsrc). }
    assert (Hlenpos : 0 <= len) by lia.
    exists heap'. rewrite Hrun. split_and!.
    + destruct o as [? ? [] ? ? ? ?]. reflexivity.
    + intros [|i] src Hsrc.
      * injection Hsrc as <-. rewrite Nat.add_0_r, <- Hptr.
        rewrite <- (load_store_block (Kernel.heap kernel) (Worklet.view_ptr v) source) at 2.
        apply load_block_ext. intros j Hj. rewrite Hout.
        { destruct o as [? ? [] ? ? ? ?]. reflexivity. }
        intros i src Hsrc. destruct (Hall (S i) src Hsrc) as [_ Hfit'].
        rewrite Hptr. nia.
      * replace (channel + S i)%nat with (S channel + i)%nat by lia. apply Hin. exact Hsrc.
    + intros addr Haddr. rewrite Hout.
      * destruct o as [? ? [] ? ? ? ?]. cbn. apply store_block_outside.
        rewrite Hptr. specialize (Haddr 0%nat source eq_refl).
        rewrite Nat.add_0_r in Haddr. exact Haddr.
      * intros i src Hsrc. replace (S channel + i)%nat with (channel + S i)%nat by lia.
        apply (Haddr (S i) src Hsrc).
Qed.

(** What [push] of the kernel reads as channel [i]: [sample_size] samples at
    [input_ptr + i * sample_size]. *)
Lemma pushed_input_lookup (input_ptr sample_size : Z) w (i : nat) :
  Z.of_nat i < Kernel.channel_count_ (Kernel.self w) ->
  pushed_input input_ptr sample_size w !! i
  = Some (load_block (Kernel.heap w) (input_ptr + Z.of_nat i * sample_size)
            (Z.to_nat sample_size)).
Proof.
  intros Hi. unfold pushed_input. rewrite !list_lookup_fmap.
  rewrite lookup_seqZ_lt by exact Hi. reflexivity.
Qed.

Lemma length_pushed_input (input_ptr sample_size : Z) w :
  length (pushed_input input_ptr sample_size w)
  = Z.to_nat (Kernel.channel_count_ (Kernel.self w)).
Proof. unfold pushed_input. rewrite !length_fmap, length_seqZ. reflexivity. Qed.

(** The wrapper's [push] over a laid-out HeapArray, step by step. *)
Lemma worklet_push_run (len n : Z) (channels : list (list float)) (numSamples : option Z) o :
  let a := Worklet._inputArray o in
  let base := Worklet.getHeapAddress a in
  let kernel := Worklet._kernel o in
  laid_out len a ->
  Worklet.count_or numSamples Worklet.RENDER_QUANTUM_FRAMES = n ->
  channels <> [] ->
  (forall (i : nat) src, channels !! i = Some src ->
     is_Some (Worklet.getChannelArray a i) /\ Z.of_nat (length src) <= len) ->
  exists heap',
    let w1 := Kernel.mkWorld (Kernel.self kernel) heap' (Kernel.trace kernel) in
    Worklet.push channels numSamples o
    = (Ok tt, Worklet.set_kernel (snd (Kernel.fetchProcessed (processed base n w1))) o)
    /\ (forall (i : nat) src, channels !! i = Some src ->
          load_block heap' (base + Z.of_nat i * len) (length src) = src)
    /\ (forall addr : Z,
          (forall (i : nat) src, channels !! i = Some src ->
             ~ (base + Z.of_nat i * len <= addr
                < base + Z.of_nat i * len + Z.of_nat (length src))) ->
          heap' addr = Kernel.heap kernel addr).
Proof.
  intros a base kernel Hlaid Hn Hsome Hviews.
  destruct (fill_input_stores len a channels 0 o Hlaid Hviews) as (heap' & Hrun & Hin & Hout).
  exists heap'. intros w1. split_and!; [|exact Hin|exact Hout].
  unfold Worklet.push.
  destruct (0 <? Z.of_nat (length channels)) eqn:Hlen.
  2:{ apply Z.ltb_ge in Hlen. destruct channels; [congruence | cbn [length] in Hlen; lia]. }
  rewrite bind_gets. fold a. unfold bind at 1. rewrite Hrun, Hn.
  unfold Worklet.kernel_call. cbn [Worklet._kernel Worklet.set_kernel].
  fold kernel base w1. rewrite push_run.
  pose proof (fetchProcessed_ok (processed base n w1)) as Hok.
  destruct (Kernel.fetchProcessed (processed base n w1)) as [r w']. cbn [fst snd] in *.
  subst r. destruct o. reflexivity.
Qed.

(** X14. Over an input HeapArray whose views lie 128 samples apart, a push of
    whole blocks (128 samples in each channel, one channel for each channel of
    the kernel, the count 128 given or left out) hands the stretcher exactly
    the channels it was given, in their order, and then fetches; outside the
    HeapArray the heap is as before. *)
Theorem push_hands_over_the_block (channels : list (list float)) (numSamples : option Z) o :
  let a := Worklet._inputArray o in
  let base := Worklet.getHeapAddress a in
  let kernel := Worklet._kernel o in
  laid_out 128 a ->
  Worklet.count_or numSamples 128 = 128 ->
  channels <> [] ->
  Z.of_nat (length channels) = Kernel.channel_count_ (Kernel.self kernel) ->
  (forall i : nat, (i < length channels)%nat -> is_Some (Worklet.getChannelArray a i)) ->
  Forall (fun c => length c = 128%nat) channels ->
  exists heap',
    Worklet.push channels numSamples o
    = (Ok tt,
       Worklet.set_kernel
         (snd (Kernel.fetchProcessed
                 (Kernel.log (CallProcess 128 false)
                    (Kernel.with_self
                       (Kernel.set_stretcher
                          (Stretcher.process (Kernel.stretcher_ (Kernel.self kernel))
                             channels 128 false))
                       (Kernel.mkWorld (Kernel.self kernel) heap' (Kernel.trace kernel))))))
         o)
    /\ (forall addr : Z,
          ~ (base <= addr < base + Z.of_nat (length channels) * 128) ->
          heap' addr = Kernel.heap kernel addr).
Proof.
  intros a base kernel Hlaid Hn Hsome Hcount Hviews Hwhole. subst a base kernel.
  assert (Hfit : forall (i : nat) src, channels !! i = Some src ->
            is_Some (Worklet.getChannelArray (Worklet._inputArray o) i)
            /\ Z.of_nat (length src) <= 128).
  { intros i src Hsrc. split; [apply Hviews; eapply lookup_lt_Some; eauto|].
    rewrite (proj1 (Forall_lookup _ _) Hwhole i src Hsrc). lia. }
  destruct (worklet_push_run 128 128 channels numSamples o Hlaid Hn Hsome Hfit)
    as (heap' & Hrun & Hin & Hout).
  exists heap'. cbn zeta in Hrun. split.
  - rewrite Hrun. unfold processed.
    match goal with |- context [pushed_input ?p ?n ?w] =>
      assert (Hinput : pushed_input p n w = channels) end.
    { apply list_eq. intros i.
      destruct (channels !! i) as [src|] eqn:Hsrc.
      + pose proof (lookup_lt_Some _ _ _ Hsrc) as Hi.
        rewrite pushed_input_lookup by (cbn; lia).
        cbn [Kernel.heap]. f_equal.
        pose proof (Hin i src Hsrc) as Hload.
        rewrite (proj1 (Forall_lookup _ _) Hwhole i src Hsrc) in Hload. exact Hload.
      + apply lookup_ge_None in Hsrc. apply lookup_ge_None.
        rewrite length_pushed_input. cbn. lia. }
    rewrite Hinput. reflexivity.
  - intros addr Haddr. apply Hout. intros i src Hsrc.
    pose proof (lookup_lt_Some _ _ _ Hsrc) as Hi.
    rewrite (proj1 (Forall_lookup _ _) Hwhole i src Hsrc). nia.
Qed.

(** X15. Over the same HeapArray a push of shorter blocks ([k] samples in each
    channel, with [k] below 128) hands over the first channel only: the kernel
    reads channel [i] at [k * i] samples from the start, where the wrapper
    wrote nothing.  For every later channel that lies within the first view,
    the stretcher is given what the heap held there before the call, whatever
    the channel holds. *)
Theorem short_block_is_not_handed_over (channels : list (list float)) (k : Z) o :
  let a := Worklet._inputArray o in
  let base := Worklet.getHeapAddress a in
  let kernel := Worklet._kernel o in
  laid_out 128 a ->
  0 < k < 128 ->
  channels <> [] ->
  Z.of_nat (length channels) = Kernel.channel_count_ (Kernel.self kernel) ->
  (forall i : nat, (i < length channels)%nat -> is_Some (Worklet.getChannelArray a i)) ->
  Forall (fun c => length c = Z.to_nat k) channels ->
  exists heap',
    let w1 := Kernel.mkWorld (Kernel.self kernel) heap' (Kernel.trace kernel) in
    Worklet.push channels (Some k) o
    = (Ok tt, Worklet.set_kernel (snd (Kernel.fetchProcessed (processed base k w1))) o)
    /\ pushed_input base k w1 !! 0%nat = channels !! 0%nat
    /\ forall i : nat,
         (1 <= i < length channels)%nat -> (Z.of_nat i + 1) * k <= 128 ->
         pushed_input base k w1 !! i
         = Some (load_block (Kernel.heap kernel) (base + Z.of_nat i * k) (Z.to_nat k)).
Proof.
  intros a base kernel Hlaid Hk Hsome Hcount Hviews Hshort. subst a base kernel.
  assert (Hfit : forall (i : nat) src, channels !! i = Some src ->
            is_Some (Worklet.getChannelArray (Worklet._inputArray o) i)
            /\ Z.of_nat (length src) <= 128).
  { intros i src Hsrc. split; [apply Hviews; eapply lookup_lt_Some; eauto|].
    rewrite (proj1 (Forall_lookup _ _) Hshort i src Hsrc). lia. }
  assert (Hn : Worklet.count_or (Some k) Worklet.RENDER_QUANTUM_FRAMES = k).
  { unfold Worklet.count_or. destruct (k =? 0) eqn:Hz; [lia | reflexivity]. }
  destruct (worklet_push_run 128 k channels (Some k) o Hlaid Hn Hsome Hfit)
    as (heap' & Hrun & Hin & Hout).
  exists heap'. cbn zeta in Hrun |- *. split_and!.
  - exact Hrun.
  - destruct channels as [|c cs]; [congruence|]. cbn [length] in Hcount.
    rewrite pushed_input_lookup by (cbn; lia).
    cbn [Kernel.heap lookup list_lookup]. f_equal.
    pose proof (Hin 0%nat c eq_refl) as Hload.
    rewrite (proj1 (Forall_lookup _ _) Hshort 0%nat c eq_refl) in Hload.
    rewrite <- Hload. reflexivity.
  - intros i Hi Hwithin.
    rewrite pushed_input_lookup by (cbn; lia).
    cbn [Kernel.heap]. f_equal. apply load_block_ext. intros j Hj.
    apply Hout. intros i' src Hsrc.
    rewrite (proj1 (Forall_lookup _ _) Hshort i' src Hsrc).
    destruct i' as [|i']; nia.
Qed.

(** *** pushSlice *)

Lemma length_slice (xs : list float) (start end_ : Z) :
  0 <= start <= end_ -> Z.of_nat (length (Worklet.slice xs start end_)) <= end_ - start.
Proof.
  intros Hrange. unfold Worklet.slice, Worklet.slice_index.
  destruct (start <? 0) eqn:Hs; [lia|]. destruct (end_ <? 0) eqn:He; [lia|].
  rewrite length_take, length_drop. lia.
Qed.

(** X16. [pushSlice] throws its own error exactly for a part of more than 128
    samples, and then nothing is touched.  Otherwise, for a part that is not
    empty, it is the wrapper's [push] of the slices with the length of the
    part as sample count, whatever that length is; and for bounds in order
    and views of 128 samples the slices always fit, so that it returns, with
    the kernel's [process] called for the length of the part. *)
Theorem pushSlice_guards_the_length (channels : list (list float)) (start end_ : Z) o :
  let len := end_ - start in
  let slices := (fun source => Worklet.slice source start end_) <$> channels in
  (128 < len ->
   Worklet.pushSlice channels start end_ o = (Worklet.PartIsLarger len 128, o))
  /\ (len <= 128 -> len <> 0 ->
      Worklet.pushSlice channels start end_ o
      = (Worklet.Pushed (fst (Worklet.push slices (Some len) o)),
         snd (Worklet.push slices (Some len) o)))
  /\ (0 <= start <= end_ -> len <= 128 ->
      (forall i : nat, (i < length channels)%nat ->
         exists v, Worklet.getChannelArray (Worklet._inputArray o) i = Some v
                   /\ Worklet.view_length v = 128) ->
      exists o',
        Worklet.pushSlice channels start end_ o = (Worklet.Pushed (Ok tt), o')
        /\ (channels <> [] ->
            exists rest,
              Kernel.trace (Worklet._kernel o')
              = Kernel.trace (Worklet._kernel o) ++ CallProcess len false :: rest)).
Proof.
  intros len slices. split_and!.
  - intros Hlarge. unfold Worklet.pushSlice. fold len.
    destruct (Worklet.RENDER_QUANTUM_FRAMES <? len) eqn:Hguard; [reflexivity|].
    apply Z.ltb_ge in Hguard. unfold Worklet.RENDER_QUANTUM_FRAMES in Hguard. lia.
  - intros Hsmall Hsome. subst len slices. unfold Worklet.pushSlice, Worklet.push.
    cbn zeta.
    destruct (Worklet.RENDER_QUANTUM_FRAMES <? end_ - start) eqn:Hguard.
    { apply Z.ltb_lt in Hguard. unfold Worklet.RENDER_QUANTUM_FRAMES in Hguard. lia. }
    rewrite length_fmap. unfold Worklet.count_or.
    destruct (end_ - start =? 0) eqn:Hz; [lia|].
    match goal with |- (let '(r, o') := ?m in _) = (_ (fst ?m'), _) =>
      change m' with m; destruct m as [r o'] end.
    reflexivity.
  - intros Hrange Hsmall Hviews. unfold Worklet.pushSlice. fold len slices.
    destruct (Worklet.RENDER_QUANTUM_FRAMES <? len) eqn:Hguard.
    { apply Z.ltb_lt in Hguard. unfold Worklet.RENDER_QUANTUM_FRAMES in Hguard. lia. }
    destruct (0 <? Z.of_nat (length channels)) eqn:Hlen.
    2:{ exists o. split; [reflexivity|]. intros Hsome. apply Z.ltb_ge in Hlen.
        destruct channels; [congruence | cbn [length] in Hlen; lia]. }
    rewrite bind_gets.
    destruct (fill_input_run (Worklet._inputArray o) slices 0 o)
      as (r & heap' & Hrun & _ & Hok).
    rewrite Hok in Hrun.
    2:{ intros i src Hsrc. subst slices. rewrite list_lookup_fmap in Hsrc.
        destruct (channels !! i) as [source|] eqn:Hsource; [|discriminate].
        injection Hsrc as <-.
        destruct (Hviews i) as (v & Hv & Hlenv); [eapply lookup_lt_Some; eauto|].
        exists v. split; [exact Hv|]. rewrite Hlenv.
        pose proof (length_slice source start end_ Hrange). lia. }
    unfold bind at 1. rewrite Hrun.
    unfold Worklet.kernel_call. cbn [Worklet._kernel Worklet.set_kernel].
    set (w1 := Kernel.mkWorld _ heap' _).
    set (address := Worklet.getHeapAddress (Worklet._inputArray o)).
    pose proof (fetchProcessed_ok (processed address len w1)) as Hfetched.
    pose proof (fetchProcessed_trace (processed address len w1)) as Htrace.
    rewrite <- push_run in Hfetched, Htrace.
    destruct (Kernel.push address len w1) as [r' w'] eqn:Hpush. cbn [fst snd] in *. subst r'.
    eexists. split; [reflexivity|]. intros _.
    cbn [Worklet._kernel Worklet.set_kernel]. rewrite Htrace. eexists.
    unfold processed, Kernel.log. subst w1. cbn [Kernel.trace Kernel.with_self].
    rewrite <- app_assoc. reflexivity.
Qed.

End WorkletRuns.

(** ** More on the audio worklet *)

Section ProcessorFacts.

Context {E : Type} `{Stretcher.api E}.

Variables kBlockSize_ kReserve_ : Z.

Variable new_HeapArray : nat -> Z -> Z -> Worklet.HeapArray.

Variable sampleRate : Z.

Implicit Types p : Processor.RealtimePitchShiftProcessor (E := E).


(** Sequencing keeps what each step keeps, and passes on what each step
    gives. *)
Lemma bind_post {S A B T : Type} (f : S -> T) (c : T) (PA : A -> Prop) (PB : B -> Prop)
    (m : Eff S A) (k : A -> Eff S B) :
  (forall s, f s = c -> f (snd (m s)) = c /\ forall a, fst (m s) = Ok a -> PA a) ->
  (forall a, PA a ->
     forall s, f s = c -> f (snd (k a s)) = c /\ forall b, fst (k a s) = Ok b -> PB b) ->
  forall s, f s = c ->
    f (snd ((x <- m ;; k x) s)) = c /\ forall b, fst ((x <- m ;; k x) s) = Ok b -> PB b.
Proof.
  intros Hm Hk s Hs. unfold bind. destruct (Hm s Hs) as [Hs' Ha].
  destruct (m s) as [[a|e] s']; cbn [fst snd] in *.
  - apply (Hk a (Ha a eq_refl) s' Hs').
  - split; [exact Hs' | discriminate].
Qed.

Lemma on_api_settings {A : Type} (a : Worklet.RealtimeRubberBand (E := E)) (m : Worklet.Ts A) p :
  settings (snd (Processor.on_api a m p)) = settings p.
Proof. unfold Processor.on_api. destruct (m a). reflexivity. Qed.

(** [getApi], case by case: no module, an api that fits, or a new one. *)
Lemma getApi_cases (channelCount : Z) p :
  let stale :=
    match Processor._api p with
    | None => true
    | Some a => negb (Worklet._channelCount a =? channelCount)
                || negb (Bool.eqb (Worklet._highQuality a) (Processor.highQuality p))
    end in
  (Processor._module p = None -> Processor.getApi kBlockSize_ kReserve_ new_HeapArray sampleRate
        channelCount p = (Ok (Processor._api p), p))
  /\ (forall module, Processor._module p = Some module -> stale = false ->
        exists a, Processor._api p = Some a
                  /\ Processor.getApi kBlockSize_ kReserve_ new_HeapArray sampleRate
                        channelCount p = (Ok (Some a), p)
                  /\ Worklet._channelCount a = channelCount
                  /\ Worklet._highQuality a = Processor.highQuality p)
  /\ (forall module, Processor._module p = Some module -> stale = true ->
        (exists e, Processor.getApi kBlockSize_ kReserve_ new_HeapArray sampleRate
              channelCount p = (Throw e, p))
        \/ exists a,
             Processor.getApi kBlockSize_ kReserve_ new_HeapArray sampleRate
                   channelCount p = (Ok (Some a), Processor.set_api (Some a) p)
             /\ Worklet._channelCount a = channelCount
             /\ Worklet._highQuality a = Processor.highQuality p
             /\ Worklet._pitch a = Worklet.number_or (Some (Processor.pitch p)) 1%float
             /\ Worklet._tempo a = Worklet.number_or (Some (Processor.tempo p)) 1%float
             /\ Kernel.max_process_size_ (Kernel.self (Worklet._kernel a)) = 128
             /\ count_events is_setPitchScale (Kernel.trace (Worklet._kernel a)) = 0%nat).
Proof.
  intros stale. split_and!.
  - intros Hmodule. unfold Processor.getApi. rewrite Hmodule. reflexivity.
  - intros module Hmodule Hstale. unfold Processor.getApi. rewrite Hmodule. fold stale.
    rewrite Hstale. subst stale.
    destruct (Processor._api p) as [a|]; [|discriminate].
    apply orb_false_iff in Hstale as [Hcount Hquality].
    apply negb_false_iff in Hcount, Hquality.
    exists a. split_and!; [reflexivity | reflexivity | lia | apply Bool.eqb_prop, Hquality].
  - intros module Hmodule Hstale. unfold Processor.getApi. rewrite Hmodule. fold stale.
    rewrite Hstale.
    destruct (Worklet.new_RealtimeRubberBand _ _ _ _ _ _ _) as [a|e] eqn:Hnew.
    2:{ left. exists e. reflexivity. }
    right. exists (snd (Worklet.get_version a)). split; [reflexivity|].
    destruct (worklet_new_facts _ _ _ _ _ _ _ _ Hnew)
      as (_ & _ & Hcount & _ & Hquality & Hmax & Htempo & Hpitch & Hquiet & _).
    unfold Worklet.get_version, Worklet.kernel_call, Kernel.getVersion, Kernel.ask.
    cbn [snd Worklet._channelCount Worklet._highQuality Worklet._pitch Worklet._tempo
           Worklet._kernel Worklet.set_kernel].
    split_and!; try assumption.
    rewrite count_events_log by reflexivity. exact Hquiet.
Qed.

Lemma getApi_settings (channelCount : Z) p :
  settings (snd (Processor.getApi kBlockSize_ kReserve_ new_HeapArray sampleRate
        channelCount p)) = settings p.
Proof.
  destruct (getApi_cases channelCount p) as (Hnone & Hfits & Hnew).
  destruct (Processor._module p) as [module|] eqn:Hmodule.
  - destruct (match Processor._api p with
              | None => true
              | Some a => negb (Worklet._channelCount a =? channelCount)
                          || negb (Bool.eqb (Worklet._highQuality a) (Processor.highQuality p))
              end) eqn:Hstale.
    + destruct (Hnew module eq_refl eq_refl) as [[e ->] | (a & -> & _)]; reflexivity.
    + destruct (Hfits module eq_refl eq_refl) as (a & _ & -> & _). reflexivity.
  - rewrite (Hnone eq_refl). reflexivity.
Qed.

(** What a render keeps and what it returns. *)
Lemma render_keeps_settings (inputs outputs : list (list (list float))) p :
  let out := Processor.process kBlockSize_ kReserve_ new_HeapArray sampleRate inputs outputs p in
  settings (snd out) = settings p
  /\ forall r outs,
       fst out = Ok (r, outs) ->
       r = Processor.running p
       /\ length outs = length outputs
       /\ forall i : nat, i <> 0%nat -> outs !! i = outputs !! i.
Proof.
  set (shape := fun outs : list (list (list float)) =>
                  length outs = length outputs
                  /\ forall i : nat, i <> 0%nat -> outs !! i = outputs !! i).
  assert (Hshape : shape outputs) by (split; reflexivity).
  assert (Hret : forall s, settings s = settings p ->
            settings (snd (ret (S := Processor.RealtimePitchShiftProcessor (E := E))
                             outputs s)) = settings p
            /\ forall b, fst (ret (S := Processor.RealtimePitchShiftProcessor (E := E))
                                outputs s) = Ok b -> shape b).
  { intros s Hs. split; [exact Hs|]. intros b [= <-]. exact Hshape. }
  cbn zeta.
  enough (Hall : settings (snd (Processor.process kBlockSize_ kReserve_ new_HeapArray sampleRate
        inputs outputs p)) = settings p
                 /\ forall b, fst (Processor.process kBlockSize_ kReserve_ new_HeapArray sampleRate
                       inputs outputs p) = Ok b ->
                      fst b = Processor.running p /\ shape (snd b)).
  { destruct Hall as [Hs Hb]. split; [exact Hs|]. intros r outs Hout.
    apply (Hb (r, outs) Hout). }
  unfold Processor.process.
  apply (bind_post settings (settings p) shape); [| | reflexivity].
  - intros s Hs. destruct (0 <? _); [|apply Hret, Hs].
    revert s Hs. apply (bind_post settings (settings p) (fun _ => True)).
    + intros s Hs. rewrite getApi_settings. auto.
    + intros [a|] _; [|exact Hret].
      apply (bind_post settings (settings p) (fun _ => True)).
      * intros s Hs. destruct (_ && _); [|split; [exact Hs | auto]].
        revert s Hs. apply (bind_post settings (settings p) (fun _ => True)).
        -- intros s Hs. rewrite on_api_settings. auto.
        -- intros _ _ s Hs. split; [exact Hs | auto].
      * intros a' _ s Hs. destruct (_ && _); [|apply Hret, Hs].
        revert s Hs. apply (bind_post settings (settings p) (fun _ => True)).
        -- intros s Hs. rewrite on_api_settings. auto.
        -- intros filled _ s Hs. split; [exact Hs|]. intros b [= <-]. split.
           ++ apply length_insert.
           ++ intros i Hi. apply list_lookup_insert_ne. auto.
  - intros outs Houts. apply (bind_post settings (settings p) (fun r => r = Processor.running p)).
    + intros s Hs. split; [exact Hs|]. intros r [= <-].
      unfold settings in Hs. congruence.
    + intros r -> s Hs. split; [exact Hs|]. intros b [= <-]. split; [reflexivity | exact Houts].
Qed.

(** X17. A render changes nothing of the processor but its api: the settings
    (module, running, pitch, tempo, quality, the port's handler) are as
    before whether it returns or throws.  What it returns is [running], and
    of the outputs only the first is ever written: the others, and their
    number, are as they were. *)
Theorem render_changes_the_api_only (inputs outputs : list (list (list float))) p :
  let out := Processor.process kBlockSize_ kReserve_ new_HeapArray sampleRate inputs outputs p in
  settings (snd out) = settings p
  /\ forall r outs,
       fst out = Ok (r, outs) ->
       r = Processor.running p
       /\ length outs = length outputs
       /\ forall i : nat, i <> 0%nat -> outs !! i = outputs !! i.
Proof. apply render_keeps_settings. Qed.

(** X18. Closing is final.  After [close] the port has no handler and
    [running] is false, and nothing that happens later (a message, a render,
    the module's arrival) changes that or the pitch, tempo and quality the
    processor holds; every render that returns from then on returns false. *)
Theorem close_is_terminal (hs : list Happening) p :
  let closed := snd (Processor.close p) in
  let p' := happenings kBlockSize_ kReserve_ new_HeapArray sampleRate closed hs in
  Processor.running p' = false
  /\ Processor.port_onmessage p' = false
  /\ Processor.pitch p' = Processor.pitch p
  /\ Processor.tempo p' = Processor.tempo p
  /\ Processor.highQuality p' = Processor.highQuality p
  /\ forall inputs outputs r outs,
       fst (Processor.process kBlockSize_ kReserve_ new_HeapArray sampleRate inputs outputs p')
       = Ok (r, outs) ->
       r = false.
Proof.
  intros closed p'.
  assert (Hinv : forall (hs : list Happening) q,
            Processor.running q = false -> Processor.port_onmessage q = false ->
            let q' := happenings kBlockSize_ kReserve_ new_HeapArray sampleRate q hs in
            Processor.running q' = false /\ Processor.port_onmessage q' = false
            /\ Processor.pitch q' = Processor.pitch q
            /\ Processor.tempo q' = Processor.tempo q
            /\ Processor.highQuality q' = Processor.highQuality q).
  { clear. intros hs. induction hs as [|h hs IH]; intros q Hrun Hport; [cbn; auto|].
    assert (Hstep : let q1 := happen kBlockSize_ kReserve_ new_HeapArray sampleRate q h in
                    Processor.running q1 = false /\ Processor.port_onmessage q1 = false
                    /\ Processor.pitch q1 = Processor.pitch q
                    /\ Processor.tempo q1 = Processor.tempo q
                    /\ Processor.highQuality q1 = Processor.highQuality q).
    { destruct h as [m | inputs outputs | module]; cbn [happen].
      - unfold Processor.port_message. rewrite Hport. auto.
      - destruct (render_keeps_settings inputs outputs q) as [Hsettings _].
        unfold settings in Hsettings. injection Hsettings as _ -> -> -> -> ->. auto.
      - unfold Processor.onRuntimeInitialized. destruct (_ && _); cbn; auto. }
    destruct Hstep as (Hrun1 & Hport1 & Hpitch1 & Htempo1 & Hquality1).
    destruct (IH _ Hrun1 Hport1) as (? & ? & ? & ? & ?).
    unfold happenings in *. cbn [foldl]. split_and!; congruence. }
  destruct (Hinv hs closed eq_refl eq_refl) as (Hrun & Hport & Hpitch & Htempo & Hquality).
  fold p' in Hrun, Hport, Hpitch, Htempo, Hquality.
  split_and!; try assumption.
  intros inputs outputs r outs Hout.
  destruct (render_keeps_settings inputs outputs p') as [_ Hret].
  destruct (Hret r outs Hout) as [-> _]. exact Hrun.
Qed.

(** A render before the module is there. *)
Lemma render_without_module (inputs outputs : list (list (list float))) p :
  Processor._module p = None -> Processor._api p = None ->
  Processor.process kBlockSize_ kReserve_ new_HeapArray sampleRate inputs outputs p
  = (Ok (Processor.running p, outputs), p).
Proof.
  intros Hmodule Hapi.
  destruct (getApi_cases
              (if Z.of_nat (length (inputs !!! 0%nat)) =? 0
               then Z.of_nat (length (outputs !!! 0%nat))
               else Z.of_nat (length (inputs !!! 0%nat))) p) as (Hnone & _).
  specialize (Hnone Hmodule). rewrite Hapi in Hnone.
  unfold Processor.process. cbn zeta. destruct (0 <? _).
  - unfold bind at 1. unfold bind at 1. rewrite Hnone. reflexivity.
  - reflexivity.
Qed.

(** X19. Until a module with both classes has arrived, the processor has no
    api and every render leaves the outputs as they are and returns
    [running]: messages are recorded, a module that lacks a class is
    ignored, and nothing is processed. *)
Theorem not_ready_renders_nothing (hs : list Happening)
    (inputs outputs : list (list (list float))) :
  forallb (fun h => negb (makes_ready h)) hs = true ->
  let p := happenings kBlockSize_ kReserve_ new_HeapArray sampleRate
             (Processor.new_RealtimePitchShiftProcessor (E := E)) hs in
  Processor._module p = None
  /\ Processor._api p = None
  /\ Processor.process kBlockSize_ kReserve_ new_HeapArray sampleRate inputs outputs p
     = (Ok (Processor.running p, outputs), p).
Proof.
  intros Hhs p.
  assert (Hinv : forall (hs : list Happening) q,
            forallb (fun h => negb (makes_ready h)) hs = true ->
            Processor._module q = None -> Processor._api q = None ->
            let q' := happenings kBlockSize_ kReserve_ new_HeapArray sampleRate q hs in
            Processor._module q' = None /\ Processor._api q' = None).
  { clear. intros hs. induction hs as [|h hs IH]; intros q Hhs Hmodule Hapi; [cbn; auto|].
    cbn in Hhs. apply andb_true_iff in Hhs as [Hh Hhs]. apply negb_true_iff in Hh.
    unfold happenings in *. cbn [foldl]. apply IH; [exact Hhs | |].
    - destruct h as [m | inputs outputs | module]; cbn [happen].
      + unfold Processor.port_message. destruct (Processor.port_onmessage q); [|exact Hmodule].
        destruct m; cbn; unfold bind, modify, gets; cbn; rewrite ?Hapi; cbn;
          (assumption || reflexivity).
      + rewrite render_without_module by assumption. exact Hmodule.
      + unfold Processor.onRuntimeInitialized. cbn in Hh. rewrite Hh. exact Hmodule.
    - destruct h as [m | inputs outputs | module]; cbn [happen].
      + unfold Processor.port_message. destruct (Processor.port_onmessage q); [|exact Hapi].
        destruct m; cbn; unfold bind, modify, gets; cbn; rewrite ?Hapi; cbn;
          (assumption || reflexivity).
      + rewrite render_without_module by assumption. exact Hapi.
      + unfold Processor.onRuntimeInitialized. cbn in Hh. rewrite Hh. exact Hapi. }
  destruct (Hinv hs Processor.new_RealtimePitchShiftProcessor Hhs eq_refl eq_refl)
    as [Hmodule Hapi].
  fold p in Hmodule, Hapi. split_and!; try assumption.
  apply render_without_module; assumption.
Qed.

(** X20. With the module there, the api [getApi] returns is one for the
    channel count asked for and for the quality the processor holds: the api
    it has when that fits, and else a new one, which takes its place; the
    call throws, with the processor unchanged, only if the constructor
    does. *)
Theorem getApi_matches_the_request (channelCount : Z) (module : Processor.RubberBandModule) p :
  Processor._module p = Some module ->
  let out := Processor.getApi kBlockSize_ kReserve_ new_HeapArray sampleRate channelCount p in
  (exists e, out = (Throw e, p))
  \/ exists a,
       fst out = Ok (Some a)
       /\ Processor._api (snd out) = Some a
       /\ Worklet._channelCount a = channelCount
       /\ Worklet._highQuality a = Processor.highQuality p
       /\ (Processor._api p = Some a -> snd out = p).
Proof.
  intros Hmodule out. subst out.
  destruct (getApi_cases channelCount p) as (_ & Hfits & Hnew).
  destruct (match Processor._api p with
            | None => true
            | Some a => negb (Worklet._channelCount a =? channelCount)
                        || negb (Bool.eqb (Worklet._highQuality a) (Processor.highQuality p))
            end) eqn:Hstale.
  - destruct (Hnew module Hmodule eq_refl) as [[e ->] | (a & -> & Hcount & Hquality & _)].
    + left. exists e. reflexivity.
    + right. exists a. split_and!; try assumption; try reflexivity.
      intros Hsame. destruct p. cbn in *. subst. reflexivity.
  - destruct (Hfits module Hmodule eq_refl) as (a & Hapi & -> & Hcount & Hquality).
    right. exists a. split_and!; try assumption; reflexivity.
Qed.

(** X21. An api that [getApi] builds (the first one, or one for another
    channel count or quality) holds the pitch and the tempo of the processor
    and a kernel with the block size 128, but that kernel's stretcher has not
    been told the pitch: the constructor records it and passes the tempo
    only. *)
Theorem new_api_is_never_told_the_pitch (channelCount : Z)
    (module : Processor.RubberBandModule) p a p' :
  Processor._module p = Some module ->
  (Processor._api p = None
   \/ exists a0, Processor._api p = Some a0
                 /\ (Worklet._channelCount a0 <> channelCount
                     \/ Worklet._highQuality a0 <> Processor.highQuality p)) ->
  Processor.getApi kBlockSize_ kReserve_ new_HeapArray sampleRate channelCount p
  = (Ok (Some a), p') ->
  p' = Processor.set_api (Some a) p
  /\ Worklet._pitch a = Worklet.number_or (Some (Processor.pitch p)) 1%float
  /\ Worklet._tempo a = Worklet.number_or (Some (Processor.tempo p)) 1%float
  /\ Kernel.max_process_size_ (Kernel.self (Worklet._kernel a)) = 128
  /\ count_events is_setPitchScale (Kernel.trace (Worklet._kernel a)) = 0%nat.
Proof.
  intros Hmodule Hnofit Hrun.
  destruct (getApi_cases channelCount p) as (_ & _ & Hnew).
  destruct (Hnew module Hmodule) as [[e He] | (a1 & Ha1 & _ & _ & Hpitch & Htempo & Hmax & Hquiet)].
  - destruct Hnofit as [-> | (a0 & -> & [Hcount | Hquality])]; [reflexivity | |].
    + apply orb_true_iff. left. apply negb_true_iff. lia.
    + apply orb_true_iff. right. apply negb_true_iff.
      destruct (Bool.eqb _ _) eqn:Heq; [|reflexivity]. apply Bool.eqb_prop in Heq. contradiction.
  - rewrite He in Hrun. discriminate.
  - rewrite Ha1 in Hrun. injection Hrun as <- <-. split_and!; auto.
Qed.

End ProcessorFacts.

(** ** More of the theorems at work on the fixtures *)

(** X2 on the fixture: a pull from the session as the constructor leaves it. *)
Lemma underrun_line_witness :
  Kernel.pull 256 128 (Fixture.session 0 2)
  = (Ok tt, Kernel.log (Cerr "BUFFER UNDERRUN") (Fixture.session 0 2)).
Proof.
  destruct (new_is_shaped (H := Fake.stretcher 0 0) _ _ _ _ _ _ _
              (session_is_new 0 2 ltac:(lia))) as [Hshaped Hal].
  apply (proj1 (underrun_line_only_when_empty _ 0 256 128
                  (Fixture.session 0 2) Hshaped Hal ltac:(vm_compute; reflexivity))).
  reflexivity.
Defined.

(** X5 on the fixture: a start delay of 100 and two blocks of 64 samples. *)
Lemma start_delay_only_shrinks_witness :
  let w := Fixture.session_after 100 2 [OpSetMaxProcessSize 128] in
  0 <= Kernel.start_delay_samples_
         (Kernel.self (run (H := Fake.stretcher 0 100) w [OpPush 0 64; OpPull 256 64; OpPush 0 64]))
    <= Kernel.start_delay_samples_ (Kernel.self w).
Proof.
  intros w.
  apply (proj2 (start_delay_only_shrinks (H := Fake.stretcher 0 100))).
  - reflexivity.
  - vm_compute. discriminate.
Defined.

(** X6 on the fixture: the tempo NaN. *)
Lemma nan_ratio_always_resets_witness :
  follows_protocol (H := Fake.stretcher 0 0) CallGetTimeRatio (CallSetTimeRatio nan)
    (fun e => Stretcher.setTimeRatio (api := Fake.stretcher 0 0) e nan)
    (Fixture.session 0 2)
    (Kernel.setTempo (H := Fake.stretcher 0 0) nan (Fixture.session 0 2)).
Proof.
  apply (proj1 (nan_ratio_always_resets (H := Fake.stretcher 0 0) nan (Fixture.session 0 2)
                  ltac:(vm_compute; reflexivity))).
Defined.

(** Handing a block to the stretcher leaves the ring buffers, the scratch
    arrays and the start delay as they are. *)
Lemma processed_keeps {E : Type} `{Stretcher.api E} cap fill (input_ptr sample_size : Z)
    (w : Kernel.World (E := E)) :
  shaped cap (Kernel.self w) -> aligned_at fill (Kernel.self w) ->
  shaped cap (Kernel.self (processed input_ptr sample_size w))
  /\ aligned_at fill (Kernel.self (processed input_ptr sample_size w))
  /\ Kernel.start_delay_samples_ (Kernel.self (processed input_ptr sample_size w))
     = Kernel.start_delay_samples_ (Kernel.self w).
Proof. intros Hshaped Hal. split_and!; [exact Hshaped | exact Hal | reflexivity]. Qed.

(** One channel after 136 blocks were pushed and none pulled: the ring buffer
    is full, and the next block is with the stretcher. *)
Lemma full_session :
  let w0 := Fixture.session_after 0 1 (replicate 136 (OpPush 0 128)) in
  let w := processed (H := Fake.stretcher 0 0) 0 128 w0 in
  shaped 17408 (Kernel.self w)
  /\ aligned_at 17408 (Kernel.self w)
  /\ Kernel.start_delay_samples_ (Kernel.self w) = 0
  /\ Stretcher.available (api := Fake.stretcher 0 0) (Kernel.stretcher_ (Kernel.self w)) = 128.
Proof.
  intros w0 w.
  destruct (session_after_shaped 0 1 (replicate 136 (OpPush 0 128)) ltac:(lia))
    as [Hshaped Hal].
  assert (Hfill : RingBuffer.getReadSpace
                    (Kernel.output_buffer_
                       (Kernel.self (Fixture.session_after 0 1 (replicate 136 (OpPush 0 128))))
                     !!! 0%nat) = 17408) by (vm_compute; reflexivity).
  rewrite Hfill in Hal.
  destruct (processed_keeps (H := Fake.stretcher 0 0) 17408 17408 0 128 _ Hshaped Hal)
    as (Hshaped' & Hal' & Hdelay).
  split_and!; [exact Hshaped' | exact Hal' | | vm_compute; reflexivity].
  subst w w0. rewrite Hdelay. vm_compute. reflexivity.
Qed.

(** X7 on the fixture: one channel, 136 blocks pushed and none pulled, so
    that the ring buffer is full when the next block arrives. *)
Lemma overrun_loses_the_newest_witness :
  let w :=
    processed (H := Fake.stretcher 0 0) 0 128
      (Fixture.session_after 0 1 (replicate 136 (OpPush 0 128))) in
  let w' := snd (Kernel.fetchProcessed (H := Fake.stretcher 0 0) w) in
  Stretcher.available (api := Fake.stretcher 0 0) (Kernel.stretcher_ (Kernel.self w)) = 128
  /\ aligned_at 17408 (Kernel.self w)
  /\ aligned_at 17408 (Kernel.self w')
  /\ Stretcher.available (api := Fake.stretcher 0 0) (Kernel.stretcher_ (Kernel.self w')) = 0.
Proof.
  intros w w'. destruct full_session as (Hshaped & Hal & Hd & Ha). fold w in Hshaped, Hal, Hd, Ha.
  assert (Hdelay : Kernel.start_delay_samples_ (Kernel.self w) <= 0) by (rewrite Hd; lia).
  assert (Hsome : 0 < Stretcher.available (api := Fake.stretcher 0 0)
                        (Kernel.stretcher_ (Kernel.self w))) by (rewrite Ha; lia).
  destruct (overrun_loses_the_newest (H := Fake.stretcher 0 0)
              (StretcherLaws0 := fake_is_lawful 0 0) 17408 17408 w Hshaped Hal ltac:(lia)
              Hdelay Hsome)
    as (_ & _ & Hleft & Hfull).
  split_and!; [exact Ha | exact Hal | apply Hfull; rewrite Ha; lia | exact Hleft].
Defined.

(** The tuned wrapper is what the constructor gives. *)
Lemma tuned_is_new :
  Worklet.new_RealtimeRubberBand (H := Fake.stretcher 0 0) Fixture.kBlockSize_
    Fixture.kReserve_ Fake.new_HeapArray Fake.zero_heap 48000 2
    (Some (Worklet.mkOptions None (Some 2%float) (Some 2%float)))
  = Ok Scenes.tuned.
Proof. vm_compute. reflexivity. Qed.

(** X8 on the fixture: the options pitch 2 and tempo 2. *)
Lemma constructor_records_the_pitch_only_witness :
  Worklet._pitch Scenes.tuned = 2%float
  /\ count_events is_setPitchScale (Kernel.trace (Worklet._kernel Scenes.tuned)) = 0%nat
  /\ Kernel.max_process_size_ (Kernel.self (Worklet._kernel Scenes.tuned)) = 128.
Proof.
  destruct (constructor_records_the_pitch_only (H := Fake.stretcher 0 0) _ _ _ _ _ _ _ _
              tuned_is_new)
    as (_ & _ & _ & _ & _ & Hmax & _ & Hpitch & Hquiet & _).
  split_and!; [exact Hpitch | exact Hquiet | exact Hmax].
Defined.

(** X9 on the fixture: the time ratio -1 and the pitch 0. *)
Lemma rejected_ratio_is_still_stored_witness :
  let o := Fixture.worklet (Fixture.session_after 0 2 [OpSetMaxProcessSize 128]) in
  fst (Worklet.get_timeRatio
         (snd (Worklet.set_timeRatio (H := Fake.stretcher 0 0) (-1)%float o)))
  = Ok (-1)%float
  /\ Worklet._pitch (snd (Worklet.set_pitchScale (H := Fake.stretcher 0 0) 0%float o))
     = 0%float.
Proof.
  intros o.
  destruct (rejected_ratio_is_still_stored (H := Fake.stretcher 0 0) o) as [Htempo Hpitch].
  split.
  - apply (Htempo (-1)%float). vm_compute. reflexivity.
  - apply (Hpitch 0%float). vm_compute. reflexivity.
Defined.

(** X10 on the fixture. *)
Lemma zero_timeRatio_is_not_rejected_witness :
  let o := Fixture.worklet (Fixture.session_after 0 2 [OpSetMaxProcessSize 128]) in
  fst (Worklet.set_timeRatio (H := Fake.stretcher 0 0) 0%float o) = Ok tt
  /\ fst (Worklet.set_timeRatio (H := Fake.stretcher 0 0) neg_zero o)
     = Throw (range_error "Tempo has to be greater than 0").
Proof.
  intros o.
  destruct (zero_timeRatio_is_not_rejected (H := Fake.stretcher 0 0)
              (StretcherLaws0 := fake_is_lawful 0 0) o) as [(Hok & _) Hneg].
  split; [exact Hok | rewrite Hneg; reflexivity].
Defined.

(** X11 on the fixture: the pitch 2. *)
Lemma pitchScale_reaches_the_stretcher_witness :
  let o := Fixture.worklet (Fixture.session_after 0 2 [OpSetMaxProcessSize 128]) in
  let out := Worklet.set_pitchScale (H := Fake.stretcher 0 0) 2%float o in
  fst out = Ok tt
  /\ Worklet._pitch (snd out) = 2%float
  /\ PrimFloat.eqb
       (Fake.pitch_scale (Kernel.stretcher_ (Kernel.self (Worklet._kernel (snd out)))))
       2%float = true.
Proof.
  intros o out.
  destruct (pitchScale_reaches_the_stretcher (H := Fake.stretcher 0 0)
              (StretcherLaws0 := fake_is_lawful 0 0) 2%float o ltac:(vm_compute; reflexivity))
    as (_ & Hok & Hpitch & _ & Hset).
  split_and!; [exact Hok | exact Hpitch | exact Hset].
Defined.

(** X13 on the fixture: a short fill, 28 samples for blocks of 128. *)
Lemma wrapper_pull_never_underruns_witness :
  let o :=
    Fixture.worklet (Fixture.session_after 100 2 [OpSetMaxProcessSize 128; OpPush 0 128]) in
  Kernel.trace (Worklet._kernel (snd (Worklet.pull Fixture.silence o)))
  = Kernel.trace (Worklet._kernel o).
Proof.
  intros o.
  destruct (session_after_shaped 100 2 [OpSetMaxProcessSize 128; OpPush 0 128] ltac:(lia))
    as [Hshaped Hal].
  destruct (wrapper_pull_never_underruns 17408 Fixture.silence o Hshaped
              (ex_intro (fun fill => aligned_at fill _) _ Hal)) as (Htrace & _).
  exact Htrace.
Defined.

(** The HeapArrays of the test double are laid out. *)
Lemma fake_is_laid_out (serial : nat) (len n : Z) :
  laid_out len (Fake.new_HeapArray serial len n).
Proof.
  intros i v Hv. unfold Worklet.getChannelArray, Fake.new_HeapArray in Hv.
  cbn [Worklet.channelData Worklet.getHeapAddress] in *. rewrite list_lookup_fmap in Hv.
  destruct (seqZ 0 n !! i) as [c|] eqn:Hc; [|discriminate].
  apply lookup_seqZ in Hc as [-> _]. injection Hv as <-. cbn. split; [lia | reflexivity].
Qed.

Lemma fixture_input_views (kernel : Kernel.World (E := Fake.state)) (i : nat) :
  (i < 2)%nat ->
  is_Some (Worklet.getChannelArray (Worklet._inputArray (Fixture.worklet kernel)) i).
Proof. intros Hi. destruct i as [|[|i]]; [eexists; reflexivity | eexists; reflexivity | lia]. Qed.

(** X14 on the fixture: a block of ones and twos. *)
Lemma push_hands_over_the_block_witness :
  let o := Fixture.worklet (Fixture.session_after 0 2 [OpSetMaxProcessSize 128]) in
  let kernel := Worklet._kernel o in
  exists heap',
    Worklet.push (H := Fake.stretcher 0 0) (Scenes.block 128) (Some 128) o
    = (Ok tt,
       Worklet.set_kernel
         (snd (Kernel.fetchProcessed (H := Fake.stretcher 0 0)
                 (Kernel.log (CallProcess 128 false)
                    (Kernel.with_self
                       (Kernel.set_stretcher
                          (Stretcher.process (api := Fake.stretcher 0 0)
                             (Kernel.stretcher_ (Kernel.self kernel))
                             (Scenes.block 128) 128 false))
                       (Kernel.mkWorld (Kernel.self kernel) heap' (Kernel.trace kernel))))))
         o).
Proof.
  intros o kernel.
  destruct (push_hands_over_the_block (H := Fake.stretcher 0 0) (Scenes.block 128) (Some 128) o)
    as (heap' & Hrun & _).
  - apply fake_is_laid_out.
  - reflexivity.
  - discriminate.
  - reflexivity.
  - apply fixture_input_views.
  - repeat constructor.
  - exists heap'. exact Hrun.
Defined.

(** X15 on the fixture: a block of 64 ones and 64 twos; the stretcher gets
    the ones, and for the second channel the zeros the heap held. *)
Lemma short_block_is_not_handed_over_witness :
  let o := Fixture.worklet (Fixture.session_after 0 2 [OpSetMaxProcessSize 128]) in
  exists heap',
    let w1 :=
      Kernel.mkWorld (Kernel.self (Worklet._kernel o)) heap'
        (Kernel.trace (Worklet._kernel o)) in
    fst (Worklet.push (H := Fake.stretcher 0 0) (Scenes.block 64) (Some 64) o) = Ok tt
    /\ pushed_input 0 64 w1 !! 0%nat = Some (replicate 64 1%float)
    /\ pushed_input 0 64 w1 !! 1%nat = Some (replicate 64 0%float).
Proof.
  intros o.
  destruct (short_block_is_not_handed_over (H := Fake.stretcher 0 0) (Scenes.block 64) 64 o)
    as (heap' & Hrun & Hfirst & Hlater).
  - apply fake_is_laid_out.
  - lia.
  - discriminate.
  - reflexivity.
  - apply fixture_input_views.
  - repeat constructor.
  - exists heap'. cbn zeta in *. split_and!.
    + rewrite Hrun. reflexivity.
    + exact Hfirst.
    + refine (eq_trans (Hlater 1%nat _ _) _); [cbn; lia | lia | vm_compute; reflexivity].
Defined.

(** X16 on the fixture: parts of 200 and of 64 samples of two channels of 256. *)
Lemma pushSlice_guards_the_length_witness :
  let o := Fixture.worklet (Fixture.session_after 0 2 [OpSetMaxProcessSize 128]) in
  Worklet.pushSlice (H := Fake.stretcher 0 0) (Scenes.block 256) 0 200 o
  = (Worklet.PartIsLarger 200 128, o)
  /\ exists o',
       Worklet.pushSlice (H := Fake.stretcher 0 0) (Scenes.block 256) 64 128 o
       = (Worklet.Pushed (Ok tt), o').
Proof.
  intros o. split.
  - apply (proj1 (pushSlice_guards_the_length (H := Fake.stretcher 0 0)
                    (Scenes.block 256) 0 200 o)). lia.
  - destruct (proj2 (proj2 (pushSlice_guards_the_length (H := Fake.stretcher 0 0)
                              (Scenes.block 256) 64 128 o)))
      as (o' & Hrun & _).
    + lia.
    + lia.
    + intros i Hi. destruct i as [|[|i]]; [| |cbn in Hi; lia];
        eexists; split; reflexivity.
    + exists o'. exact Hrun.
Defined.

(** X19 on the fixture: a pitch, a render and a module that lacks a class. *)
Lemma not_ready_renders_nothing_witness :
  let p :=
    happenings (H := Fake.stretcher 0 0) Fixture.kBlockSize_ Fixture.kReserve_
      Fake.new_HeapArray 48000 Processor.new_RealtimePitchShiftProcessor
      [Posted (Processor.pitch_message 2%float);
       Rendered [Scenes.block 128] [Fixture.silence];
       Initialized Scenes.broken_module] in
  Processor.process (H := Fake.stretcher 0 0) Fixture.kBlockSize_ Fixture.kReserve_
    Fake.new_HeapArray 48000 [Scenes.block 128] [Fixture.silence] p
  = (Ok (Processor.running p, [Fixture.silence]), p).
Proof.
  intros p.
  apply (not_ready_renders_nothing (H := Fake.stretcher 0 0) Fixture.kBlockSize_
           Fixture.kReserve_ Fake.new_HeapArray 48000
           [Posted (Processor.pitch_message 2%float);
            Rendered [Scenes.block 128] [Fixture.silence];
            Initialized Scenes.broken_module]).
  reflexivity.
Defined.

(** The first api is what [getApi] gives the ready processor. *)
Lemma first_api_is_built :
  Processor.getApi (H := Fake.stretcher 0 0) Fixture.kBlockSize_ Fixture.kReserve_
    Fake.new_HeapArray 48000 2 Scenes.ready
  = (Ok (Some Scenes.first_api), Processor.set_api (Some Scenes.first_api) Scenes.ready).
Proof. vm_compute. reflexivity. Qed.

(** X20 on the fixture: the first api is one for two channels. *)
Lemma getApi_matches_the_request_witness :
  Worklet._channelCount Scenes.first_api = 2
  /\ Worklet._highQuality Scenes.first_api = false.
Proof.
  destruct (getApi_matches_the_request (H := Fake.stretcher 0 0) Fixture.kBlockSize_
              Fixture.kReserve_ Fake.new_HeapArray 48000 2 Scenes.module Scenes.ready eq_refl)
    as [[e He] | (a & Hfst & _ & Hcount & Hquality & _)].
  - rewrite first_api_is_built in He. discriminate.
  - rewrite first_api_is_built in Hfst. injection Hfst as <-. split; assumption.
Defined.

(** X21 on the fixture: the pitch 2 was posted before the first render. *)
Lemma new_api_is_never_told_the_pitch_witness :
  Processor.pitch Scenes.ready = 2%float
  /\ Worklet._pitch Scenes.first_api = 2%float
  /\ count_events is_setPitchScale (Kernel.trace (Worklet._kernel Scenes.first_api)) = 0%nat.
Proof.
  destruct (new_api_is_never_told_the_pitch (H := Fake.stretcher 0 0) Fixture.kBlockSize_
              Fixture.kReserve_ Fake.new_HeapArray 48000 2 Scenes.module Scenes.ready
              Scenes.first_api _ eq_refl (or_introl eq_refl) first_api_is_built)
    as (_ & Hpitch & _ & _ & Hquiet).
  split_and!; [reflexivity | exact Hpitch | exact Hquiet].
Defined.

(** ** C3 at work: a short fill through the wrapper *)

(** The wrapper after its push: the kernel is what the push of the kernel
    leaves, so that its channels are aligned. *)
Lemma short_of_samples_aligned :
  let kernel := Worklet._kernel Scenes.short_of_samples in
  shaped 17408 (Kernel.self kernel)
  /\ aligned_at
       (RingBuffer.getReadSpace (Kernel.output_buffer_ (Kernel.self kernel) !!! 0%nat))
       (Kernel.self kernel).
Proof.
  intros kernel. subst kernel. unfold Scenes.short_of_samples.
  destruct (session_after_shaped 100 2 [OpSetMaxProcessSize 128] ltac:(lia))
    as [Hshaped Hal].
  destruct (worklet_push_run (H := Fake.stretcher 0 100) 128 128 (Scenes.block 128) (Some 128)
              (Fixture.worklet (Fixture.session_after 100 2 [OpSetMaxProcessSize 128])))
    as (heap' & Hrun & _).
  - apply fake_is_laid_out.
  - reflexivity.
  - discriminate.
  - intros i src Hsrc. split.
    + apply fixture_input_views. apply lookup_lt_Some in Hsrc. exact Hsrc.
    + destruct i as [|[|i]]; [| |discriminate]; injection Hsrc as <-; cbn; lia.
  - cbn zeta in Hrun. rewrite Hrun. cbn [snd Worklet._kernel Worklet.set_kernel].
    match goal with |- context [Kernel.fetchProcessed ?w] =>
      destruct (fetch_keeps_aligned (H := Fake.stretcher 0 100) 17408 _ w Hshaped Hal)
        as (written & _ & Hshaped' & Hal' & _) end.
    split; [exact Hshaped'|]. apply aligned_at_head. eexists. exact Hal'.
Qed.

(** What the fixture holds: 28 ones and 28 twos in the ring buffers, the
    output HeapArray at 256, and what a pull into the marked channels
    returns. *)
Lemma short_of_samples_facts :
  let o := Scenes.short_of_samples in
  let kernel := Worklet._kernel o in
  Worklet._outputArray o = Fake.new_HeapArray 1 128 2
  /\ RingBuffer.data <$> Kernel.output_buffer_ (Kernel.self kernel)
     = [replicate 28 1%float; replicate 28 2%float]
  /\ Kernel.channel_count_ (Kernel.self kernel) = 2
  /\ fst (Worklet.pull Scenes.marked o)
     = Ok [replicate 28 1%float ++ replicate 100 9%float;
           replicate 28 0%float ++ replicate 100 9%float]
  /\ fills (Kernel.self (Worklet._kernel (snd (Worklet.pull Scenes.marked o)))) = [0; 0]
  /\ load_block (Kernel.heap kernel) (256 + 128) 28 = replicate 28 0%float.
Proof. vm_compute. repeat split. Qed.

(** C3 on the fixture: 28 ones and 28 twos wait in the two ring buffers, and
    the output channels hold nines.  The pull returns the ones in the first
    channel; the second gets 28 zeros, cells of the heap that nothing wrote,
    in place of its twos, and both ring buffers are empty afterwards. *)
Lemma short_fill_loses_the_second_channel :
  let o := Scenes.short_of_samples in
  let kernel := Worklet._kernel o in
  RingBuffer.data <$> Kernel.output_buffer_ (Kernel.self kernel)
  = [replicate 28 1%float; replicate 28 2%float]
  /\ fst (Worklet.pull Scenes.marked o)
     = Ok [replicate 28 1%float ++ replicate 100 9%float;
           replicate 28 0%float ++ replicate 100 9%float]
  /\ fills (Kernel.self (Worklet._kernel (snd (Worklet.pull Scenes.marked o)))) = [0; 0]
  /\ exists filled o',
       Worklet.pull Scenes.marked o = (Ok filled, o')
       /\ filled !! 1%nat
          = Some (load_block (Kernel.heap kernel) (256 + 128) 28
                  ++ drop 28 (replicate 128 9%float)).
Proof.
  intros o kernel.
  destruct short_of_samples_facts as (Harray & Hdata & Hcount & Hpull & Hfills & _).
  destruct short_of_samples_aligned as [Hshaped Hal].
  fold o in Harray, Hdata, Hcount, Hpull, Hfills, Hshaped, Hal.
  fold kernel in Hdata, Hcount, Hshaped, Hal.
  assert (HA : RingBuffer.getReadSpace
                 (Kernel.output_buffer_ (Kernel.self kernel) !!! 0%nat) = 28)
    by (vm_compute; reflexivity).
  assert (Hlaid : laid_out 128 (Worklet._outputArray o))
    by (rewrite Harray; apply fake_is_laid_out).
  assert (Hfit : forall (i : nat) dst, Scenes.marked !! i = Some dst ->
            Z.min (RingBuffer.getReadSpace
                     (Kernel.output_buffer_ (Kernel.self kernel) !!! 0%nat))
                  (Z.of_nat (length (Scenes.marked !!! 0%nat)))
            <= Z.of_nat (length dst)
            /\ is_Some (Worklet.getChannelArray (Worklet._outputArray o) i)).
  { intros i dst Hdst. rewrite HA, Harray.
    destruct i as [|[|i]]; [| |discriminate]; injection Hdst as <-;
      (split; [vm_compute; discriminate | eexists; reflexivity]). }
  destruct (proj2 (pull_copies_whole_blocks_only (E := Fake.state))
              17408 Scenes.marked o Hshaped Hal Hlaid)
    as (filled & o' & Hrun & _ & _ & _ & _ & Hstale).
  - fold kernel. rewrite HA. vm_compute. split; [reflexivity | discriminate].
  - exact Hfit.
  - split_and!; [exact Hdata | exact Hpull | exact Hfills |].
    exists filled, o'. split; [exact Hrun|].
    fold kernel in Hstale. rewrite HA, Harray, Hcount in Hstale.
    apply (Hstale ltac:(vm_compute; discriminate) 1%nat (replicate 128 9%float));
      [lia | reflexivity].
Defined.

